(** * VeriAct Healthcare: validation state machine and suggestion engine

    A shallow embedding of [backend/app/api/validation.py] (the FastAPI
    handlers [validate_acte], [create_override], [reject_acte]) and of
    [agent_ai/services/ai_service.py] (the [AIService] suggestion pipeline),
    with the properties the specification states about them.

    Conventions of the embedding:
    - a Python [str] is the [string] of its UTF-8 encoding: a character
      outside ASCII takes several [ascii], and the operations that count
      characters ([x[:100]], iteration) count code points;
    - a JSON number is a [number]: a Python [int] is an integer of [Z], a
      Python [float] is a binary64 [float], with the arithmetic and the
      comparisons of IEEE 754; the [score_confiance] column of an act,
      which the handlers only test and compare with a constant, is a
      rational [Q];
    - a database session is an explicit [DB] value threaded through every
      service call; an exception is a [Raise] result carrying the state
      reached when it was raised;
    - collaborators whose code is not part of the repository sources
      ([ActeService], [OverrideService], [BlockchainService], [RuleEngine],
      the LLM client, [json.loads], [hash], [str]) are parameters. *)

From Stdlib Require Import ZArith QArith Qminmax Ascii String List Lia Lqa.
From Stdlib Require Import Floats.
From stdpp Require Import base option list gmap strings sorting pretty.

Local Open Scope Z_scope.
Local Open Scope string_scope.
Local Open Scope list_scope.
Set Warnings "-register-all,-inexact-float".

(** ** Python values, exceptions, results *)

(** A Python number: an [int], of any size, or a [float]. *)
Inductive number : Type :=
| Int (z : Z)
| Float (f : float).

(** What [json.loads] produces, and what the handlers put in dict literals. *)
Inductive json : Type :=
| JNull
| JBool (b : bool)
| JNum (n : number)
| JStr (s : string)
| JArr (l : list json)
| JObj (kv : list (string * json)).

(** A raised exception: its class name and [str(e)]. *)
Record PyExc : Type := mkExc { exc_class : string; exc_str : string }.

Inductive result (A : Type) : Type :=
| Ok (a : A)
| Raise (e : PyExc).
Arguments Ok {A} a.
Arguments Raise {A} e.

Definition is_ok {A} (r : result A) : bool :=
  match r with Ok _ => true | Raise _ => false end.

(** [fastapi.HTTPException(status_code=..., detail=...)]. *)
Record HTTPException : Type := mkHTTP { status_code : Z; detail : string }.

(** What a handler gives back to the framework. *)
Inductive reply (A : Type) : Type :=
| Success (a : A)
| Failure (h : HTTPException).
Arguments Success {A} a.
Arguments Failure {A} h.

Definition succeeded {A} (r : reply A) : bool :=
  match r with Success _ => true | Failure _ => false end.

Definition HTTP_400_BAD_REQUEST : Z := 400.
Definition HTTP_403_FORBIDDEN : Z := 403.
Definition HTTP_404_NOT_FOUND : Z := 404.
Definition HTTP_500_INTERNAL_SERVER_ERROR : Z := 500.

(** Truth value of an optional number, as in [if acte.score_confiance and ...]:
    [None] and zero are falsy. *)
Definition truthy_num (x : option Q) : bool :=
  match x with
  | None => false
  | Some q => negb (Qeq_bool q 0)
  end.

Definition Qltb (a b : Q) : bool :=
  match (a ?= b)%Q with Lt => true | _ => false end.

(** [x or default] on an optional string: [None] and the empty string are falsy. *)
Definition str_or (x : option string) (default : string) : string :=
  match x with
  | None => default
  | Some s => if String.eqb s "" then default else s
  end.

(** [x in [a, b, ...]] on strings. *)
Definition str_in (x : string) (l : list string) : bool :=
  existsb (String.eqb x) l.

(** ** Models ([backend/app/models]) and schemas ([backend/app/schemas]) *)

Inductive UserRole : Type := MEDECIN | ADMINISTRATIF | ADMIN | AUDIT.

Definition role_value (r : UserRole) : string :=
  match r with
  | MEDECIN => "medecin"
  | ADMINISTRATIF => "administratif"
  | ADMIN => "admin"
  | AUDIT => "audit"
  end.

Module Utilisateur.
Record t : Type := mk {
  id : Z;
  email : string;
  username : string;
  role : UserRole;
  is_active : bool;
  is_verified : bool
}.
End Utilisateur.

Module Acte.
Record t : Type := mk {
  id : Z;
  numero_acte : string;
  patient_id : string;
  type_acte : string;
  description_clinique : string;
  materiel_utilise : option string;
  duree_acte : option Z;
  modificateurs : option (list string);
  code_ccam_suggere : option string;
  code_ccam_final : option string;
  score_confiance : option Q;
  statut : string;
  date_validation : option Z;
  mode_traitement : string;
  etablissement : string;
  service : option string;
  date_acte : Z;
  createur_id : Z;
  validateur_id : option Z;
  transaction_hash : option string;
  block_number : option Z
}.
End Acte.

Module Override.
Record t : Type := mk {
  id : Z;
  acte_id : Z;
  utilisateur_id : Z;
  code_ccam_original : string;
  code_ccam_override : string;
  justification : string;
  type_override : string;
  signature_numerique : option string;
  is_approved : bool;
  approved_by : option Z;
  transaction_hash : option string
}.
End Override.

Module AuditEntry.
Record t : Type := mk {
  id : Z;
  acte_id : option Z;
  utilisateur_id : option Z;
  action : string;
  entity_type : string;
  entity_id : option Z;
  old_values : option json;
  new_values : option json;
  transaction_hash : option string;
  timestamp : Z
}.
End AuditEntry.

(** [schemas.acte.ActeValidation]. *)
Module ActeValidation.
Record t : Type := mk {
  code_ccam_final : string;
  justification : option string;
  force_validation : bool
}.
End ActeValidation.

(** [schemas.override.OverrideCreate]: the schema file is not among the
    sources; these are the four attributes [create_override] reads. *)
Module OverrideCreate.
Record t : Type := mk {
  code_ccam_original : string;
  code_ccam_override : string;
  justification : string;
  type_override : string
}.
End OverrideCreate.

(** The three tables the handlers touch, and the clock column defaults read. *)
Record DB : Type := mkDB {
  actes : gmap Z Acte.t;
  overrides : list Override.t;
  audit_entries : list AuditEntry.t;
  utcnow : Z
}.

(** The keyword arguments of one [background_tasks.add_task(
    acte_service.log_audit_action, ...)]. *)
Record AuditTask : Type := mkTask {
  task_acte_id : Z;
  task_user_id : Z;
  task_action : string;
  task_entity_type : string;
  task_new_values : option json
}.

(** ** The collaborators of the handlers *)

Module ActeService.
Record t : Type := mk {
  get_acte_by_id : DB → Z → option Acte.t;
  (* acte_id, code_ccam_final, validateur_id, justification *)
  validate_acte : Z → string → Z → option string → DB → result Acte.t * DB;
  (* acte_id, validateur_id, reason *)
  reject_acte : Z → Z → string → DB → result Acte.t * DB;
  (* acte_id, transaction_hash *)
  update_acte_blockchain_info : Z → string → DB → result unit * DB;
  (* acte_id, code_suggere *)
  update_acte_suggestion : Z → string → DB → result unit * DB;
  log_audit_action : AuditTask → DB → result unit * DB
}.
End ActeService.

Module OverrideService.
Record t : Type := mk {
  (* acte_id, utilisateur_id, code_ccam_original, code_ccam_override,
     justification, type_override *)
  create_override :
    Z → Z → string → string → string → string → DB → result Override.t * DB;
  (* override_id, transaction_hash *)
  update_override_blockchain_info : Z → string → DB → result unit * DB;
  get_overrides_by_acte : DB → Z → list Override.t
}.
End OverrideService.

Module BlockchainService.
(** The ledger is external: [Chain] is whatever state it has. *)
Record t (Chain : Type) : Type := mk {
  (* acte_id, code_ccam, version_ccam, auteur_id, justification *)
  record_validation :
    Z → string → option string → Z → string → Chain → result string * Chain;
  (* override_id, acte_id, code_ccam_original, code_ccam_override,
     auteur_id, justification *)
  record_override :
    Z → Z → string → string → Z → string → Chain → result string * Chain;
  (* acte_id, auteur_id, reason *)
  record_rejection : Z → Z → string → Chain → result string * Chain
}.
Arguments record_validation {Chain} _.
Arguments record_override {Chain} _.
Arguments record_rejection {Chain} _.
End BlockchainService.

(** Everything a request can read or change: the database, the ledger, and
    the request's [BackgroundTasks], which the framework runs after the
    response has been sent. *)
Record World (Chain : Type) : Type := mkWorld {
  db : DB;
  chain : Chain;
  background_tasks : list AuditTask
}.
Arguments mkWorld {Chain}.
Arguments db {Chain}.
Arguments chain {Chain}.
Arguments background_tasks {Chain}.

(** ** [backend/app/api/validation.py] *)

Section Handlers.
Context {Chain : Type}.
Variable acte_service : ActeService.t.
Variable override_service : OverrideService.t.
Variable blockchain_service : BlockchainService.t Chain.

(** The body of a [try:] block: a computation that reads and changes the
    world and may raise; what was changed before the raise stays changed. *)
Definition Eff (A : Type) : Type := World Chain → result A * World Chain.

Definition ret {A} (a : A) : Eff A := fun w => (Ok a, w).

Definition bind {A B} (m : Eff A) (k : A → Eff B) : Eff B :=
  fun w =>
    match m w with
    | (Ok a, w') => k a w'
    | (Raise e, w') => (Raise e, w')
    end.

Definition on_db {A} (f : DB → result A * DB) : Eff A :=
  fun w =>
    let (r, d) := f (db w) in
    (r, mkWorld d (chain w) (background_tasks w)).

Definition on_chain {A} (f : Chain → result A * Chain) : Eff A :=
  fun w =>
    let (r, c) := f (chain w) in
    (r, mkWorld (db w) c (background_tasks w)).

Definition add_task (t : AuditTask) : Eff unit :=
  fun w => (Ok tt, mkWorld (db w) (chain w) (background_tasks w ++ [t])).

Notation "x <~ m ;; k" := (bind m (fun x => k))
  (at level 100, m at next level, right associativity).

(** [try: body except Exception as e: raise HTTPException(500, prefix + str(e))] *)
Definition try_500 {A} (prefix : string) (body : Eff A)
    (w : World Chain) : reply A * World Chain :=
  match body w with
  | (Ok a, w') => (Success a, w')
  | (Raise e, w') =>
      (Failure (mkHTTP HTTP_500_INTERNAL_SERVER_ERROR
                  (String.append prefix (exc_str e))), w')
  end.

(** [acte.createur_id != current_user.id and
     current_user.role.value not in ["admin", "medecin"]] *)
Definition forbidden (acte : Acte.t) (current_user : Utilisateur.t) : bool :=
  negb (Z.eqb (Acte.createur_id acte) (Utilisateur.id current_user))
  && negb (str_in (role_value (Utilisateur.role current_user))
             ["admin"; "medecin"]).

(** [acte.statut in ["valide", "rejete"]] *)
Definition finalized (acte : Acte.t) : bool :=
  str_in (Acte.statut acte) ["valide"; "rejete"].

(** [not validation_data.force_validation and acte.score_confiance
     and acte.score_confiance < 50] *)
Definition low_confidence (validation_data : ActeValidation.t)
    (acte : Acte.t) : bool :=
  negb (ActeValidation.force_validation validation_data)
  && truthy_num (Acte.score_confiance acte)
  && match Acte.score_confiance acte with
     | Some s => Qltb s 50
     | None => false
     end.

(** The [try] block of [validate_acte]. [acte] is the row fetched before the
    block; its [code_ccam_suggere] is what goes to the ledger as
    [version_ccam]. *)
Definition validate_acte_body (acte_id : Z)
    (validation_data : ActeValidation.t) (current_user : Utilisateur.t)
    (acte : Acte.t) : Eff json :=
  updated_acte <~ on_db (ActeService.validate_acte acte_service acte_id
                    (ActeValidation.code_ccam_final validation_data)
                    (Utilisateur.id current_user)
                    (ActeValidation.justification validation_data)) ;;
  transaction_hash <~ on_chain (BlockchainService.record_validation
                    blockchain_service acte_id
                    (ActeValidation.code_ccam_final validation_data)
                    (Acte.code_ccam_suggere acte)
                    (Utilisateur.id current_user)
                    (str_or (ActeValidation.justification validation_data)
                            "Validation standard")) ;;
  _ <~ on_db (ActeService.update_acte_blockchain_info acte_service
                    acte_id transaction_hash) ;;
  _ <~ add_task {|
         task_acte_id := acte_id;
         task_user_id := Utilisateur.id current_user;
         task_action := "validate_acte";
         task_entity_type := "acte";
         task_new_values := Some (JObj [
           ("code_ccam_final",
              JStr (ActeValidation.code_ccam_final validation_data));
           ("statut", JStr "valide");
           ("transaction_hash", JStr transaction_hash)]) |} ;;
  ret (JObj [
    ("message", JStr "Acte validé avec succès");
    ("acte_id", JNum (Int acte_id));
    ("transaction_hash", JStr transaction_hash);
    ("statut", JStr "valide")]).

Definition validate_acte (acte_id : Z) (validation_data : ActeValidation.t)
    (current_user : Utilisateur.t) (w : World Chain)
    : reply json * World Chain :=
  match ActeService.get_acte_by_id acte_service (db w) acte_id with
  | None => (Failure (mkHTTP HTTP_404_NOT_FOUND "Acte non trouvé"), w)
  | Some acte =>
      if forbidden acte current_user then
        (Failure (mkHTTP HTTP_403_FORBIDDEN "Accès non autorisé"), w)
      else if finalized acte then
        (Failure (mkHTTP HTTP_400_BAD_REQUEST "Acte déjà validé"), w)
      else if low_confidence validation_data acte then
        (Failure (mkHTTP HTTP_400_BAD_REQUEST
           "Score de confiance trop faible. Utilisez force_validation=true pour forcer."),
         w)
      else
        try_500 "Erreur lors de la validation: "
          (validate_acte_body acte_id validation_data current_user acte) w
  end.

(** The [try] block of [create_override]; it returns the override as the
    service created it. *)
Definition create_override_body (acte_id : Z)
    (override_data : OverrideCreate.t) (current_user : Utilisateur.t)
    : Eff Override.t :=
  override <~ on_db (OverrideService.create_override override_service
                    acte_id (Utilisateur.id current_user)
                    (OverrideCreate.code_ccam_original override_data)
                    (OverrideCreate.code_ccam_override override_data)
                    (OverrideCreate.justification override_data)
                    (OverrideCreate.type_override override_data)) ;;
  transaction_hash <~ on_chain (BlockchainService.record_override
                    blockchain_service (Override.id override) acte_id
                    (OverrideCreate.code_ccam_original override_data)
                    (OverrideCreate.code_ccam_override override_data)
                    (Utilisateur.id current_user)
                    (OverrideCreate.justification override_data)) ;;
  _ <~ on_db (OverrideService.update_override_blockchain_info
                    override_service (Override.id override)
                    transaction_hash) ;;
  _ <~ on_db (ActeService.update_acte_suggestion acte_service acte_id
                    (OverrideCreate.code_ccam_override override_data)) ;;
  _ <~ add_task {|
         task_acte_id := acte_id;
         task_user_id := Utilisateur.id current_user;
         task_action := "create_override";
         task_entity_type := "override";
         task_new_values := Some (JObj [
           ("override_id", JNum (Int (Override.id override)));
           ("code_ccam_override",
              JStr (OverrideCreate.code_ccam_override override_data));
           ("transaction_hash", JStr transaction_hash)]) |} ;;
  ret override.

Definition create_override (acte_id : Z) (override_data : OverrideCreate.t)
    (current_user : Utilisateur.t) (w : World Chain)
    : reply Override.t * World Chain :=
  match ActeService.get_acte_by_id acte_service (db w) acte_id with
  | None => (Failure (mkHTTP HTTP_404_NOT_FOUND "Acte non trouvé"), w)
  | Some acte =>
      if forbidden acte current_user then
        (Failure (mkHTTP HTTP_403_FORBIDDEN "Accès non autorisé"), w)
      else if finalized acte then
        (Failure (mkHTTP HTTP_400_BAD_REQUEST
           "Impossible de créer un override sur un acte déjà validé"), w)
      else
        try_500 "Erreur lors de la création de l'override: "
          (create_override_body acte_id override_data current_user) w
  end.

(** The [try] block of [reject_acte]. *)
Definition reject_acte_body (acte_id : Z) (reason : string)
    (current_user : Utilisateur.t) : Eff json :=
  updated_acte <~ on_db (ActeService.reject_acte acte_service acte_id
                    (Utilisateur.id current_user) reason) ;;
  transaction_hash <~ on_chain (BlockchainService.record_rejection
                    blockchain_service acte_id
                    (Utilisateur.id current_user) reason) ;;
  _ <~ on_db (ActeService.update_acte_blockchain_info acte_service
                    acte_id transaction_hash) ;;
  _ <~ add_task {|
         task_acte_id := acte_id;
         task_user_id := Utilisateur.id current_user;
         task_action := "reject_acte";
         task_entity_type := "acte";
         task_new_values := Some (JObj [
           ("statut", JStr "rejete");
           ("reason", JStr reason);
           ("transaction_hash", JStr transaction_hash)]) |} ;;
  ret (JObj [
    ("message", JStr "Acte rejeté avec succès");
    ("acte_id", JNum (Int acte_id));
    ("transaction_hash", JStr transaction_hash);
    ("statut", JStr "rejete")]).

Definition reject_acte (acte_id : Z) (reason : string)
    (current_user : Utilisateur.t) (w : World Chain)
    : reply json * World Chain :=
  match ActeService.get_acte_by_id acte_service (db w) acte_id with
  | None => (Failure (mkHTTP HTTP_404_NOT_FOUND "Acte non trouvé"), w)
  | Some acte =>
      if forbidden acte current_user then
        (Failure (mkHTTP HTTP_403_FORBIDDEN "Accès non autorisé"), w)
      else if finalized acte then
        (Failure (mkHTTP HTTP_400_BAD_REQUEST "Acte déjà traité"), w)
      else
        try_500 "Erreur lors du rejet: "
          (reject_acte_body acte_id reason current_user) w
  end.

(** The three mutating routes of the router, as one request type. *)
Inductive Request : Type :=
| POST_validate (acte_id : Z) (validation_data : ActeValidation.t)
| POST_override (acte_id : Z) (override_data : OverrideCreate.t)
| POST_reject (acte_id : Z) (reason : string).

Inductive Response : Type :=
| RespDict (d : json)
| RespOverride (o : Override.t).

Definition map_reply {A B} (f : A → B) (r : reply A * World Chain)
    : reply B * World Chain :=
  match r with
  | (Success a, w) => (Success (f a), w)
  | (Failure h, w) => (Failure h, w)
  end.

Definition handle (req : Request) (current_user : Utilisateur.t)
    (w : World Chain) : reply Response * World Chain :=
  match req with
  | POST_validate acte_id validation_data =>
      map_reply RespDict (validate_acte acte_id validation_data current_user w)
  | POST_override acte_id override_data =>
      map_reply RespOverride
        (create_override acte_id override_data current_user w)
  | POST_reject acte_id reason =>
      map_reply RespDict (reject_acte acte_id reason current_user w)
  end.

Definition request_acte_id (req : Request) : Z :=
  match req with
  | POST_validate acte_id _ => acte_id
  | POST_override acte_id _ => acte_id
  | POST_reject acte_id _ => acte_id
  end.


(** The 400 answer each route gives for an act that is already
    [valide] or [rejete]. *)
Definition already_finalized (req : Request) : HTTPException :=
  mkHTTP HTTP_400_BAD_REQUEST
    match req with
    | POST_validate _ _ => "Acte déjà validé"
    | POST_override _ _ =>
        "Impossible de créer un override sur un acte déjà validé"
    | POST_reject _ _ => "Acte déjà traité"
    end.

(** What the framework does once the response is out: the queued tasks run
    in order, each a call of [acte_service.log_audit_action]; a task that
    raises stops the ones after it. *)
Fixpoint run_background_tasks (ts : list AuditTask) (d : DB)
    : result unit * DB :=
  match ts with
  | [] => (Ok tt, d)
  | t :: ts' =>
      match ActeService.log_audit_action acte_service t d with
      | (Ok _, d') => run_background_tasks ts' d'
      | (Raise e, d') => (Raise e, d')
      end
  end.

(** One request from start to finish: the handler runs on a queue of its
    own; when it answers, the response goes out and the queue is run. A
    request that ends in an [HTTPException] runs no task. *)
Definition serve (req : Request) (current_user : Utilisateur.t)
    (w : World Chain) : reply Response * World Chain :=
  match handle req current_user (mkWorld (db w) (chain w) []) with
  | (Success r, w') =>
      (Success r,
       mkWorld (run_background_tasks (background_tasks w') (db w')).2
         (chain w') [])
  | (Failure h, w') => (Failure h, mkWorld (db w') (chain w') [])
  end.

(** The requests of a run, one after the other. *)
Fixpoint run_requests (reqs : list (Request * Utilisateur.t))
    (w : World Chain) : World Chain :=
  match reqs with
  | [] => w
  | (req, current_user) :: reqs' =>
      run_requests reqs' (serve req current_user w).2
  end.

End Handlers.

Arguments Eff Chain A : clear implicits.

(** ** Reference collaborators

    The service classes are imported by [validation.py] but their modules are
    not among the sources. The definitions below follow the specification's
    description of them; they instantiate the parameters of the handlers in
    the examples. *)

Module Reference.

Definition set_acte (acte_id : Z) (a : Acte.t) (d : DB) : DB :=
  mkDB (<[acte_id := a]> (actes d)) (overrides d) (audit_entries d)
       (utcnow d).

Definition not_found : PyExc := mkExc "ValueError" "Acte non trouvé".

(** Modelled from the spec: [ActeService.validate_acte] (section 4.3,
    "on success sets status=validated, finalCode, validation timestamp"). *)
Definition validate_acte (acte_id : Z) (code_ccam_final : string)
    (validateur_id : Z) (justification : option string) (d : DB)
    : result Acte.t * DB :=
  match actes d !! acte_id with
  | None => (Raise not_found, d)
  | Some a =>
      let a' := Acte.mk (Acte.id a) (Acte.numero_acte a) (Acte.patient_id a)
        (Acte.type_acte a) (Acte.description_clinique a)
        (Acte.materiel_utilise a) (Acte.duree_acte a) (Acte.modificateurs a)
        (Acte.code_ccam_suggere a) (Some code_ccam_final)
        (Acte.score_confiance a) "valide" (Some (utcnow d))
        (Acte.mode_traitement a) (Acte.etablissement a) (Acte.service a)
        (Acte.date_acte a) (Acte.createur_id a) (Some validateur_id)
        (Acte.transaction_hash a) (Acte.block_number a) in
      (Ok a', set_acte acte_id a' d)
  end.

(** Modelled from the spec: [ActeService.reject_acte] (section 4.3,
    "on success sets status=rejected"). *)
Definition reject_acte (acte_id : Z) (validateur_id : Z) (reason : string)
    (d : DB) : result Acte.t * DB :=
  match actes d !! acte_id with
  | None => (Raise not_found, d)
  | Some a =>
      let a' := Acte.mk (Acte.id a) (Acte.numero_acte a) (Acte.patient_id a)
        (Acte.type_acte a) (Acte.description_clinique a)
        (Acte.materiel_utilise a) (Acte.duree_acte a) (Acte.modificateurs a)
        (Acte.code_ccam_suggere a) (Acte.code_ccam_final a)
        (Acte.score_confiance a) "rejete" (Some (utcnow d))
        (Acte.mode_traitement a) (Acte.etablissement a) (Acte.service a)
        (Acte.date_acte a) (Acte.createur_id a) (Some validateur_id)
        (Acte.transaction_hash a) (Acte.block_number a) in
      (Ok a', set_acte acte_id a' d)
  end.

(** Modelled from the spec: [ActeService.update_acte_blockchain_info]
    (section 3, the act's [ledgerAnchorRef] is filled in). *)
Definition update_acte_blockchain_info (acte_id : Z)
    (transaction_hash : string) (d : DB) : result unit * DB :=
  match actes d !! acte_id with
  | None => (Raise not_found, d)
  | Some a =>
      let a' := Acte.mk (Acte.id a) (Acte.numero_acte a) (Acte.patient_id a)
        (Acte.type_acte a) (Acte.description_clinique a)
        (Acte.materiel_utilise a) (Acte.duree_acte a) (Acte.modificateurs a)
        (Acte.code_ccam_suggere a) (Acte.code_ccam_final a)
        (Acte.score_confiance a) (Acte.statut a) (Acte.date_validation a)
        (Acte.mode_traitement a) (Acte.etablissement a) (Acte.service a)
        (Acte.date_acte a) (Acte.createur_id a) (Acte.validateur_id a)
        (Some transaction_hash) (Acte.block_number a) in
      (Ok tt, set_acte acte_id a' d)
  end.

(** Modelled from the spec: [ActeService.update_acte_suggestion]
    (section 4.4, "updates the act's suggested code to the override code
    (status stays pending)"). *)
Definition update_acte_suggestion (acte_id : Z) (code_suggere : string)
    (d : DB) : result unit * DB :=
  match actes d !! acte_id with
  | None => (Raise not_found, d)
  | Some a =>
      let a' := Acte.mk (Acte.id a) (Acte.numero_acte a) (Acte.patient_id a)
        (Acte.type_acte a) (Acte.description_clinique a)
        (Acte.materiel_utilise a) (Acte.duree_acte a) (Acte.modificateurs a)
        (Some code_suggere) (Acte.code_ccam_final a)
        (Acte.score_confiance a) (Acte.statut a) (Acte.date_validation a)
        (Acte.mode_traitement a) (Acte.etablissement a) (Acte.service a)
        (Acte.date_acte a) (Acte.createur_id a) (Acte.validateur_id a)
        (Acte.transaction_hash a) (Acte.block_number a) in
      (Ok tt, set_acte acte_id a' d)
  end.

(** Modelled from the spec: [ActeService.log_audit_action] (section 4.5,
    [append(entry)]: one new row at the end of the audit table, carrying
    the action name, the entity and the actor). *)
Definition log_audit_action (t : AuditTask) (d : DB) : result unit * DB :=
  let e := AuditEntry.mk (Z.of_nat (List.length (audit_entries d)) + 1)
    (Some (task_acte_id t)) (Some (task_user_id t)) (task_action t)
    (task_entity_type t) (Some (task_acte_id t)) None (task_new_values t)
    None (utcnow d) in
  (Ok tt, mkDB (actes d) (overrides d) (audit_entries d ++ [e]) (utcnow d)).

Definition acte_service : ActeService.t :=
  ActeService.mk (fun d acte_id => actes d !! acte_id) validate_acte
    reject_acte update_acte_blockchain_info update_acte_suggestion
    log_audit_action.

Definition validation_error : PyExc :=
  mkExc "ValidationError" "La justification est obligatoire".

(** Modelled from the spec: [OverrideService.create_override] (section 4.4,
    "fails with ValidationError if justification is empty. On success:
    creates an OverrideRecord"; section 3, the justification is mandatory
    and non-empty). *)
Definition create_override (acte_id utilisateur_id : Z)
    (code_ccam_original code_ccam_override justification
       type_override : string) (d : DB) : result Override.t * DB :=
  if String.eqb justification "" then (Raise validation_error, d)
  else
    let o := Override.mk (Z.of_nat (List.length (overrides d)) + 1) acte_id
      utilisateur_id code_ccam_original code_ccam_override justification
      type_override None false None None in
    (Ok o, mkDB (actes d) (overrides d ++ [o]) (audit_entries d) (utcnow d)).

Definition set_override_hash (override_id : Z) (h : string)
    (o : Override.t) : Override.t :=
  if Z.eqb (Override.id o) override_id then
    Override.mk (Override.id o) (Override.acte_id o)
      (Override.utilisateur_id o) (Override.code_ccam_original o)
      (Override.code_ccam_override o) (Override.justification o)
      (Override.type_override o) (Override.signature_numerique o)
      (Override.is_approved o) (Override.approved_by o) (Some h)
  else o.

(** Modelled from the spec: [OverrideService.update_override_blockchain_info]
    (section 4.4, the placeholder anchor "is filled in once anchoring
    completes"). *)
Definition update_override_blockchain_info (override_id : Z)
    (transaction_hash : string) (d : DB) : result unit * DB :=
  (Ok tt, mkDB (actes d)
            (map (set_override_hash override_id transaction_hash)
               (overrides d))
            (audit_entries d) (utcnow d)).

Definition override_service : OverrideService.t :=
  OverrideService.mk create_override update_override_blockchain_info
    (fun d acte_id =>
       filter (fun o => Override.acte_id o = acte_id) (overrides d)).

(** Modelled from the spec: [BlockchainService] (section 6, LedgerClient
    [submit(payload) -> transactionRef]). The ledger is the list of the
    action types submitted so far; this one accepts every transaction. *)
Definition blockchain_service : BlockchainService.t (list string) :=
  BlockchainService.mk (list string)
    (fun _ _ _ _ _ c => (Ok "0xa11ce", (c ++ ["validation"])%list))
    (fun _ _ _ _ _ _ c => (Ok "0xa11ce", (c ++ ["override"])%list))
    (fun _ _ _ c => (Ok "0xa11ce", (c ++ ["rejection"])%list)).

Definition anchor_error : PyExc := mkExc "AnchorError" "ledger unreachable".

(** A ledger whose every call fails. *)
Definition unreachable_blockchain_service : BlockchainService.t (list string) :=
  BlockchainService.mk (list string)
    (fun _ _ _ _ _ c => (Raise anchor_error, c))
    (fun _ _ _ _ _ _ c => (Raise anchor_error, c))
    (fun _ _ _ c => (Raise anchor_error, c)).

(** A pending act created by user 7, with the given confidence score. *)
Definition pending_acte (score : option Q) : Acte.t :=
  Acte.mk 1 "A-2024-0001" "P-42" "Angioplastie coronaire"
    "Pose de stent coronaire" None (Some 45) (Some []) (Some "HHFA001")
    None score "en_attente" None "normal" "CHU" None 0 7 None None None.

Definition validated_acte : Acte.t :=
  Acte.mk 1 "A-2024-0001" "P-42" "Angioplastie coronaire"
    "Pose de stent coronaire" None (Some 45) (Some []) (Some "HHFA001")
    (Some "HHFA001") (Some 90%Q) "valide" (Some 10) "normal" "CHU" None 0 7
    (Some 7) (Some "0xa11ce") None.

Definition world_with (a : Acte.t) : World (list string) :=
  mkWorld (mkDB {[ Acte.id a := a ]} [] [] 100) [] [].

Definition medecin : Utilisateur.t :=
  Utilisateur.mk 7 "dr@chu.example" "dr" MEDECIN true true.


Definition validation (force : bool) : ActeValidation.t :=
  ActeValidation.mk "HHFA001" None force.

Definition override_request (justification : string) : OverrideCreate.t :=
  OverrideCreate.mk "HHFA001" "HHFA002" justification "correction".

End Reference.

(** ** [agent_ai/services/ai_service.py] *)

(** *** Python operations on decoded JSON values *)

(** [float(n)]: the binary64 value nearest to the [int], ties to even
    (an [int] beyond the range of [float], where Python raises
    [OverflowError], gives an infinity). The code mixes floats with the
    literals 0, 5, 10 and 100 only. *)
Definition float_of_int (n : Z) : float :=
  SF2Prim (SpecFloat.binary_normalize 53 1024 n 0 false).

(** [bool(n)]: zero of either kind is falsy, NaN is truthy. *)
Definition truthy_number (n : number) : bool :=
  match n with
  | Int z => negb (Z.eqb z 0)
  | Float f => negb (PrimFloat.eqb f 0)
  end.

(** [bool(v)]. *)
Definition truthy (v : json) : bool :=
  match v with
  | JNull => false
  | JBool b => b
  | JNum n => truthy_number n
  | JStr s => negb (String.eqb s "")
  | JArr l => match l with [] => false | _ => true end
  | JObj kv => match kv with [] => false | _ => true end
  end.

Fixpoint dict_lookup (k : string) (kv : list (string * json)) : option json :=
  match kv with
  | [] => None
  | (k', v) :: rest => if String.eqb k' k then Some v else dict_lookup k rest
  end.

(** [d[k] = v] on a dict in insertion order. *)
Fixpoint dict_set (k : string) (v : json) (kv : list (string * json))
    : list (string * json) :=
  match kv with
  | [] => [(k, v)]
  | (k', v') :: rest =>
      if String.eqb k' k then (k', v) :: rest
      else (k', v') :: dict_set k v rest
  end.

(** [v.get(k, default)]; [None] stands for the [AttributeError] of a value
    that is not a dict. *)
Definition dict_get (v : json) (k : string) (default : json) : option json :=
  match v with
  | JObj kv => Some (match dict_lookup k kv with Some x => x | None => default end)
  | _ => None
  end.

(** [v[k]] with a string key; [None] stands for [KeyError] or [TypeError]. *)
Definition subscript (v : json) (k : string) : option json :=
  match v with
  | JObj kv => dict_lookup k kv
  | _ => None
  end.

(** A byte that continues a UTF-8 sequence. *)
Definition is_continuation (c : ascii) : bool :=
  (128 <=? nat_of_ascii c)%nat && (nat_of_ascii c <? 192)%nat.

Definition continues (s : string) : bool :=
  match s with
  | String c _ => is_continuation c
  | EmptyString => false
  end.

(** The characters (code points) of a [str], each as its own [str]: a
    byte is joined to the bytes that continue it. *)
Fixpoint code_points (s : string) : list string :=
  match s with
  | EmptyString => []
  | String c s' =>
      match code_points s' with
      | p :: rest =>
          if continues s' then String c p :: rest
          else String c EmptyString :: p :: rest
      | [] => [String c EmptyString]
      end
  end.

Definition chars (s : string) : list string := code_points s.

(** [for x in v]; [None] stands for the [TypeError] of a value that is not
    iterable. *)
Definition py_iter (v : json) : option (list json) :=
  match v with
  | JArr l => Some l
  | JStr s => Some (map JStr (chars s))
  | JObj kv => Some (map (fun p => JStr p.1) kv)
  | _ => None
  end.

(** A value that takes part in arithmetic: a number, or a [bool], which is
    the [int] 0 or 1. *)
Definition as_number (v : json) : option number :=
  match v with
  | JNum n => Some n
  | JBool b => Some (Int (if b then 1 else 0))
  | _ => None
  end.

(** [a + n] and [a - n] for an [int] literal [n]: exact on an [int]; on a
    [float] the literal is converted and the sum is the binary64 sum. *)
Definition py_add (a : number) (n : Z) : number :=
  match a with
  | Int z => Int (z + n)
  | Float f => Float (PrimFloat.add f (float_of_int n))
  end.
Definition py_sub (a : number) (n : Z) : number :=
  match a with
  | Int z => Int (z - n)
  | Float f => Float (PrimFloat.sub f (float_of_int n))
  end.

(** [a < n] and [n < a] for an [int] literal [n]; a comparison with NaN
    is false. *)
Definition below (a : number) (n : Z) : bool :=
  match a with
  | Int z => Z.ltb z n
  | Float f => PrimFloat.ltb f (float_of_int n)
  end.
Definition above (a : number) (n : Z) : bool :=
  match a with
  | Int z => Z.ltb n z
  | Float f => PrimFloat.ltb (float_of_int n) f
  end.

(** [v + n] and [v - n]; [None] stands for the [TypeError] of a value that
    is not a number. *)
Definition num_add (v : json) (n : Z) : option number :=
  a ← as_number v; Some (py_add a n).
Definition num_sub (v : json) (n : Z) : option number :=
  a ← as_number v; Some (py_sub a n).

(** [min(a, n)] and [max(a, n)]: the first argument is returned unless the
    literal is smaller (larger), and then the literal, an [int], is. *)
Definition py_min (a : number) (n : Z) : number :=
  if above a n then Int n else a.
Definition py_max (a : number) (n : Z) : number :=
  if below a n then Int n else a.

(** [s.find(c)] and [s.rfind(c)] for a one-character [c]: -1 when absent. *)
Fixpoint str_find (c : ascii) (s : string) : Z :=
  match s with
  | EmptyString => -1
  | String a s' =>
      if Ascii.eqb a c then 0
      else let r := str_find c s' in
           if Z.eqb r (-1) then -1 else r + 1
  end.

Fixpoint str_rfind (c : ascii) (s : string) : Z :=
  match s with
  | EmptyString => -1
  | String a s' =>
      let r := str_rfind c s' in
      if Z.eqb r (-1) then (if Ascii.eqb a c then 0 else -1) else r + 1
  end.

(** [s[start:stop]] for indices that are not negative, counted in bytes:
    used between the positions [find] and [rfind] return. *)
Definition slice (s : string) (start stop : Z) : string :=
  String.substring (Z.to_nat start) (Z.to_nat (stop - start)) s.

Definition all_strings (l : list json) : option (list string) :=
  mapM (fun v => match v with JStr s => Some s | _ => None end) l.

(** [sorted(l)] on strings: the ordered permutation, by code point. *)
Definition sorted (l : list string) : list string := merge_sort String.le l.

Definition option_result {A} (e : PyExc) (o : option A) : result A :=
  match o with Some a => Ok a | None => Raise e end.

Definition type_error : PyExc := mkExc "TypeError" "TypeError".
Definition key_error (k : string) : PyExc := mkExc "KeyError" k.

(** *** The models of [ai_service.py] *)

Module Suggestion.
Record t : Type := mk {
  code : string;
  libelle : string;
  modificateurs : list string;
  score_confiance : float;
  explication : string;
  incompatibilites : list string
}.

(** [.dict()] *)
Definition dict (s : t) : json :=
  JObj [("code", JStr (code s));
        ("libelle", JStr (libelle s));
        ("modificateurs", JArr (map JStr (modificateurs s)));
        ("score_confiance", JNum (Float (score_confiance s)));
        ("explication", JStr (explication s));
        ("incompatibilites", JArr (map JStr (incompatibilites s)))].
End Suggestion.

Module AISuggestionResponse.
Record t : Type := mk {
  suggestions : list Suggestion.t;
  score_confiance_global : float;
  explication_globale : string;
  questions_clarification : list string;
  alertes : list string
}.

(** [.dict()] *)
Definition dict (r : t) : json :=
  JObj [("suggestions", JArr (map Suggestion.dict (suggestions r)));
        ("score_confiance_global", JNum (Float (score_confiance_global r)));
        ("explication_globale", JStr (explication_globale r));
        ("questions_clarification",
           JArr (map JStr (questions_clarification r)));
        ("alertes", JArr (map JStr (alertes r)))].
End AISuggestionResponse.

(** *** [agent_ai/prompts/ccam_prompts.py] *)

Module CCAMPrompt.
Record t : Type := mk {
  name : string;
  template : string;
  variables : list string
}.
End CCAMPrompt.

(** *** What the service is built on

    Library and built-in functions, the completion provider and the rule
    engine: none of them is code of the sources. *)
Module Runtime.
Record t : Type := mk {
  (** [json.loads]; it raises [JSONDecodeError] *)
  json_loads : string → result json;
  (** the built-in [hash] on [str], as it is within one interpreter run *)
  hash : string → Z;
  (** the built-in [str] on a [float], a list or a dict *)
  str : json → string;
  (** [template.format] with the keyword arguments *)
  format : string → list (string * json) → result string;
  (** the wording of the prompt named so *)
  template_text : string → string;
  (** [datetime.isoformat()] of a clock reading *)
  isoformat : Z → string;
  (** the chat-completion call: the prompts sent so far, the new prompt *)
  completion : list string → string → result string;
  (** [RuleEngine.validate_code(code, context)] *)
  validate_code : json → json → result json;
  (** the constructor of [AISuggestionResponse] on keyword arguments: pydantic's validation *)
  model_validate : json → result AISuggestionResponse.t;
  (** the cache store refusing a write: the exception [cache_manager.set]
      raises at this clock reading for this key, if it does *)
  cache_fault : Z → string → option PyExc
}.
End Runtime.

(** Modelled from the spec: [CacheManager] ([utils/cache_manager.py] is not
    among the sources; section 2, "key→value store with TTL", section 6,
    "get/set/delete with TTL"): an entry is readable until its time to live
    has passed. *)
Module CacheManager.
Record entry : Type := mk_entry { value : json; expires : Z }.

Definition get (store : gmap string entry) (now : Z) (key : string)
    : option json :=
  match store !! key with
  | Some e => if Z.ltb now (expires e) then Some (value e) else None
  | None => None
  end.

Definition set (store : gmap string entry) (now : Z) (key : string)
    (v : json) (ttl : Z) : gmap string entry :=
  <[key := mk_entry v (now + ttl)]> store.
End CacheManager.

(** The state of an [AIService]: its cache, the prompts it has sent to the
    provider, and the clock. *)
Record AIState : Type := mkAI {
  cache : gmap string CacheManager.entry;
  llm_calls : list string;
  now : Z
}.

Section AIService.
Variable rt : Runtime.t.

(** [str(v)]; an [int] is written in decimal. *)
Definition py_str (v : json) : string :=
  match v with
  | JStr s => s
  | JNull => "None"
  | JBool true => "True"
  | JBool false => "False"
  | JNum (Int z) => pretty.pretty z
  | _ => Runtime.str rt v
  end.

Definition MAIN_SUGGESTION_PROMPT : CCAMPrompt.t :=
  CCAMPrompt.mk "main_suggestion"
    (Runtime.template_text rt "main_suggestion")
    ["type_acte"; "description_clinique"; "materiel_utilise";
     "duree_acte"; "modificateurs"; "etablissement"; "service"].
Definition VALIDATION_PROMPT : CCAMPrompt.t :=
  CCAMPrompt.mk "validation" (Runtime.template_text rt "validation")
    ["code_propose"; "contexte_acte"].
Definition EXTRACTION_PROMPT : CCAMPrompt.t :=
  CCAMPrompt.mk "extraction" (Runtime.template_text rt "extraction")
    ["texte_clinique"].
Definition LEARNING_PROMPT : CCAMPrompt.t :=
  CCAMPrompt.mk "learning" (Runtime.template_text rt "learning")
    ["code_suggere"; "code_final"; "justification"; "contexte"].
Definition ANOMALY_DETECTION_PROMPT : CCAMPrompt.t :=
  CCAMPrompt.mk "anomaly_detection"
    (Runtime.template_text rt "anomaly_detection") ["acte_details"].

Definition get_prompt (prompt_name : string) : option CCAMPrompt.t :=
  if String.eqb prompt_name "main_suggestion" then Some MAIN_SUGGESTION_PROMPT
  else if String.eqb prompt_name "validation" then Some VALIDATION_PROMPT
  else if String.eqb prompt_name "extraction" then Some EXTRACTION_PROMPT
  else if String.eqb prompt_name "learning" then Some LEARNING_PROMPT
  else if String.eqb prompt_name "anomaly_detection"
       then Some ANOMALY_DETECTION_PROMPT
  else None.

Definition format_prompt (prompt_name : string)
    (kwargs : list (string * json)) : result string :=
  match get_prompt prompt_name with
  | None =>
      Raise (mkExc "ValueError"
               (String.concat "" ["Prompt '"; prompt_name; "' non trouvé"]))
  | Some prompt =>
      let missing_vars :=
        List.filter (fun var => negb (str_in var (map fst kwargs)))
          (CCAMPrompt.variables prompt) in
      match missing_vars with
      | _ :: _ =>
          Raise (mkExc "ValueError"
                   (String.concat ""
                      ["Variables manquantes pour le prompt '"; prompt_name;
                       "': ['"; String.concat "', '" missing_vars; "']"]))
      | [] => Runtime.format rt (CCAMPrompt.template prompt) kwargs
      end
  end.

Definition no_json_found : PyExc :=
  mkExc "ValueError" "Aucun JSON trouvé dans la réponse".

(** [_parse_llm_response]; both [except] clauses log and raise again. *)
Definition _parse_llm_response (response : string) : result json :=
  let json_start := str_find "{" response in
  let json_end := str_rfind "}" response + 1 in
  if Z.eqb json_start (-1) || Z.eqb json_end 0 then
    Raise no_json_found
  else
    let json_str := slice response json_start json_end in
    Runtime.json_loads rt json_str.

(** Lines 332-342: the adjustment of one score by the rule check. *)
Definition adjust_score (is_valid : bool) (score : json) : option number :=
  if is_valid then s ← num_add score 5; Some (py_min s 100)
  else s ← num_sub score 10; Some (py_max s 0).

(** One turn of the loop of [_enrich_suggestions]; [None] stands for any
    exception raised in it. *)
Definition enrich_suggestion (suggestion extracted_info : json)
    : option json :=
  code ← subscript suggestion "code";
  rule_validation ←
    match Runtime.validate_code rt code extracted_info with
    | Ok v => Some v
    | Raise _ => None
    end;
  kv ← match suggestion with JObj kv => Some kv | _ => None end;
  let enriched_suggestion :=
    dict_set "extracted_info" extracted_info
      (dict_set "rule_validation" rule_validation kv) in
  is_valid ← dict_get rule_validation "is_valid" (JBool true);
  score ← dict_lookup "score_confiance" enriched_suggestion;
  adjusted ← adjust_score (truthy is_valid) score;
  Some (JObj (dict_set "score_confiance" (JNum adjusted)
                enriched_suggestion)).

(** [_enrich_suggestions]: any exception makes it return the parsed
    response as it came. *)
Definition _enrich_suggestions (parsed_response extracted_info : json)
    : json :=
  match
    suggestions ← dict_get parsed_response "suggestions" (JArr []);
    items ← py_iter suggestions;
    enriched_suggestions ←
      mapM (fun s => enrich_suggestion s extracted_info) items;
    global ← dict_get parsed_response "score_confiance_global"
               (JNum (Int 0));
    explication ← dict_get parsed_response "explication_globale" (JStr "");
    questions ← dict_get parsed_response "questions_clarification" (JArr []);
    alertes ← dict_get parsed_response "alertes" (JArr []);
    Some (JObj [("suggestions", JArr enriched_suggestions);
                ("score_confiance_global", global);
                ("explication_globale", explication);
                ("questions_clarification", questions);
                ("alertes", alertes)])
  with
  | Some enriched => enriched
  | None => parsed_response
  end.

(** [acte_data.get(k, default)] on the act's dict. *)
Definition acte_get (acte_data : gmap string json) (k : string)
    (default : json) : json :=
  match acte_data !! k with Some v => v | None => default end.

(** [x[:100]]: the first hundred characters of a [str], the first
    hundred items of a list. *)
Definition prefix_100 (v : json) : option json :=
  match v with
  | JStr s => Some (JStr (String.concat "" (take 100 (code_points s))))
  | JArr l => Some (JArr (take 100 l))
  | _ => None
  end.

(** [sorted(x)] followed by [sep.join(...)]: every item has to be a [str]. *)
Definition join_sorted (sep : string) (v : json) : option string :=
  items ← py_iter v;
  strs ← all_strings items;
  Some (String.concat sep (sorted strs)).

Definition as_str (v : json) : option string :=
  match v with JStr s => Some s | _ => None end.

(** The list [key_parts] of [_create_cache_key]. *)
Definition key_parts (acte_data : gmap string json) : option (list string) :=
  description ← prefix_100 (acte_get acte_data "description_clinique" (JStr ""));
  modificateurs ← join_sorted "," (acte_get acte_data "modificateurs" (JArr []));
  type_acte ← as_str (acte_get acte_data "type_acte" (JStr ""));
  description ← as_str description;
  Some [type_acte; description;
        py_str (acte_get acte_data "duree_acte" (JStr ""));
        modificateurs].

(** [_create_cache_key] *)
Definition _create_cache_key (acte_data : gmap string json) : result string :=
  match key_parts acte_data with
  | None => Raise type_error
  | Some parts =>
      Ok (String.append "ccam_suggestion:"
            (py_str (JNum (Int (Runtime.hash rt (String.concat "" parts))))))
  end.

(** A coroutine of the service: it reads and changes the service state and
    may raise. *)
Definition AIEff (A : Type) : Type := AIState → result A * AIState.

Definition aret {A} (a : A) : AIEff A := fun st => (Ok a, st).

Definition abind {A B} (m : AIEff A) (k : A → AIEff B) : AIEff B :=
  fun st =>
    match m st with
    | (Ok a, st') => k a st'
    | (Raise e, st') => (Raise e, st')
    end.

Definition lift {A} (r : result A) : AIEff A := fun st => (r, st).

Notation "x <~ m ;; k" := (abind m (fun x => k))
  (at level 100, m at next level, right associativity).

(** [_call_llm]: one request to the completion provider. *)
Definition _call_llm (prompt : string) : AIEff string :=
  fun st =>
    (Runtime.completion rt (llm_calls st) prompt,
     mkAI (cache st) (llm_calls st ++ [prompt]) (now st)).

Definition cache_get (key : string) : AIEff (option json) :=
  fun st => (Ok (CacheManager.get (cache st) (now st) key), st).

(** [cache_manager.set]: a write the store refuses raises and stores
    nothing. *)
Definition cache_set (key : string) (v : json) (ttl : Z) : AIEff unit :=
  fun st =>
    match Runtime.cache_fault rt (now st) key with
    | Some e => (Raise e, st)
    | None =>
        (Ok tt,
         mkAI (CacheManager.set (cache st) (now st) key v ttl) (llm_calls st)
              (now st))
    end.

(** [try: body except Exception as e: logger.error(...)]: the exception is
    logged and dropped. *)
Definition logged (body : AIEff unit) : AIEff unit :=
  fun st =>
    match body st with
    | (Ok _, st') => (Ok tt, st')
    | (Raise _, st') => (Ok tt, st')
    end.

(** [_extract_clinical_info]: every exception is swallowed into [{}]. *)
Definition _extract_clinical_info (acte_data : gmap string json)
    : AIEff json :=
  fun st =>
    match
      (prompt <~ lift (format_prompt "extraction"
                   [("texte_clinique",
                     acte_get acte_data "description_clinique" (JStr ""))]) ;;
       llm_response <~ _call_llm prompt ;;
       lift (_parse_llm_response llm_response)) st
    with
    | (Ok extracted_info, st') => (Ok extracted_info, st')
    | (Raise _, st') => (Ok (JObj []), st')
    end.

(** [sep.join(x)] *)
Definition join (sep : string) (v : json) : option string :=
  items ← py_iter v;
  strs ← all_strings items;
  Some (String.concat sep strs).

(** The keyword arguments of the main prompt. *)
Definition main_prompt_kwargs (acte_data : gmap string json)
    : result (list (string * json)) :=
  match join ", " (acte_get acte_data "modificateurs" (JArr [])) with
  | None => Raise type_error
  | Some modificateurs =>
      Ok [("type_acte", acte_get acte_data "type_acte" (JStr ""));
          ("description_clinique",
             acte_get acte_data "description_clinique" (JStr ""));
          ("materiel_utilise",
             acte_get acte_data "materiel_utilise" (JStr ""));
          ("duree_acte",
             JStr (py_str (acte_get acte_data "duree_acte" (JStr ""))));
          ("modificateurs", JStr modificateurs);
          ("etablissement", acte_get acte_data "etablissement" (JStr ""));
          ("service", acte_get acte_data "service" (JStr ""))]
  end.

(** [d[k]] on a dict: [KeyError(k)] when the key is missing. *)
Definition item (kv : list (string * json)) (k : string) : result json :=
  option_result (key_error k) (dict_lookup k kv).

(** The keyword arguments given to [AISuggestionResponse] at the end of
    [generate_suggestions]: three subscripts, then two [get] with a
    default. The enriched response is a dict, or the parsed response as it
    came, on which a subscript with a [str] is a [TypeError] when it is no
    dict. *)
Definition response_kwargs (enriched_suggestions : json) : result json :=
  match enriched_suggestions with
  | JObj kv =>
      match item kv "suggestions" with
      | Raise e => Raise e
      | Ok suggestions =>
      match item kv "score_confiance_global" with
      | Raise e => Raise e
      | Ok global =>
      match item kv "explication_globale" with
      | Raise e => Raise e
      | Ok explication =>
          Ok (JObj [("suggestions", suggestions);
                    ("score_confiance_global", global);
                    ("explication_globale", explication);
                    ("questions_clarification",
                       default (JArr [])
                         (dict_lookup "questions_clarification" kv));
                    ("alertes",
                       default (JArr []) (dict_lookup "alertes" kv))])
      end end end
  | _ => Raise type_error
  end.

(** The dict [_record_metrics] stores, at clock reading [t]. *)
Definition metrics_of (acte_data : gmap string json)
    (response : AISuggestionResponse.t) (t : Z) : json :=
  JObj [
    ("acte_id", acte_get acte_data "id" JNull);
    ("numero_acte", acte_get acte_data "numero_acte" JNull);
    ("score_confiance",
       JNum (Float (AISuggestionResponse.score_confiance_global response)));
    ("nombre_suggestions",
       JNum (Int (Z.of_nat
         (List.length (AISuggestionResponse.suggestions response)))));
    ("timestamp", JStr (Runtime.isoformat rt t))].

Definition metrics_key (acte_data : gmap string json) : string :=
  String.append "metrics:" (py_str (acte_get acte_data "numero_acte" JNull)).

(** [_record_metrics]: the whole body is in a [try] whose [except] logs
    and returns, so a refused write is not seen by the caller. *)
Definition _record_metrics (acte_data : gmap string json)
    (response : AISuggestionResponse.t) : AIEff unit :=
  logged (fun st =>
    cache_set (metrics_key acte_data)
      (metrics_of acte_data response (now st)) 86400 st).

(** Lines 95-136 of [generate_suggestions]: the path that asks the
    provider. *)
Definition generate_fresh (acte_data : gmap string json)
    (cache_key : string) : AIEff AISuggestionResponse.t :=
  extracted_info <~ _extract_clinical_info acte_data ;;
  kwargs <~ lift (main_prompt_kwargs acte_data) ;;
  prompt <~ lift (format_prompt "main_suggestion" kwargs) ;;
  llm_response <~ _call_llm prompt ;;
  parsed_response <~ lift (_parse_llm_response llm_response) ;;
  let enriched_suggestions :=
    _enrich_suggestions parsed_response extracted_info in
  response_dict <~ lift (response_kwargs enriched_suggestions) ;;
  ai_response <~ lift (Runtime.model_validate rt response_dict) ;;
  _ <~ cache_set cache_key (AISuggestionResponse.dict ai_response) 3600 ;;
  _ <~ _record_metrics acte_data ai_response ;;
  aret ai_response.

(** [generate_suggestions]; the [except] clause logs and raises again. *)
Definition generate_suggestions (acte_data : gmap string json)
    (force_regenerate : bool) : AIEff AISuggestionResponse.t :=
  cache_key <~ lift (_create_cache_key acte_data) ;;
  cached_result <~ (if negb force_regenerate then cache_get cache_key
                    else aret None) ;;
  match cached_result with
  | Some cached =>
      if truthy cached then lift (Runtime.model_validate rt cached)
      else generate_fresh acte_data cache_key
  | None => generate_fresh acte_data cache_key
  end.

End AIService.

Arguments AIEff A : clear implicits.

(** *** A reference runtime for the examples *)

Module ReferenceAI.

Definition dq : string := String (Ascii.ascii_of_nat 34) EmptyString.
Definition quoted (s : string) : string :=
  String.append dq (String.append s dq).

(** The text of one JSON object, as the provider would write it. *)
Definition object_text (code score : string) : string :=
  String.concat "" [
    "{"; quoted "suggestions"; ": [{"; quoted "code"; ": "; quoted code;
    ", "; quoted "libelle"; ": "; quoted "Angioplastie"; ", ";
    quoted "score_confiance"; ": "; score; ", "; quoted "explication"; ": ";
    quoted "stent"; "}], "; quoted "score_confiance_global"; ": 90, ";
    quoted "explication_globale"; ": "; quoted "ok"; "}"].

Definition object_value (code : string) (score : Z) : json :=
  JObj [("suggestions",
          JArr [JObj [("code", JStr code);
                      ("libelle", JStr "Angioplastie");
                      ("score_confiance", JNum (Int score));
                      ("explication", JStr "stent")]]);
        ("score_confiance_global", JNum (Int 90));
        ("explication_globale", JStr "ok")].

(** A decoder that knows three documents. *)
Definition json_loads (s : string) : result json :=
  if String.eqb s (object_text "HHFA001" "90") then
    Ok (object_value "HHFA001" 90)
  else if String.eqb s (object_text "HHFA001" "150") then
    Ok (object_value "HHFA001" 150)
  else if String.eqb s "{}" then Ok (JObj [])
  else Raise (mkExc "JSONDecodeError" "Expecting value").

Definition hash (s : string) : Z :=
  fold_right (fun c h => (Z.of_nat (nat_of_ascii c) + 31 * h) mod 2 ^ 61) 7
    (list_ascii_of_string s).

(** The integer a [float] is equal to, if it is one. *)
Definition integral (f : float) : option Z :=
  match Prim2SF f with
  | S754_zero _ => Some 0
  | S754_finite sign m e =>
      let z := if sign then Z.neg m else Z.pos m in
      if Z.leb 0 e then Some (z * 2 ^ e)
      else if Z.eqb (Z.pos m mod 2 ^ (- e)) 0 then Some (z / 2 ^ (- e))
      else None
  | _ => None
  end.

(** A [str] that knows the floats with an integer value: Python writes
    them with one decimal zero. *)
Definition str (v : json) : string :=
  match v with
  | JNull => "None"
  | JBool true => "True"
  | JBool false => "False"
  | JNum (Int z) => pretty.pretty z
  | JNum (Float f) =>
      match integral f with
      | Some z => String.append (pretty.pretty z) ".0"
      | None => "<float>"
      end
  | JStr s => s
  | JArr _ => "[...]"
  | JObj _ => "{...}"
  end.

Definition format (template : string) (kwargs : list (string * json))
    : result string :=
  Ok (String.concat " " (template :: map (fun p => str p.2) kwargs)).

Definition completion (sent : list string) (prompt : string)
    : result string :=
  Ok (String.append "Voici ma proposition : "
        (String.append (object_text "HHFA001" "90") " Cordialement.")).

(** A provider that answers in prose only. *)
Definition prose_completion (sent : list string) (prompt : string)
    : result string :=
  Ok "Je ne peux pas proposer de code pour cet acte.".

Definition accept_code (code context : json) : result json :=
  Ok (JObj [("is_valid", JBool true); ("reasons", JArr [])]).


Definition validation_error : PyExc :=
  mkExc "ValidationError" "validation error for AISuggestionResponse".

Definition field_str (kv : list (string * json)) (k : string)
    : option string :=
  v ← dict_lookup k kv; match v with JStr s => Some s | _ => None end.

Definition field_strs (kv : list (string * json)) (k : string)
    : option (list string) :=
  match dict_lookup k kv with
  | None => Some []
  | Some (JArr l) => all_strings l
  | Some _ => None
  end.

(** The binary64 value nearest to [n/d], ties to even, for [n >= 0]: the
    quotient is taken to some 1100 binary places and one more bit records
    whether anything was left. *)
Definition float_of_ratio (n : Z) (d : positive) : float :=
  let s := 1100 + Z.log2_up (Z.pos d) in
  let q := (n * 2 ^ s) / Z.pos d in
  let sticky := if Z.eqb ((n * 2 ^ s) mod Z.pos d) 0 then 0 else 1 in
  SF2Prim
    (SpecFloat.binary_normalize 53 1024 (2 * q + sticky) (- s - 1) false).

(** The leading decimal digits of a string: their value on top of [acc],
    how many there are, and the rest. *)
Fixpoint take_digits (acc count : Z) (s : string) : Z * Z * string :=
  match s with
  | EmptyString => (acc, count, s)
  | String c s' =>
      let n := Z.of_nat (nat_of_ascii c) in
      if Z.leb 48 n && Z.leb n 57
      then take_digits (10 * acc + (n - 48)) (count + 1) s'
      else (acc, count, s)
  end.

(** An optional sign: whether it is a minus, and the rest. *)
Definition take_sign (s : string) : bool * string :=
  match s with
  | String "-" s' => (true, s')
  | String "+" s' => (false, s')
  | _ => (false, s)
  end.

Definition is_space (c : ascii) : bool :=
  let n := nat_of_ascii c in
  (n =? 32)%nat || ((9 <=? n)%nat && (n <=? 13)%nat).

Fixpoint rstrip (s : string) : string :=
  match s with
  | EmptyString => EmptyString
  | String c s' =>
      match rstrip s' with
      | EmptyString => if is_space c then EmptyString else String c EmptyString
      | r => String c r
      end
  end.

Fixpoint lstrip (s : string) : string :=
  match s with
  | String c s' => if is_space c then lstrip s' else s
  | EmptyString => s
  end.

(** The exponent part: nothing, or [e] or [E], an optional sign and at
    least one digit, up to the end of the string. *)
Definition take_exponent (s : string) : option Z :=
  match s with
  | EmptyString => Some 0
  | String c s' =>
      if Ascii.eqb c "e" || Ascii.eqb c "E" then
        let '(minus, s1) := take_sign s' in
        let '(e, count, rest) := take_digits 0 0 s1 in
        match rest with
        | EmptyString =>
            if Z.eqb count 0 then None
            else Some (if minus then - e else e)
        | _ => None
        end
      else None
  end.

(** [float(s)] on a decimal numeral: optional blanks around it, an
    optional sign, digits with an optional point, an optional exponent.
    The other spellings [float] reads (inf, nan, digits grouped by
    underscores) are left out: none of them is a score within bounds. *)
Definition float_of_str (s : string) : option float :=
  let '(minus, s1) := take_sign (lstrip (rstrip s)) in
  let '(whole, n1, s2) := take_digits 0 0 s1 in
  let '(mantissa, n2, s3) :=
    match s2 with
    | String "." s2' => take_digits whole 0 s2'
    | _ => (whole, 0, s2)
    end in
  if Z.eqb (n1 + n2) 0 then None
  else
    e ← take_exponent s3;
    let scale := e - n2 in
    let magnitude :=
      if Z.eqb mantissa 0 then float_of_int 0
      else if Z.ltb 400 scale then PrimFloat.infinity
      else if Z.ltb scale (- (400 + n1 + n2)) then float_of_int 0
      else if Z.leb 0 scale then float_of_ratio (mantissa * 10 ^ scale) 1
      else float_of_ratio mantissa (Z.to_pos (10 ^ (- scale))) in
    Some (if minus then PrimFloat.opp magnitude else magnitude).

(** What a [float] field makes of a value: a [float] as it is, an [int]
    (a [bool] included) converted, a [str] read as a number. *)
Definition to_float (v : json) : option float :=
  match v with
  | JNum (Float f) => Some f
  | JNum (Int z) => Some (float_of_int z)
  | JBool b => Some (float_of_int (if b then 1 else 0))
  | JStr s => float_of_str s
  | _ => None
  end.

(** A score: a [float] with [ge=0, le=100]. *)
Definition field_score (kv : list (string * json)) (k : string)
    : option float :=
  v ← dict_lookup k kv;
  f ← to_float v;
  if PrimFloat.leb 0 f && PrimFloat.leb f 100 then Some f else None.

Definition suggestion_validate (v : json) : option Suggestion.t :=
  match v with
  | JObj kv =>
      code ← field_str kv "code";
      libelle ← field_str kv "libelle";
      modificateurs ← field_strs kv "modificateurs";
      score ← field_score kv "score_confiance";
      explication ← field_str kv "explication";
      incompatibilites ← field_strs kv "incompatibilites";
      Some (Suggestion.mk code libelle modificateurs score explication
              incompatibilites)
  | _ => None
  end.

(** A stand-in for the validation of the two models: required fields
    present, scores converted to [float] and within their bounds, lists
    defaulting to empty, extra keys ignored. Text fields and list items
    are taken when they are strings; the examples use no other. *)
Definition model_validate (v : json) : result AISuggestionResponse.t :=
  option_result validation_error
    match v with
    | JObj kv =>
        items ← (s ← dict_lookup "suggestions" kv;
                 match s with JArr l => Some l | _ => None end);
        suggestions ← mapM suggestion_validate items;
        global ← field_score kv "score_confiance_global";
        explication ← field_str kv "explication_globale";
        questions ← field_strs kv "questions_clarification";
        alertes ← field_strs kv "alertes";
        Some (AISuggestionResponse.mk suggestions global explication
                questions alertes)
    | _ => None
    end.

(** The cache store of the examples takes every write. *)
Definition runtime_with (completion : list string → string → result string)
    (validate_code : json → json → result json) : Runtime.t :=
  Runtime.mk json_loads hash str format
    (fun name => String.append "prompt " name) pretty.pretty completion
    validate_code model_validate (fun _ _ => None).

Definition runtime : Runtime.t := runtime_with completion accept_code.

(** The act of the specification's example scenario. *)
Definition stent : gmap string json :=
  {[ "numero_acte" := JStr "A-2024-0001";
     "type_acte" := JStr "Angioplastie coronaire";
     "description_clinique" := JStr "Pose de stent coronaire";
     "duree_acte" := JNum (Int 45);
     "modificateurs" := JArr [] ]}.

Definition fresh_service : AIState := mkAI ∅ [] 1000.

(** What the scenario expects for it: the candidate at 95. *)
Definition stent_response : AISuggestionResponse.t :=
  AISuggestionResponse.mk
    [Suggestion.mk "HHFA001" "Angioplastie" [] 95 "stent" []] 90 "ok" [] [].

(** A response with a well-formed candidate at 90 and a second one that
    has no code. *)
Definition two_candidates : json :=
  JObj [("suggestions",
          JArr [JObj [("code", JStr "HHFA001");
                      ("libelle", JStr "Angioplastie");
                      ("score_confiance", JNum (Int 90));
                      ("explication", JStr "stent")];
                JObj [("libelle", JStr "Autre acte");
                      ("score_confiance", JNum (Int 60))]]);
        ("score_confiance_global", JNum (Int 90));
        ("explication_globale", JStr "ok")].


(** The same act with its modifiers in another order. *)
Definition with_modifiers (mods : list string) : gmap string json :=
  <[ "modificateurs" := JArr (map JStr mods) ]> stent.

End ReferenceAI.

(** ** The statements of the specification, over the definitions above *)

Section HandlerStatements.
Context {Chain : Type}.
Variable acte_service : ActeService.t.
Variable override_service : OverrideService.t.
Variable blockchain_service : BlockchainService.t Chain.


(** The first step of each [try] body, the local state change, succeeds. *)
Definition local_change_ok (req : Request) (current_user : Utilisateur.t)
    (d : DB) : bool :=
  match req with
  | POST_validate acte_id vd =>
      is_ok (ActeService.validate_acte acte_service acte_id
               (ActeValidation.code_ccam_final vd)
               (Utilisateur.id current_user)
               (ActeValidation.justification vd) d).1
  | POST_override acte_id od =>
      is_ok (OverrideService.create_override override_service acte_id
               (Utilisateur.id current_user)
               (OverrideCreate.code_ccam_original od)
               (OverrideCreate.code_ccam_override od)
               (OverrideCreate.justification od)
               (OverrideCreate.type_override od) d).1
  | POST_reject acte_id reason =>
      is_ok (ActeService.reject_acte acte_service acte_id
               (Utilisateur.id current_user) reason d).1
  end.

(** The request gets past every check that precedes the [try] block. *)
Definition guards_pass (req : Request) (current_user : Utilisateur.t)
    (acte : Acte.t) : bool :=
  negb (forbidden acte current_user) && negb (finalized acte)
  && match req with
     | POST_validate _ vd => negb (low_confidence vd acte)
     | _ => true
     end.

(** What the spec says about a failing ledger call: a request that passes
    the guards and whose local state change succeeds is answered with
    success whatever the ledger does. *)
Definition anchor_failure_never_fatal : Prop :=
  ∀ req current_user w acte,
    ActeService.get_acte_by_id acte_service (db w) (request_acte_id req)
      = Some acte →
    guards_pass req current_user acte = true →
    local_change_ok req current_user (db w) = true →
    succeeded
      (handle acte_service override_service blockchain_service req
         current_user w).1 = true.

(** A step of a [try] body that leaves the act [i] as it finds it. *)
Definition keeps_row (i : Z) {A} (m : Eff Chain A) : Prop :=
  ∀ w r w',
    m w = (r, w') →
    ActeService.get_acte_by_id acte_service (db w') i
      = ActeService.get_acte_by_id acte_service (db w) i.

(** Services that keep to the row they are asked about: an operation on
    one act leaves the other acts as [get_acte_by_id] shows them, and the
    override and audit operations leave all of them. *)
Record Disciplined : Prop := {
  validate_acte_frame : ∀ acte_id code validateur justification d r d' i,
    ActeService.validate_acte acte_service acte_id code validateur
      justification d = (r, d') →
    i ≠ acte_id →
    ActeService.get_acte_by_id acte_service d' i
      = ActeService.get_acte_by_id acte_service d i;
  reject_acte_frame : ∀ acte_id validateur reason d r d' i,
    ActeService.reject_acte acte_service acte_id validateur reason d
      = (r, d') →
    i ≠ acte_id →
    ActeService.get_acte_by_id acte_service d' i
      = ActeService.get_acte_by_id acte_service d i;
  update_acte_blockchain_info_frame : ∀ acte_id h d r d' i,
    ActeService.update_acte_blockchain_info acte_service acte_id h d
      = (r, d') →
    i ≠ acte_id →
    ActeService.get_acte_by_id acte_service d' i
      = ActeService.get_acte_by_id acte_service d i;
  update_acte_suggestion_frame : ∀ acte_id code d r d' i,
    ActeService.update_acte_suggestion acte_service acte_id code d
      = (r, d') →
    i ≠ acte_id →
    ActeService.get_acte_by_id acte_service d' i
      = ActeService.get_acte_by_id acte_service d i;
  log_audit_action_frame : ∀ t d r d' i,
    ActeService.log_audit_action acte_service t d = (r, d') →
    ActeService.get_acte_by_id acte_service d' i
      = ActeService.get_acte_by_id acte_service d i;
  create_override_frame : ∀ acte_id u c1 c2 j ty d r d' i,
    OverrideService.create_override override_service acte_id u c1 c2 j ty d
      = (r, d') →
    ActeService.get_acte_by_id acte_service d' i
      = ActeService.get_acte_by_id acte_service d i;
  update_override_blockchain_info_frame : ∀ override_id h d r d' i,
    OverrideService.update_override_blockchain_info override_service
      override_id h d = (r, d') →
    ActeService.get_acte_by_id acte_service d' i
      = ActeService.get_acte_by_id acte_service d i
}.

(** A step of a [try] body that leaves the audit table as it finds it. *)
Definition leaves_audit {A} (m : Eff Chain A) : Prop :=
  ∀ w r w', m w = (r, w') → audit_entries (db w') = audit_entries (db w).

(** Services that write audit rows in [log_audit_action] and nowhere
    else. *)
Record AuditOnlyByLog : Prop := {
  validate_acte_audit : ∀ acte_id code validateur justification d r d',
    ActeService.validate_acte acte_service acte_id code validateur
      justification d = (r, d') →
    audit_entries d' = audit_entries d;
  reject_acte_audit : ∀ acte_id validateur reason d r d',
    ActeService.reject_acte acte_service acte_id validateur reason d
      = (r, d') →
    audit_entries d' = audit_entries d;
  update_acte_blockchain_info_audit : ∀ acte_id h d r d',
    ActeService.update_acte_blockchain_info acte_service acte_id h d
      = (r, d') →
    audit_entries d' = audit_entries d;
  update_acte_suggestion_audit : ∀ acte_id code d r d',
    ActeService.update_acte_suggestion acte_service acte_id code d
      = (r, d') →
    audit_entries d' = audit_entries d;
  create_override_audit : ∀ acte_id u c1 c2 j ty d r d',
    OverrideService.create_override override_service acte_id u c1 c2 j ty d
      = (r, d') →
    audit_entries d' = audit_entries d;
  update_override_blockchain_info_audit : ∀ override_id h d r d',
    OverrideService.update_override_blockchain_info override_service
      override_id h d = (r, d') →
    audit_entries d' = audit_entries d
}.

(** The same service with another [log_audit_action]. *)
Definition with_log (log : AuditTask → DB → result unit * DB)
    : ActeService.t :=
  ActeService.mk
    (ActeService.get_acte_by_id acte_service)
    (ActeService.validate_acte acte_service)
    (ActeService.reject_acte acte_service)
    (ActeService.update_acte_blockchain_info acte_service)
    (ActeService.update_acte_suggestion acte_service)
    log.

End HandlerStatements.

Section EngineStatements.
Variable rt : Runtime.t.



(** The adjustment the spec describes: five points up with a ceiling of
    100, ten points down with a floor of 0, in Python's arithmetic. *)
Definition adjusted (is_valid : bool) (s : number) : number :=
  if is_valid then py_min (py_add s 5) 100 else py_max (py_sub s 10) 0.



(** The items the loop of [_enrich_suggestions] runs over. *)
Definition candidates (parsed_response : json) : option (list json) :=
  suggestions ← dict_get parsed_response "suggestions" (JArr []);
  py_iter suggestions.



(** No stretch of the response decodes as JSON. *)
Definition no_parseable_object (response : string) : Prop :=
  ∀ start stop, is_ok (Runtime.json_loads rt (slice response start stop))
                = false.




End EngineStatements.

(** ** [backend/app/api/actes.py] *)

(** What a handler without a [try] block can end in: a value, an
    [HTTPException] of its own, or an exception of a service that nothing
    catches. *)
Inductive outcome (A : Type) : Type :=
| Returned (a : A)
| Refused (h : HTTPException)
| Crashed (e : PyExc).
Arguments Returned {A} a.
Arguments Refused {A} h.
Arguments Crashed {A} e.

(** [schemas.acte.ActeCreate] *)
Module ActeCreate.
Record t : Type := mk {
  numero_acte : string;
  patient_id : string;
  type_acte : string;
  description_clinique : string;
  materiel_utilise : option string;
  duree_acte : option Z;
  modificateurs : option (list string);
  etablissement : string;
  service : option string;
  date_acte : Z
}.
End ActeCreate.

(** [schemas.acte.ActeUpdate] *)
Module ActeUpdate.
Record t : Type := mk {
  type_acte : option string;
  description_clinique : option string;
  materiel_utilise : option string;
  duree_acte : option Z;
  modificateurs : option (list string);
  service : option string;
  date_acte : option Z
}.
End ActeUpdate.

(** [schemas.acte.ActeList] *)
Module ActeList.
Record t : Type := mk {
  actes : list Acte.t;
  total : Z;
  page : Z;
  size : Z;
  pages : Z
}.
End ActeList.

(** The filters of [get_actes]. *)
Module ActeFilter.
Record t : Type := mk {
  statut : option string;
  etablissement : option string;
  date_debut : option Z;
  date_fin : option Z
}.
End ActeFilter.

(** The methods of [ActeService] that [actes.py] calls. *)
Module ActeStore.
Record t : Type := mk {
  get_acte_by_numero : DB → string → option Acte.t;
  (* acte_data, the creator's id *)
  create_acte : ActeCreate.t → Z → DB → result Acte.t * DB;
  (* skip, limit, the filters, user_id: the page and the total count *)
  get_actes : Z → Z → ActeFilter.t → Z → DB → result (list Acte.t * Z);
  (* acte_id, acte_data *)
  update_acte : Z → ActeUpdate.t → DB → result Acte.t * DB;
  delete_acte : Z → DB → result unit * DB
}.
End ActeStore.

Section Actes.
Variable acte_service : ActeService.t.
Variable store : ActeStore.t.

Definition of_result {A} (x : result A * DB) : outcome A * DB :=
  match x with
  | (Ok a, d) => (Returned a, d)
  | (Raise e, d) => (Crashed e, d)
  end.

Definition create_acte (acte_data : ActeCreate.t)
    (current_user : Utilisateur.t) (d : DB) : outcome Acte.t * DB :=
  match ActeStore.get_acte_by_numero store d
          (ActeCreate.numero_acte acte_data) with
  | Some _ =>
      (Refused (mkHTTP HTTP_400_BAD_REQUEST
                  "Un acte avec ce numéro existe déjà"), d)
  | None =>
      of_result (ActeStore.create_acte store acte_data
                   (Utilisateur.id current_user) d)
  end.

(** [get_actes]; [skip] and [limit] arrive checked against their [Query]
    bounds ([ge=0]; [ge=1, le=1000]). *)
Definition get_actes (skip limit : Z) (filters : ActeFilter.t)
    (current_user : Utilisateur.t) (d : DB) : outcome ActeList.t :=
  match ActeStore.get_actes store skip limit filters
          (Utilisateur.id current_user) d with
  | Raise e => Crashed e
  | Ok (actes, total) =>
      let pages := (total + limit - 1) / limit in
      let page := skip / limit + 1 in
      Returned (ActeList.mk actes total page limit pages)
  end.

(** [acte.createur_id != current_user.id and
     current_user.role.value not in ["admin", "audit"]] *)
Definition may_not_read (acte : Acte.t) (current_user : Utilisateur.t)
    : bool :=
  negb (Z.eqb (Acte.createur_id acte) (Utilisateur.id current_user))
  && negb (str_in (role_value (Utilisateur.role current_user))
             ["admin"; "audit"]).

(** [acte.createur_id != current_user.id and
     current_user.role.value != "admin"] *)
Definition may_not_edit (acte : Acte.t) (current_user : Utilisateur.t)
    : bool :=
  negb (Z.eqb (Acte.createur_id acte) (Utilisateur.id current_user))
  && negb (String.eqb (role_value (Utilisateur.role current_user)) "admin").

Definition get_acte (acte_id : Z) (current_user : Utilisateur.t) (d : DB)
    : outcome Acte.t :=
  match ActeService.get_acte_by_id acte_service d acte_id with
  | None => Refused (mkHTTP HTTP_404_NOT_FOUND "Acte non trouvé")
  | Some acte =>
      if may_not_read acte current_user then
        Refused (mkHTTP HTTP_403_FORBIDDEN "Accès non autorisé")
      else Returned acte
  end.

Definition update_acte (acte_id : Z) (acte_data : ActeUpdate.t)
    (current_user : Utilisateur.t) (d : DB) : outcome Acte.t * DB :=
  match ActeService.get_acte_by_id acte_service d acte_id with
  | None => (Refused (mkHTTP HTTP_404_NOT_FOUND "Acte non trouvé"), d)
  | Some acte =>
      if may_not_edit acte current_user then
        (Refused (mkHTTP HTTP_403_FORBIDDEN "Accès non autorisé"), d)
      else if finalized acte then
        (Refused (mkHTTP HTTP_400_BAD_REQUEST
                    "Impossible de modifier un acte déjà validé"), d)
      else of_result (ActeStore.update_acte store acte_id acte_data d)
  end.

Definition delete_acte (acte_id : Z) (current_user : Utilisateur.t) (d : DB)
    : outcome unit * DB :=
  match ActeService.get_acte_by_id acte_service d acte_id with
  | None => (Refused (mkHTTP HTTP_404_NOT_FOUND "Acte non trouvé"), d)
  | Some acte =>
      if may_not_edit acte current_user then
        (Refused (mkHTTP HTTP_403_FORBIDDEN "Accès non autorisé"), d)
      else if finalized acte then
        (Refused (mkHTTP HTTP_400_BAD_REQUEST
                    "Impossible de supprimer un acte déjà validé"), d)
      else of_result (ActeStore.delete_acte store acte_id d)
  end.

End Actes.

(** ** [backend/app/api/audit.py]: the audit trail of an act *)

(** The filters of [get_acte_audit_trail]. *)
Module AuditFilter.
Record t : Type := mk {
  action_type : option string;
  date_debut : option Z;
  date_fin : option Z
}.
End AuditFilter.

(** [schemas.audit.AuditEntryList]: the schema file is not among the
    sources; these are the five fields the handler fills. *)
Module AuditEntryList.
Record t : Type := mk {
  entries : list AuditEntry.t;
  total : Z;
  page : Z;
  size : Z;
  pages : Z
}.
End AuditEntryList.

(** [get_acte_audit_trail]; the handler checks no permission.
    [trail] is [AuditService.get_acte_audit_trail]. *)
Definition get_acte_audit_trail
    (trail : Z → Z → Z → AuditFilter.t → DB
             → result (list AuditEntry.t * Z))
    (acte_id skip limit : Z) (filters : AuditFilter.t)
    (current_user : Utilisateur.t) (d : DB) : outcome AuditEntryList.t :=
  match trail acte_id skip limit filters d with
  | Raise e => Crashed e
  | Ok (audit_entries, total) =>
      let pages := (total + limit - 1) / limit in
      let page := skip / limit + 1 in
      Returned (AuditEntryList.mk audit_entries total page limit pages)
  end.

(** ** [backend/app/api/validation.py]: reading the overrides of an act *)

Definition get_acte_overrides (acte_service : ActeService.t)
    (override_service : OverrideService.t) (acte_id : Z)
    (current_user : Utilisateur.t) (d : DB) : outcome (list Override.t) :=
  match ActeService.get_acte_by_id acte_service d acte_id with
  | None => Refused (mkHTTP HTTP_404_NOT_FOUND "Acte non trouvé")
  | Some acte =>
      if may_not_read acte current_user then
        Refused (mkHTTP HTTP_403_FORBIDDEN "Accès non autorisé")
      else
        Returned (OverrideService.get_overrides_by_acte override_service d
                    acte_id)
  end.

(** ** [backend/app/api/suggestions.py] *)

(** [schemas.acte.ActeSuggestion] *)
Module ActeSuggestion.
Record t : Type := mk {
  acte_id : Z;
  suggestions : list json;
  score_confiance : Q;
  explication : string;
  questions : option (list string)
}.
End ActeSuggestion.

(** The backend's [AIService] ([services/ai_service.py] of the backend is
    not among the sources): what the routes ask of it. [AI] is whatever
    state it has. *)
Module SuggestionAI.
Record t (AI : Type) : Type := mk {
  (* acte, force_regenerate *)
  generate_suggestions : Acte.t → bool → AI → result ActeSuggestion.t * AI;
  (* acte_id, user_id, feedback *)
  record_feedback : Z → Z → json → AI → result unit * AI
}.
Arguments generate_suggestions {AI} _.
Arguments record_feedback {AI} _.
End SuggestionAI.

(** The two [ActeService] methods as [suggestions.py] calls them: with the
    [score_confiance] keyword, and with the [metadata] keyword. *)
Module SuggestionStore.
Record t : Type := mk {
  (* acte_id, code_suggere, score_confiance *)
  update_acte_suggestion : Z → json → Q → DB → result unit * DB;
  (* acte_id, user_id, action, entity_type; metadata *)
  log_audit_action : AuditTask → json → DB → result unit * DB
}.
End SuggestionStore.

Section Suggestions.
Context {AI : Type}.
Variable acte_service : ActeService.t.
Variable suggestion_store : SuggestionStore.t.
Variable ai_service : SuggestionAI.t AI.

(** In these routes the external collaborator is the AI service: its state
    takes the place the ledger has in [World]. *)
Notation "x <~ m ;; k" := (bind m (fun x => k))
  (at level 100, m at next level, right associativity).

Definition throw {A} (e : PyExc) : Eff AI A := fun w => (Raise e, w).

Definition attribute_error : PyExc :=
  mkExc "AttributeError" "object has no attribute 'get'".

(** [if suggestions.suggestions: ... update_acte_suggestion(...)] *)
Definition store_best_suggestion (acte_id : Z)
    (suggestions : ActeSuggestion.t) : Eff AI unit :=
  match ActeSuggestion.suggestions suggestions with
  | [] => ret tt
  | best_suggestion :: _ =>
      match dict_get best_suggestion "code" JNull with
      | None => throw attribute_error
      | Some code =>
          on_db (SuggestionStore.update_acte_suggestion suggestion_store
                   acte_id code (ActeSuggestion.score_confiance suggestions))
      end
  end.

Definition get_suggestions_body (acte_id : Z) (acte : Acte.t)
    : Eff AI ActeSuggestion.t :=
  suggestions <~ on_chain (SuggestionAI.generate_suggestions ai_service
                             acte false) ;;
  _ <~ store_best_suggestion acte_id suggestions ;;
  ret suggestions.

Definition get_suggestions (acte_id : Z) (current_user : Utilisateur.t)
    (w : World AI) : reply ActeSuggestion.t * World AI :=
  match ActeService.get_acte_by_id acte_service (db w) acte_id with
  | None => (Failure (mkHTTP HTTP_404_NOT_FOUND "Acte non trouvé"), w)
  | Some acte =>
      if may_not_read acte current_user then
        (Failure (mkHTTP HTTP_403_FORBIDDEN "Accès non autorisé"), w)
      else
        try_500 "Erreur lors de la génération des suggestions: "
          (get_suggestions_body acte_id acte) w
  end.

(** [acte.createur_id != current_user.id and
     current_user.role.value not in ["admin"]] *)
Definition may_not_regenerate (acte : Acte.t) (current_user : Utilisateur.t)
    : bool :=
  negb (Z.eqb (Acte.createur_id acte) (Utilisateur.id current_user))
  && negb (str_in (role_value (Utilisateur.role current_user)) ["admin"]).

Definition regenerate_suggestions_body (acte_id : Z) (acte : Acte.t)
    (current_user : Utilisateur.t) : Eff AI ActeSuggestion.t :=
  suggestions <~ on_chain (SuggestionAI.generate_suggestions ai_service
                             acte true) ;;
  _ <~ store_best_suggestion acte_id suggestions ;;
  _ <~ add_task {|
         task_acte_id := acte_id;
         task_user_id := Utilisateur.id current_user;
         task_action := "regenerate_suggestions";
         task_entity_type := "acte";
         task_new_values := None |} ;;
  ret suggestions.

Definition regenerate_suggestions (acte_id : Z)
    (current_user : Utilisateur.t) (w : World AI)
    : reply ActeSuggestion.t * World AI :=
  match ActeService.get_acte_by_id acte_service (db w) acte_id with
  | None => (Failure (mkHTTP HTTP_404_NOT_FOUND "Acte non trouvé"), w)
  | Some acte =>
      if may_not_regenerate acte current_user then
        (Failure (mkHTTP HTTP_403_FORBIDDEN "Accès non autorisé"), w)
      else
        try_500 "Erreur lors de la régénération des suggestions: "
          (regenerate_suggestions_body acte_id acte current_user) w
  end.

(** The audit call of [submit_feedback]: made by the handler itself, not
    queued. *)
Definition feedback_audit (acte_id : Z) (current_user : Utilisateur.t)
    (feedback_data : json) : DB → result unit * DB :=
  SuggestionStore.log_audit_action suggestion_store
    {| task_acte_id := acte_id;
       task_user_id := Utilisateur.id current_user;
       task_action := "submit_feedback";
       task_entity_type := "acte";
       task_new_values := None |}
    (JObj [("feedback", feedback_data)]).

Definition submit_feedback_body (acte_id : Z) (feedback_data : json)
    (current_user : Utilisateur.t) : Eff AI json :=
  _ <~ on_chain (SuggestionAI.record_feedback ai_service acte_id
                   (Utilisateur.id current_user) feedback_data) ;;
  _ <~ on_db (feedback_audit acte_id current_user feedback_data) ;;
  ret (JObj [("message", JStr "Feedback enregistré avec succès")]).

Definition submit_feedback (acte_id : Z) (feedback_data : json)
    (current_user : Utilisateur.t) (w : World AI) : reply json * World AI :=
  match ActeService.get_acte_by_id acte_service (db w) acte_id with
  | None => (Failure (mkHTTP HTTP_404_NOT_FOUND "Acte non trouvé"), w)
  | Some acte =>
      if may_not_read acte current_user then
        (Failure (mkHTTP HTTP_403_FORBIDDEN "Accès non autorisé"), w)
      else
        try_500 "Erreur lors de l'enregistrement du feedback: "
          (submit_feedback_body acte_id feedback_data current_user) w
  end.

End Suggestions.

(** ** [agent_ai/services/ai_service.py]: the other coroutines *)

Section AIServiceMore.
Variable rt : Runtime.t.
(** [json.dumps(v, ensure_ascii=False)] *)
Variable json_dumps : json → string.

Notation "x <~ m ;; k" := (abind m (fun x => k))
  (at level 100, m at next level, right associativity).

(** [{**d, k1: v1, k2: v2}]; [None] stands for the [TypeError] of a [d]
    that is not a mapping. *)
Definition merged (d : json) (k1 : string) (v1 : json) (k2 : string)
    (v2 : json) : option json :=
  match d with
  | JObj kv => Some (JObj (dict_set k2 v2 (dict_set k1 v1 kv)))
  | _ => None
  end.

(** [validate_suggestion] *)
Definition validate_suggestion (code_ccam : string) (acte_context : json)
    : AIEff json :=
  prompt <~ lift (format_prompt rt "validation"
               [("code_propose", JStr code_ccam);
                ("contexte_acte", JStr (json_dumps acte_context))]) ;;
  llm_response <~ _call_llm rt prompt ;;
  validation_result <~ lift (_parse_llm_response rt llm_response) ;;
  rule_validation <~ lift (Runtime.validate_code rt (JStr code_ccam)
                             acte_context) ;;
  fun st =>
    (option_result type_error
       (merged validation_result "rule_validation" rule_validation
          "timestamp" (JStr (Runtime.isoformat rt (now st)))), st).

(** The dict [_record_learning] stores, at clock reading [t]. *)
Definition learning_of (override_data : list (string * json))
    (learning_analysis : json) (t : Z) : json :=
  JObj [
    ("override_data", JObj override_data);
    ("learning_analysis", learning_analysis);
    ("timestamp", JStr (Runtime.isoformat rt t))].

Definition learning_key (override_data : list (string * json)) : string :=
  String.append "learning:"
    (py_str rt (default JNull (dict_lookup "override_id" override_data))).

(** [_record_learning]: the whole body is in a [try] whose [except] logs
    and returns, so a refused write is not seen by the caller. *)
Definition _record_learning (override_data : list (string * json))
    (learning_analysis : json) : AIEff unit :=
  logged (fun st =>
    cache_set rt (learning_key override_data)
      (learning_of override_data learning_analysis (now st)) 604800 st).

(** The keyword arguments of the learning prompt: four subscripts, each a
    [KeyError] when the key is missing. *)
Definition learning_kwargs (override_data : list (string * json))
    : result (list (string * json)) :=
  match dict_lookup "code_ccam_original" override_data with
  | None => Raise (key_error "code_ccam_original")
  | Some code_suggere =>
  match dict_lookup "code_ccam_override" override_data with
  | None => Raise (key_error "code_ccam_override")
  | Some code_final =>
  match dict_lookup "justification" override_data with
  | None => Raise (key_error "justification")
  | Some justification =>
  match dict_lookup "contexte" override_data with
  | None => Raise (key_error "contexte")
  | Some contexte =>
      Ok [("code_suggere", code_suggere);
          ("code_final", code_final);
          ("justification", justification);
          ("contexte", JStr (json_dumps contexte))]
  end end end end.

(** [learn_from_override] *)
Definition learn_from_override (override_data : list (string * json))
    : AIEff json :=
  kwargs <~ lift (learning_kwargs override_data) ;;
  prompt <~ lift (format_prompt rt "learning" kwargs) ;;
  llm_response <~ _call_llm rt prompt ;;
  learning_analysis <~ lift (_parse_llm_response rt llm_response) ;;
  _ <~ _record_learning override_data learning_analysis ;;
  aret learning_analysis.

(** [detect_anomalies] *)
Definition detect_anomalies (acte_data : json) : AIEff json :=
  prompt <~ lift (format_prompt rt "anomaly_detection"
               [("acte_details", JStr (json_dumps acte_data))]) ;;
  llm_response <~ _call_llm rt prompt ;;
  lift (_parse_llm_response rt llm_response).

(** [CCAMPrompts.list_prompts] *)
Definition list_prompts : list string :=
  ["main_suggestion"; "validation"; "extraction"; "learning";
   "anomaly_detection"].

End AIServiceMore.

(** ** Notions used in the statements below *)

(** A page count and a page number that fit [total] items read from
    [skip] on, [limit] at a time. *)
Definition well_paged (total skip limit page pages : Z) : Prop :=
  (pages - 1) * limit < total <= pages * limit
  ∧ (page - 1) * limit <= skip < page * limit
  ∧ (skip < total → page <= pages).

(** The user created the act or is an administrator. *)
Definition owner_or_admin (acte : Acte.t) (current_user : Utilisateur.t)
    : Prop :=
  Acte.createur_id acte = Utilisateur.id current_user
  ∨ Utilisateur.role current_user = ADMIN.

(** The four entries of an act that its fingerprint reads. *)
Definition fingerprint_fields : list string :=
  ["type_acte"; "description_clinique"; "duree_acte"; "modificateurs"].

(** The low-confidence refusal of [validate_acte]. *)
Definition score_too_low : HTTPException :=
  mkHTTP HTTP_400_BAD_REQUEST
    "Score de confiance trop faible. Utilisez force_validation=true pour forcer.".

Definition access_denied : HTTPException :=
  mkHTTP HTTP_403_FORBIDDEN "Accès non autorisé".

(** ** Collaborators for the examples

    The service modules behind [actes.py], [audit.py] and [suggestions.py]
    are not among the sources; the ones below are small stand-ins that the
    examples run the handlers on. *)

Module ReferenceStore.

Definition all_actes (d : DB) : list Acte.t := (map_to_list (actes d)).*2.

Definition get_acte_by_numero (d : DB) (numero : string) : option Acte.t :=
  head (List.filter (fun a => String.eqb (Acte.numero_acte a) numero)
          (all_actes d)).

Definition create_acte (acte_data : ActeCreate.t) (createur_id : Z) (d : DB)
    : result Acte.t * DB :=
  let acte_id := Z.of_nat (size (actes d)) + 1 in
  let a := Acte.mk acte_id (ActeCreate.numero_acte acte_data)
    (ActeCreate.patient_id acte_data) (ActeCreate.type_acte acte_data)
    (ActeCreate.description_clinique acte_data)
    (ActeCreate.materiel_utilise acte_data) (ActeCreate.duree_acte acte_data)
    (ActeCreate.modificateurs acte_data) None None None "en_attente" None
    "normal" (ActeCreate.etablissement acte_data)
    (ActeCreate.service acte_data) (ActeCreate.date_acte acte_data)
    createur_id None None None in
  (Ok a, Reference.set_acte acte_id a d).

Definition opt_matches (x : option string) (s : string) : bool :=
  match x with None => true | Some v => String.eqb v s end.

Definition get_actes (skip limit : Z) (filters : ActeFilter.t) (user_id : Z)
    (d : DB) : result (list Acte.t * Z) :=
  let found :=
    List.filter
      (fun a => Z.eqb (Acte.createur_id a) user_id
                && opt_matches (ActeFilter.statut filters) (Acte.statut a)
                && opt_matches (ActeFilter.etablissement filters)
                     (Acte.etablissement a))
      (all_actes d) in
  Ok (take (Z.to_nat limit) (drop (Z.to_nat skip) found),
      Z.of_nat (List.length found)).

Definition or_old {A} (new : option A) (old : A) : A :=
  match new with Some v => v | None => old end.

Definition or_old_opt {A} (new old : option A) : option A :=
  match new with Some v => Some v | None => old end.

Definition update_acte (acte_id : Z) (acte_data : ActeUpdate.t) (d : DB)
    : result Acte.t * DB :=
  match actes d !! acte_id with
  | None => (Raise Reference.not_found, d)
  | Some a =>
      let a' := Acte.mk (Acte.id a) (Acte.numero_acte a) (Acte.patient_id a)
        (or_old (ActeUpdate.type_acte acte_data) (Acte.type_acte a))
        (or_old (ActeUpdate.description_clinique acte_data)
           (Acte.description_clinique a))
        (or_old_opt (ActeUpdate.materiel_utilise acte_data)
           (Acte.materiel_utilise a))
        (or_old_opt (ActeUpdate.duree_acte acte_data) (Acte.duree_acte a))
        (or_old_opt (ActeUpdate.modificateurs acte_data)
           (Acte.modificateurs a))
        (Acte.code_ccam_suggere a) (Acte.code_ccam_final a)
        (Acte.score_confiance a) (Acte.statut a) (Acte.date_validation a)
        (Acte.mode_traitement a) (Acte.etablissement a)
        (or_old_opt (ActeUpdate.service acte_data) (Acte.service a))
        (or_old (ActeUpdate.date_acte acte_data) (Acte.date_acte a))
        (Acte.createur_id a) (Acte.validateur_id a)
        (Acte.transaction_hash a) (Acte.block_number a) in
      (Ok a', Reference.set_acte acte_id a' d)
  end.

Definition delete_acte (acte_id : Z) (d : DB) : result unit * DB :=
  (Ok tt, mkDB (delete acte_id (actes d)) (overrides d) (audit_entries d)
            (utcnow d)).

Definition acte_store : ActeStore.t :=
  ActeStore.mk get_acte_by_numero create_acte get_actes update_acte
    delete_acte.

Definition audit_trail (acte_id skip limit : Z) (filters : AuditFilter.t)
    (d : DB) : result (list AuditEntry.t * Z) :=
  let found :=
    List.filter
      (fun e => match AuditEntry.acte_id e with
                | Some i => Z.eqb i acte_id
                | None => false
                end
                && opt_matches (AuditFilter.action_type filters)
                     (AuditEntry.action e))
      (audit_entries d) in
  Ok (take (Z.to_nat limit) (drop (Z.to_nat skip) found),
      Z.of_nat (List.length found)).

(** A database holding the pending act of [Reference] and two more acts
    of the same user. *)
Definition three_actes : DB :=
  mkDB (<[3 := Reference.pending_acte None]>
          (<[2 := Reference.pending_acte (Some 40%Q)]>
             {[ 1 := Reference.pending_acte (Some 90%Q) ]}))
    [] [] 100.

Definition no_filter : ActeFilter.t := ActeFilter.mk None None None None.
Definition no_audit_filter : AuditFilter.t := AuditFilter.mk None None None.

(** The two [ActeService] methods of [suggestions.py]: the suggested code
    and its score are written to the act; an audit row is appended. *)
Definition update_acte_suggestion (acte_id : Z) (code_suggere : json)
    (score_confiance : Q) (d : DB) : result unit * DB :=
  match actes d !! acte_id with
  | None => (Raise Reference.not_found, d)
  | Some a =>
      let a' := Acte.mk (Acte.id a) (Acte.numero_acte a) (Acte.patient_id a)
        (Acte.type_acte a) (Acte.description_clinique a)
        (Acte.materiel_utilise a) (Acte.duree_acte a) (Acte.modificateurs a)
        (match code_suggere with JStr s => Some s | _ => None end)
        (Acte.code_ccam_final a) (Some score_confiance) (Acte.statut a)
        (Acte.date_validation a) (Acte.mode_traitement a)
        (Acte.etablissement a) (Acte.service a) (Acte.date_acte a)
        (Acte.createur_id a) (Acte.validateur_id a)
        (Acte.transaction_hash a) (Acte.block_number a) in
      (Ok tt, Reference.set_acte acte_id a' d)
  end.

Definition log_audit_action (t : AuditTask) (metadata : json) (d : DB)
    : result unit * DB :=
  let e := AuditEntry.mk (Z.of_nat (List.length (audit_entries d)) + 1)
    (Some (task_acte_id t)) (Some (task_user_id t)) (task_action t)
    (task_entity_type t) (Some (task_acte_id t)) None (Some metadata)
    None (utcnow d) in
  (Ok tt, mkDB (actes d) (overrides d) (audit_entries d ++ [e]) (utcnow d)).

Definition suggestion_store : SuggestionStore.t :=
  SuggestionStore.mk update_acte_suggestion log_audit_action.

(** An AI service that proposes one code at 88 and keeps a log of what it
    was asked. *)
Definition proposal (acte : Acte.t) : ActeSuggestion.t :=
  ActeSuggestion.mk (Acte.id acte)
    [JObj [("code", JStr "HHFA002"); ("score_confiance", JNum (Int 88))]] 88
    "stent" None.

Definition suggestion_ai : SuggestionAI.t (list string) :=
  SuggestionAI.mk (list string)
    (fun acte force log =>
       (Ok (proposal acte),
        (log ++ [if force then "regenerate" else "generate"])%list))
    (fun _ _ _ log => (Ok tt, (log ++ ["feedback"])%list)).

Definition feedback_error : PyExc := mkExc "RuntimeError" "feedback store down".

(** An AI service whose feedback store is down. *)
Definition deaf_ai : SuggestionAI.t (list string) :=
  SuggestionAI.mk (list string)
    (fun acte force log =>
       (Ok (proposal acte),
        (log ++ [if force then "regenerate" else "generate"])%list))
    (fun _ _ _ log => (Raise feedback_error, log)).


(** A physician who did not create the act of [Reference]. *)
Definition colleague : Utilisateur.t :=
  Utilisateur.mk 10 "dr2@chu.example" "dr2" MEDECIN true true.

Definition no_change : ActeUpdate.t :=
  ActeUpdate.mk None None None None None None None.

(** [json.dumps] for the examples: strings in quotes, everything else by
    its [str]. *)
Definition json_dumps (v : json) : string :=
  match v with
  | JStr s => ReferenceAI.quoted s
  | _ => ReferenceAI.str v
  end.

End ReferenceStore.


(** The cache key of the act of the example scenario. *)
Definition stent_key : string :=
  match _create_cache_key ReferenceAI.runtime ReferenceAI.stent with
  | Ok key => key
  | Raise _ => ""
  end.

(** The same act performed with other material. *)
Definition stent_other_material : gmap string json :=
  <[ "materiel_utilise" := JStr "stent actif" ]> ReferenceAI.stent.

(** The same act as the schema stores it when no modifier list was given. *)
Definition stent_without_modifiers : gmap string json :=
  <[ "modificateurs" := JNull ]> ReferenceAI.stent.

(** A runtime whose cache store refuses the writes of metrics and of
    learning data and takes every other. *)
Definition refuses_records (t : Z) (key : string) : option PyExc :=
  if String.prefix "metrics:" key || String.prefix "learning:" key
  then Some (mkExc "ConnectionError" "cache store unreachable")
  else None.

Definition runtime_refusing_records : Runtime.t :=
  Runtime.mk ReferenceAI.json_loads ReferenceAI.hash ReferenceAI.str
    ReferenceAI.format (fun name => String.append "prompt " name)
    pretty.pretty ReferenceAI.completion ReferenceAI.accept_code
    ReferenceAI.model_validate refuses_records.

(** * Properties *)

(** ** The validation state machine *)

Section HandlerFacts.
Context {Chain : Type}.
Variable acte_service : ActeService.t.
Variable override_service : OverrideService.t.
Variable blockchain_service : BlockchainService.t Chain.

#[local] Abbreviation validate_acte' :=
  (validate_acte acte_service blockchain_service).
#[local] Abbreviation create_override' :=
  (create_override acte_service override_service blockchain_service).
#[local] Abbreviation reject_acte' :=
  (reject_acte acte_service blockchain_service).
#[local] Abbreviation handle' :=
  (handle acte_service override_service blockchain_service).

Lemma finalized_spec (acte : Acte.t) :
  finalized acte = true ↔
  Acte.statut acte = "valide" ∨ Acte.statut acte = "rejete".
Proof.
  unfold finalized, str_in. cbn [existsb].
  rewrite !orb_true_iff, !String.eqb_eq. intuition discriminate.
Qed.

Lemma pending_not_finalized (acte : Acte.t) :
  Acte.statut acte = "en_attente" → finalized acte = false.
Proof. unfold finalized. intros ->. reflexivity. Qed.

Lemma Qltb_lt (a b : Q) : Qltb a b = true ↔ (a < b)%Q.
Proof.
  unfold Qltb. rewrite Qlt_alt. destruct (a ?= b)%Q; intuition discriminate.
Qed.

Lemma truthy_num_spec (x : option Q) :
  truthy_num x = true ↔ ∃ s, x = Some s ∧ ¬ (s == 0)%Q.
Proof.
  destruct x as [s|]; cbn.
  - rewrite negb_true_iff. split.
    + intros H. exists s. split; [reflexivity|].
      intros E. apply Qeq_bool_iff in E. congruence.
    + intros (s' & [= <-] & Hne). destruct (Qeq_bool s 0) eqn:E; [|reflexivity].
      apply Qeq_bool_iff in E. contradiction.
  - split; [discriminate|]. intros (s & [=] & _).
Qed.

(** The low-confidence guard, read off the source. *)
Lemma low_confidence_spec (validation_data : ActeValidation.t)
    (acte : Acte.t) :
  low_confidence validation_data acte = true ↔
  ActeValidation.force_validation validation_data = false ∧
  ∃ s, Acte.score_confiance acte = Some s ∧ ¬ (s == 0)%Q ∧ (s < 50)%Q.
Proof.
  unfold low_confidence.
  rewrite !andb_true_iff, negb_true_iff, truthy_num_spec. split.
  - intros [[Hf (s & Hs & Hne)] Hlt]. split; [exact Hf|].
    exists s. rewrite Hs in Hlt. apply Qltb_lt in Hlt. auto.
  - intros [Hf (s & Hs & Hne & Hlt)]. repeat split; eauto.
    rewrite Hs. apply Qltb_lt. exact Hlt.
Qed.

(** *** Steps of a [try] body *)

Lemma bind_ok {A B} (m : Eff Chain A) (k : A → Eff Chain B) w b w' :
  bind m k w = (Ok b, w') →
  ∃ a w1, m w = (Ok a, w1) ∧ k a w1 = (Ok b, w').
Proof.
  unfold bind. destruct (m w) as [[a|e] w1]; [eauto | discriminate].
Qed.

Lemma bind_raise {A B} (m : Eff Chain A) (k : A → Eff Chain B) w e w' :
  m w = (Raise e, w') → bind m k w = (Raise e, w').
Proof. unfold bind. intros ->. reflexivity. Qed.

Lemma bind_step {A B} (m : Eff Chain A) (k : A → Eff Chain B) w a w1 :
  m w = (Ok a, w1) → bind m k w = k a w1.
Proof. unfold bind. intros ->. reflexivity. Qed.

Lemma on_db_frame {A} (f : DB → result A * DB) (w : World Chain) r w' :
  on_db f w = (r, w') →
  f (db w) = (r, db w') ∧ chain w' = chain w
  ∧ background_tasks w' = background_tasks w.
Proof.
  unfold on_db. destruct (f (db w)) as [r0 d]. intros [= <- <-]. auto.
Qed.

Lemma on_chain_frame {A} (f : Chain → result A * Chain) (w : World Chain)
    r w' :
  on_chain f w = (r, w') →
  f (chain w) = (r, chain w') ∧ db w' = db w
  ∧ background_tasks w' = background_tasks w.
Proof.
  unfold on_chain. destruct (f (chain w)) as [r0 c]. intros [= <- <-]. auto.
Qed.

Lemma add_task_spec (t : AuditTask) (w : World Chain) r w' :
  add_task t w = (r, w') →
  r = Ok tt ∧ db w' = db w ∧ chain w' = chain w
  ∧ background_tasks w' = background_tasks w ++ [t].
Proof. unfold add_task. intros [= <- <-]. auto. Qed.

Lemma try_500_success {A} prefix (body : Eff Chain A) w a w' :
  try_500 prefix body w = (Success a, w') → body w = (Ok a, w').
Proof.
  unfold try_500. destruct (body w) as [[a0|e] w1]; [|discriminate].
  intros [= <- <-]. reflexivity.
Qed.

Lemma try_500_raise {A} prefix (body : Eff Chain A) w e w' :
  body w = (Raise e, w') →
  try_500 prefix body w =
    (Failure (mkHTTP HTTP_500_INTERNAL_SERVER_ERROR
                (String.append prefix (exc_str e))), w').
Proof. unfold try_500. intros ->. reflexivity. Qed.








(** Every route stops at its [statut] check, or before it. *)
Lemma finalized_act_is_final req current_user (w : World Chain) acte :
  ActeService.get_acte_by_id acte_service (db w) (request_acte_id req)
    = Some acte →
  Acte.statut acte = "valide" ∨ Acte.statut acte = "rejete" →
  ∃ h, handle' req current_user w = (Failure h, w).
Proof.
  intros Hget Hfin%finalized_spec.
  destruct req as [acte_id vd | acte_id od | acte_id reason];
    cbn [handle request_acte_id] in *;
    unfold validate_acte, create_override, reject_acte;
    rewrite Hget, Hfin;
    (destruct (forbidden acte current_user); cbn; eexists; reflexivity).
Qed.

(** C2. An act whose status is already [valide] or [rejete] is terminal:
    a further validate, reject or override request fails and leaves the
    whole world (hence the act's status) as it was; for a caller who passes
    the permission check the failure is the route's 400 "already
    finalized" answer. *)
Theorem finalized_act_is_terminal req current_user (w : World Chain) acte :
  ActeService.get_acte_by_id acte_service (db w) (request_acte_id req)
    = Some acte →
  Acte.statut acte = "valide" ∨ Acte.statut acte = "rejete" →
  ∃ h,
    handle' req current_user w = (Failure h, w)
    ∧ (forbidden acte current_user = false → h = already_finalized req).
Proof.
  intros Hget Hfin%finalized_spec.
  destruct req as [acte_id vd | acte_id od | acte_id reason];
    cbn [handle request_acte_id] in *;
    unfold validate_acte, create_override, reject_acte;
    rewrite Hget, Hfin;
    (destruct (forbidden acte current_user);
     cbn; eexists; (split; [reflexivity | (discriminate || reflexivity)])).
Qed.

(** C3 (as the code has it). The ledger call is awaited inside the
    handler's [try] block: when a request has passed the guards, its local
    state change has succeeded and the ledger call then raises, the caller
    receives HTTP 500 carrying the ledger's error and no audit task is
    queued. This holds for validate, override creation and reject. *)
Theorem anchor_failure_fails_request acte_id current_user
    (w : World Chain) acte :
  ActeService.get_acte_by_id acte_service (db w) acte_id = Some acte →
  forbidden acte current_user = false →
  finalized acte = false →
  (∀ vd a d1 e c1,
      low_confidence vd acte = false →
      ActeService.validate_acte acte_service acte_id
        (ActeValidation.code_ccam_final vd) (Utilisateur.id current_user)
        (ActeValidation.justification vd) (db w) = (Ok a, d1) →
      BlockchainService.record_validation blockchain_service acte_id
        (ActeValidation.code_ccam_final vd) (Acte.code_ccam_suggere acte)
        (Utilisateur.id current_user)
        (str_or (ActeValidation.justification vd) "Validation standard")
        (chain w) = (Raise e, c1) →
      ∃ w',
        validate_acte' acte_id vd current_user w =
          (Failure (mkHTTP HTTP_500_INTERNAL_SERVER_ERROR
             (String.append "Erreur lors de la validation: " (exc_str e))),
           w')
        ∧ background_tasks w' = background_tasks w)
  ∧ (∀ od o d1 e c1,
      OverrideService.create_override override_service acte_id
        (Utilisateur.id current_user)
        (OverrideCreate.code_ccam_original od)
        (OverrideCreate.code_ccam_override od)
        (OverrideCreate.justification od)
        (OverrideCreate.type_override od) (db w) = (Ok o, d1) →
      BlockchainService.record_override blockchain_service (Override.id o)
        acte_id (OverrideCreate.code_ccam_original od)
        (OverrideCreate.code_ccam_override od)
        (Utilisateur.id current_user) (OverrideCreate.justification od)
        (chain w) = (Raise e, c1) →
      ∃ w',
        create_override' acte_id od current_user w =
          (Failure (mkHTTP HTTP_500_INTERNAL_SERVER_ERROR
             (String.append "Erreur lors de la création de l'override: "
                (exc_str e))), w')
        ∧ background_tasks w' = background_tasks w)
  ∧ (∀ reason a d1 e c1,
      ActeService.reject_acte acte_service acte_id
        (Utilisateur.id current_user) reason (db w) = (Ok a, d1) →
      BlockchainService.record_rejection blockchain_service acte_id
        (Utilisateur.id current_user) reason (chain w) = (Raise e, c1) →
      ∃ w',
        reject_acte' acte_id reason current_user w =
          (Failure (mkHTTP HTTP_500_INTERNAL_SERVER_ERROR
             (String.append "Erreur lors du rejet: " (exc_str e))), w')
        ∧ background_tasks w' = background_tasks w).
Proof.
  intros Hget Hf Hz. repeat split.
  - intros vd a d1 e c1 Hl H1 H2.
    unfold validate_acte. rewrite Hget, Hf, Hz, Hl.
    eexists. split.
    + apply try_500_raise. unfold validate_acte_body.
      erewrite bind_step by (unfold on_db; rewrite H1; reflexivity).
      apply bind_raise. unfold on_chain. cbn [chain]. rewrite H2.
      reflexivity.
    + reflexivity.
  - intros od o d1 e c1 H1 H2.
    unfold create_override. rewrite Hget, Hf, Hz.
    eexists. split.
    + apply try_500_raise. unfold create_override_body.
      erewrite bind_step by (unfold on_db; rewrite H1; reflexivity).
      apply bind_raise. unfold on_chain. cbn [chain]. rewrite H2.
      reflexivity.
    + reflexivity.
  - intros reason a d1 e c1 H1 H2.
    unfold reject_acte. rewrite Hget, Hf, Hz.
    eexists. split.
    + apply try_500_raise. unfold reject_acte_body.
      erewrite bind_step by (unfold on_db; rewrite H1; reflexivity).
      apply bind_raise. unfold on_chain. cbn [chain]. rewrite H2.
      reflexivity.
    + reflexivity.
Qed.

(** An authorised validate request on a pending act whose score is a
    non-zero value below 50 is refused unless forced, and nothing changes. *)
Lemma low_score_blocked acte_id validation_data current_user
    (w : World Chain) acte s :
  ActeService.get_acte_by_id acte_service (db w) acte_id = Some acte →
  forbidden acte current_user = false →
  Acte.statut acte = "en_attente" →
  Acte.score_confiance acte = Some s → ¬ (s == 0)%Q → (s < 50)%Q →
  ActeValidation.force_validation validation_data = false →
  validate_acte' acte_id validation_data current_user w =
    (Failure (mkHTTP HTTP_400_BAD_REQUEST
       "Score de confiance trop faible. Utilisez force_validation=true pour forcer."),
     w).
Proof.
  intros Hget Hf Hp%pending_not_finalized Hs Hne Hlt Hforce.
  unfold validate_acte. rewrite Hget, Hf, Hp.
  replace (low_confidence validation_data acte) with true; [reflexivity|].
  symmetry. apply low_confidence_spec. eauto 6.
Qed.

Lemma forced_skips_guard validation_data acte :
  ActeValidation.force_validation validation_data = true →
  low_confidence validation_data acte = false.
Proof. unfold low_confidence. intros ->. reflexivity. Qed.

(** C10. For a pending act whose stored score is [None] or zero, validate
    with [force_validation=false] is not stopped by the low-confidence
    guard: the request goes on to the validation body exactly as an
    accepted one does. The guard fires only for a forced-off request whose
    score is a non-zero value strictly below 50. *)
Theorem falsy_score_passes_guard acte_id validation_data current_user
    (w : World Chain) acte :
  ActeService.get_acte_by_id acte_service (db w) acte_id = Some acte →
  Acte.statut acte = "en_attente" →
  ActeValidation.force_validation validation_data = false →
  (Acte.score_confiance acte = None
   ∨ ∃ s, Acte.score_confiance acte = Some s ∧ (s == 0)%Q) →
  low_confidence validation_data acte = false
  ∧ (forbidden acte current_user = false →
     validate_acte' acte_id validation_data current_user w =
       try_500 "Erreur lors de la validation: "
         (validate_acte_body acte_service blockchain_service acte_id
            validation_data current_user acte) w)
  ∧ (∀ vd a,
       low_confidence vd a = true ↔
       ActeValidation.force_validation vd = false
       ∧ ∃ s, Acte.score_confiance a = Some s ∧ ¬ (s == 0)%Q ∧ (s < 50)%Q).
Proof.
  intros Hget Hp%pending_not_finalized Hforce Hscore.
  assert (Hl : low_confidence validation_data acte = false).
  { destruct (low_confidence validation_data acte) eqn:E; [|reflexivity].
    apply low_confidence_spec in E as (_ & s & Hs & Hne & _).
    destruct Hscore as [Hn | (s' & Hs' & Hz)]; congruence. }
  split; [exact Hl|]. split; [|apply low_confidence_spec].
  intros Hf. unfold validate_acte. rewrite Hget, Hf, Hp, Hl. reflexivity.
Qed.

End HandlerFacts.

Section OverrideJustification.
Context {Chain : Type}.
Variable acte_service : ActeService.t.
Variable blockchain_service : BlockchainService.t Chain.

(** C9. With the override service of the specification, a create-override
    request whose justification is empty always fails, and the world is
    left as it was: no override row, no ledger call, no audit task. When
    the request passes the handler's own guards the failure is the
    service's [ValidationError], which the handler reports as HTTP 500. *)
Theorem empty_justification_creates_no_override acte_id override_data
    current_user (w : World Chain) :
  OverrideCreate.justification override_data = "" →
  ∃ h,
    create_override acte_service Reference.override_service
      blockchain_service acte_id override_data current_user w
      = (Failure h, w)
    ∧ (∀ acte,
         ActeService.get_acte_by_id acte_service (db w) acte_id
           = Some acte →
         forbidden acte current_user = false →
         finalized acte = false →
         exc_class Reference.validation_error = "ValidationError"
         ∧ h = mkHTTP HTTP_500_INTERNAL_SERVER_ERROR
                 (String.append "Erreur lors de la création de l'override: "
                    (exc_str Reference.validation_error))).
Proof.
  intros Hj. unfold create_override.
  destruct (ActeService.get_acte_by_id _ _ _) as [acte|] eqn:Hget.
  2:{ eexists. split; [reflexivity|]. intros ? [=]. }
  destruct (forbidden acte current_user) eqn:Hf.
  { eexists. split; [reflexivity|]. intros ? [= <-] ?. congruence. }
  destruct (finalized acte) eqn:Hz.
  { eexists. split; [reflexivity|]. intros ? [= <-] ? ?. congruence. }
  assert (Hbody : create_override_body acte_service
            Reference.override_service blockchain_service acte_id
            override_data current_user w
            = (Raise Reference.validation_error, w)).
  { unfold create_override_body. apply bind_raise.
    unfold on_db. cbn [OverrideService.create_override
      Reference.override_service]. unfold Reference.create_override.
    rewrite Hj. cbn. destruct w; reflexivity. }
  unfold try_500. rewrite Hbody. eexists. split; [reflexivity|].
  intros _ _ _ _. split; reflexivity.
Qed.

End OverrideJustification.

(** *** Terminal states over a whole run *)

Section RunFacts.
Context {Chain : Type}.
Variable acte_service : ActeService.t.
Variable override_service : OverrideService.t.
Variable blockchain_service : BlockchainService.t Chain.
Hypothesis disciplined : Disciplined acte_service override_service.

#[local] Abbreviation get := (ActeService.get_acte_by_id acte_service).
#[local] Abbreviation keeps i m := (keeps_row (Chain:=Chain) acte_service i m).

Lemma keeps_row_ret i {A} (a : A) : keeps i (ret a).
Proof. intros w r w'. unfold ret. intros [= <- <-]. reflexivity. Qed.

Lemma keeps_row_bind i {A B} (m : Eff Chain A) (k : A → Eff Chain B) :
  keeps i m → (∀ a, keeps i (k a)) → keeps i (bind m k).
Proof.
  intros Hm Hk w r w'. unfold bind.
  destruct (m w) as [[a|e] w1] eqn:E.
  - intros H. rewrite (Hk a _ _ _ H). eapply Hm, E.
  - intros [= <- <-]. eapply Hm, E.
Qed.

Lemma keeps_row_on_db i {A} (f : DB → result A * DB) :
  (∀ d r d', f d = (r, d') → get d' i = get d i) → keeps i (on_db f).
Proof.
  intros Hf w r w' H. apply on_db_frame in H as (H & _). eapply Hf, H.
Qed.

Lemma keeps_row_on_chain i {A} (f : Chain → result A * Chain) :
  keeps i (on_chain f).
Proof.
  intros w r w' H. apply on_chain_frame in H as (_ & -> & _). reflexivity.
Qed.

Lemma keeps_row_add_task i t : keeps i (add_task t).
Proof.
  intros w r w' H. apply add_task_spec in H as (_ & -> & _). reflexivity.
Qed.

Create HintDb rows discriminated.
#[local] Hint Resolve keeps_row_ret keeps_row_on_chain keeps_row_add_task
  : rows.

Lemma validate_acte_body_keeps i acte_id validation_data current_user acte :
  i ≠ acte_id →
  keeps i (validate_acte_body acte_service blockchain_service acte_id
             validation_data current_user acte).
Proof.
  intros Hne. unfold validate_acte_body.
  repeat (apply keeps_row_bind; [|intros ?]); auto with rows.
  - apply keeps_row_on_db. intros d r d' H.
    eapply (validate_acte_frame _ _ disciplined); eassumption.
  - apply keeps_row_on_db. intros d r d' H.
    eapply (update_acte_blockchain_info_frame _ _ disciplined); eassumption.
Qed.

Lemma create_override_body_keeps i acte_id override_data current_user :
  i ≠ acte_id →
  keeps i (create_override_body acte_service override_service
             blockchain_service acte_id override_data current_user).
Proof.
  intros Hne. unfold create_override_body.
  repeat (apply keeps_row_bind; [|intros ?]); auto with rows.
  - apply keeps_row_on_db. intros d r d' H.
    eapply (create_override_frame _ _ disciplined); eassumption.
  - apply keeps_row_on_db. intros d r d' H.
    eapply (update_override_blockchain_info_frame _ _ disciplined);
      eassumption.
  - apply keeps_row_on_db. intros d r d' H.
    eapply (update_acte_suggestion_frame _ _ disciplined); eassumption.
Qed.

Lemma reject_acte_body_keeps i acte_id reason current_user :
  i ≠ acte_id →
  keeps i (reject_acte_body acte_service blockchain_service acte_id reason
             current_user).
Proof.
  intros Hne. unfold reject_acte_body.
  repeat (apply keeps_row_bind; [|intros ?]); auto with rows.
  - apply keeps_row_on_db. intros d r d' H.
    eapply (reject_acte_frame _ _ disciplined); eassumption.
  - apply keeps_row_on_db. intros d r d' H.
    eapply (update_acte_blockchain_info_frame _ _ disciplined); eassumption.
Qed.

Lemma try_500_keeps i {A} prefix (body : Eff Chain A) w r w' :
  keeps i body → try_500 prefix body w = (r, w') →
  get (db w') i = get (db w) i.
Proof.
  intros Hb. unfold try_500. destruct (body w) as [[a|e] w1] eqn:E;
    intros [= <- <-]; eapply Hb, E.
Qed.

Lemma map_reply_world {A B} (f : A → B) (x : reply A * World Chain) r w' :
  map_reply f x = (r, w') → x.2 = w'.
Proof. destruct x as [[a|h] w0]; cbn; intros [= _ <-]; reflexivity. Qed.

Ltac stops_early := intros [= <- <-]; reflexivity.

Lemma validate_acte_keeps i acte_id validation_data current_user
    (w : World Chain) r w' :
  i ≠ acte_id →
  validate_acte acte_service blockchain_service acte_id validation_data
    current_user w = (r, w') →
  get (db w') i = get (db w) i.
Proof.
  intros Hne. unfold validate_acte.
  destruct (get (db w) acte_id) as [acte|]; [|stops_early].
  destruct (forbidden acte current_user); [stops_early|].
  destruct (finalized acte); [stops_early|].
  destruct (low_confidence validation_data acte); [stops_early|].
  apply try_500_keeps, validate_acte_body_keeps, Hne.
Qed.

Lemma create_override_keeps i acte_id override_data current_user
    (w : World Chain) r w' :
  i ≠ acte_id →
  create_override acte_service override_service blockchain_service acte_id
    override_data current_user w = (r, w') →
  get (db w') i = get (db w) i.
Proof.
  intros Hne. unfold create_override.
  destruct (get (db w) acte_id) as [acte|]; [|stops_early].
  destruct (forbidden acte current_user); [stops_early|].
  destruct (finalized acte); [stops_early|].
  apply try_500_keeps, create_override_body_keeps, Hne.
Qed.

Lemma reject_acte_keeps i acte_id reason current_user (w : World Chain) r w' :
  i ≠ acte_id →
  reject_acte acte_service blockchain_service acte_id reason current_user w
    = (r, w') →
  get (db w') i = get (db w) i.
Proof.
  intros Hne. unfold reject_acte.
  destruct (get (db w) acte_id) as [acte|]; [|stops_early].
  destruct (forbidden acte current_user); [stops_early|].
  destruct (finalized acte); [stops_early|].
  apply try_500_keeps, reject_acte_body_keeps, Hne.
Qed.

(** A request about one act leaves every other act alone. *)
Lemma handle_keeps_other_rows req current_user (w : World Chain) r w' i :
  i ≠ request_acte_id req →
  handle acte_service override_service blockchain_service req current_user w
    = (r, w') →
  get (db w') i = get (db w) i.
Proof.
  intros Hne.
  destruct req as [acte_id vd | acte_id od | acte_id reason];
    cbn [handle request_acte_id] in *; intros <-%map_reply_world.
  - eapply validate_acte_keeps; [exact Hne | apply surjective_pairing].
  - eapply create_override_keeps; [exact Hne | apply surjective_pairing].
  - eapply reject_acte_keeps; [exact Hne | apply surjective_pairing].
Qed.

Lemma run_background_tasks_keeps ts d i :
  get (run_background_tasks acte_service ts d).2 i = get d i.
Proof.
  revert d. induction ts as [|t ts IH]; intros d; cbn; [reflexivity|].
  destruct (ActeService.log_audit_action acte_service t d) as [[u|e] d']
    eqn:E; cbn.
  - rewrite IH. eapply (log_audit_action_frame _ _ disciplined), E.
  - eapply (log_audit_action_frame _ _ disciplined), E.
Qed.

(** A request, whatever it is and whoever sends it, leaves a finalized act
    as it is. *)
Lemma serve_keeps_finalized req current_user (w : World Chain) i acte :
  get (db w) i = Some acte →
  finalized acte = true →
  get (db (serve acte_service override_service blockchain_service req
             current_user w).2) i = Some acte.
Proof.
  intros Hget Hfin. unfold serve.
  set (w0 := mkWorld (db w) (chain w) []).
  destruct (handle _ _ _ req current_user w0) as [r w'] eqn:E.
  assert (Hrow : get (db w') i = Some acte).
  { destruct (Z.eq_dec i (request_acte_id req)) as [->|Hne].
    - destruct (finalized_act_is_final acte_service override_service
                  blockchain_service req current_user w0 acte Hget)
        as (h & Hh); [apply finalized_spec, Hfin|].
      rewrite Hh in E. injection E as _ <-. exact Hget.
    - rewrite (handle_keeps_other_rows _ _ _ _ _ _ Hne E). exact Hget. }
  destruct r; cbn; [|exact Hrow].
  rewrite run_background_tasks_keeps. exact Hrow.
Qed.

(** No run of requests moves an act out of [valide] or [rejete]: after any
    sequence of validate, reject and override requests, by any users and on
    any acts, a finalized act is the row it was. *)
Lemma finalized_stays_finalized reqs (w : World Chain) i acte :
  get (db w) i = Some acte →
  finalized acte = true →
  get (db (run_requests acte_service override_service blockchain_service
             reqs w)) i = Some acte.
Proof.
  revert w. induction reqs as [|[req current_user] reqs IH]; intros w Hget Hfin;
    cbn; [exact Hget|].
  apply IH; [|exact Hfin]. apply serve_keeps_finalized; assumption.
Qed.

End RunFacts.

(** *** Examples on the reference collaborators *)

(** *** The audit table when a request returns *)

Section AuditFacts.
Context {Chain : Type}.
Variable acte_service : ActeService.t.
Variable override_service : OverrideService.t.
Variable blockchain_service : BlockchainService.t Chain.

(** The handlers never call [log_audit_action]: what a request returns,
    and the state it leaves, are the same whatever that function is. The
    one use the handlers make of it is to hand it to the queue. *)
Lemma handle_ignores_log_audit_action log req current_user
    (w : World Chain) :
  handle (with_log acte_service log) override_service blockchain_service
    req current_user w
  = handle acte_service override_service blockchain_service req
      current_user w.
Proof. destruct req; reflexivity. Qed.

Hypothesis only_by_log : AuditOnlyByLog acte_service override_service.

#[local] Abbreviation quiet m := (leaves_audit (Chain:=Chain) m).

Lemma leaves_audit_ret {A} (a : A) : quiet (ret a).
Proof. intros w r w'. unfold ret. intros [= <- <-]. reflexivity. Qed.

Lemma leaves_audit_bind {A B} (m : Eff Chain A) (k : A → Eff Chain B) :
  quiet m → (∀ a, quiet (k a)) → quiet (bind m k).
Proof.
  intros Hm Hk w r w'. unfold bind.
  destruct (m w) as [[a|e] w1] eqn:E.
  - intros H. rewrite (Hk a _ _ _ H). eapply Hm, E.
  - intros [= <- <-]. eapply Hm, E.
Qed.

Lemma leaves_audit_on_db {A} (f : DB → result A * DB) :
  (∀ d r d', f d = (r, d') → audit_entries d' = audit_entries d) →
  quiet (on_db f).
Proof.
  intros Hf w r w' H. apply on_db_frame in H as (H & _). eapply Hf, H.
Qed.

Lemma leaves_audit_on_chain {A} (f : Chain → result A * Chain) :
  quiet (on_chain f).
Proof.
  intros w r w' H. apply on_chain_frame in H as (_ & -> & _). reflexivity.
Qed.

Lemma leaves_audit_add_task t : quiet (add_task t).
Proof.
  intros w r w' H. apply add_task_spec in H as (_ & -> & _). reflexivity.
Qed.

Lemma try_500_leaves_audit {A} prefix (body : Eff Chain A) w r w' :
  quiet body → try_500 prefix body w = (r, w') →
  audit_entries (db w') = audit_entries (db w).
Proof.
  intros Hb. unfold try_500. destruct (body w) as [[a|e] w1] eqn:E;
    intros [= <- <-]; eapply Hb, E.
Qed.

Create HintDb audit discriminated.
#[local] Hint Resolve leaves_audit_ret leaves_audit_on_chain
  leaves_audit_add_task : audit.

Lemma validate_acte_body_leaves_audit acte_id validation_data current_user
    acte :
  quiet (validate_acte_body acte_service blockchain_service acte_id
           validation_data current_user acte).
Proof.
  unfold validate_acte_body.
  repeat (apply leaves_audit_bind; [|intros ?]); auto with audit.
  - apply leaves_audit_on_db. intros d r d' H.
    eapply (validate_acte_audit _ _ only_by_log); eassumption.
  - apply leaves_audit_on_db. intros d r d' H.
    eapply (update_acte_blockchain_info_audit _ _ only_by_log); eassumption.
Qed.

Lemma create_override_body_leaves_audit acte_id override_data current_user :
  quiet (create_override_body acte_service override_service
           blockchain_service acte_id override_data current_user).
Proof.
  unfold create_override_body.
  repeat (apply leaves_audit_bind; [|intros ?]); auto with audit.
  - apply leaves_audit_on_db. intros d r d' H.
    eapply (create_override_audit _ _ only_by_log); eassumption.
  - apply leaves_audit_on_db. intros d r d' H.
    eapply (update_override_blockchain_info_audit _ _ only_by_log);
      eassumption.
  - apply leaves_audit_on_db. intros d r d' H.
    eapply (update_acte_suggestion_audit _ _ only_by_log); eassumption.
Qed.

Lemma reject_acte_body_leaves_audit acte_id reason current_user :
  quiet (reject_acte_body acte_service blockchain_service acte_id reason
           current_user).
Proof.
  unfold reject_acte_body.
  repeat (apply leaves_audit_bind; [|intros ?]); auto with audit.
  - apply leaves_audit_on_db. intros d r d' H.
    eapply (reject_acte_audit _ _ only_by_log); eassumption.
  - apply leaves_audit_on_db. intros d r d' H.
    eapply (update_acte_blockchain_info_audit _ _ only_by_log); eassumption.
Qed.

Ltac returns_early := intros [= <- <-]; reflexivity.

(** With services that write audit rows in [log_audit_action] only, the
    audit table is the same when a request returns as when it came,
    whatever the request and its outcome. *)
Lemma no_audit_row_before_return req current_user (w : World Chain) r w' :
  handle acte_service override_service blockchain_service req current_user w
    = (r, w') →
  audit_entries (db w') = audit_entries (db w).
Proof.
  destruct req as [acte_id vd | acte_id od | acte_id reason];
    cbn [handle]; intros <-%map_reply_world;
    match goal with
    | |- audit_entries (db ?x.2) = _ =>
        destruct x as [r0 w0] eqn:E; cbn [snd]; revert E
    end.
  - unfold validate_acte.
    destruct (ActeService.get_acte_by_id acte_service (db w) acte_id)
      as [acte|]; [|returns_early].
    destruct (forbidden acte current_user); [returns_early|].
    destruct (finalized acte); [returns_early|].
    destruct (low_confidence vd acte); [returns_early|].
    apply try_500_leaves_audit, validate_acte_body_leaves_audit.
  - unfold create_override.
    destruct (ActeService.get_acte_by_id acte_service (db w) acte_id)
      as [acte|]; [|returns_early].
    destruct (forbidden acte current_user); [returns_early|].
    destruct (finalized acte); [returns_early|].
    apply try_500_leaves_audit, create_override_body_leaves_audit.
  - unfold reject_acte.
    destruct (ActeService.get_acte_by_id acte_service (db w) acte_id)
      as [acte|]; [|returns_early].
    destruct (forbidden acte current_user); [returns_early|].
    destruct (finalized acte); [returns_early|].
    apply try_500_leaves_audit, reject_acte_body_leaves_audit.
Qed.

End AuditFacts.

(** The reference services write audit rows in [log_audit_action] only. *)
Lemma reference_audit_only_by_log :
  AuditOnlyByLog Reference.acte_service Reference.override_service.
Proof.
  split; cbn;
    unfold Reference.validate_acte, Reference.reject_acte,
      Reference.update_acte_blockchain_info, Reference.update_acte_suggestion,
      Reference.create_override, Reference.update_override_blockchain_info;
    intros;
    repeat match goal with
           | H : context [match ?x with _ => _ end] |- _ => destruct x
           | H : context [if ?x then _ else _] |- _ => destruct x
           end;
    match goal with H : (_, _) = (_, _) |- _ => injection H as _ <- end;
    reflexivity.
Qed.


Lemma reference_disciplined :
  Disciplined Reference.acte_service Reference.override_service.
Proof.
  split; cbn;
    unfold Reference.validate_acte, Reference.reject_acte,
      Reference.update_acte_blockchain_info, Reference.update_acte_suggestion,
      Reference.log_audit_action, Reference.create_override,
      Reference.update_override_blockchain_info, Reference.set_acte.
  - intros acte_id code v j d r d' i.
    destruct (actes d !! acte_id); intros [= <- <-] Hne; cbn;
      [apply lookup_insert_ne; congruence | reflexivity].
  - intros acte_id v reason d r d' i.
    destruct (actes d !! acte_id); intros [= <- <-] Hne; cbn;
      [apply lookup_insert_ne; congruence | reflexivity].
  - intros acte_id h d r d' i.
    destruct (actes d !! acte_id); intros [= <- <-] Hne; cbn;
      [apply lookup_insert_ne; congruence | reflexivity].
  - intros acte_id code d r d' i.
    destruct (actes d !! acte_id); intros [= <- <-] Hne; cbn;
      [apply lookup_insert_ne; congruence | reflexivity].
  - intros t d r d' i [= <- <-]. reflexivity.
  - intros acte_id u c1 c2 j ty d r d' i.
    destruct (String.eqb j ""); intros [= <- <-]; reflexivity.
  - intros override_id h d r d' i [= <- <-]. reflexivity.
Qed.

(** On the reference services: whatever requests follow, a validated or
    rejected act keeps its row, status included. *)
Lemma reference_terminal_states reqs (w : World (list string)) i acte :
  actes (db w) !! i = Some acte →
  Acte.statut acte = "valide" ∨ Acte.statut acte = "rejete" →
  actes (db (run_requests Reference.acte_service Reference.override_service
               Reference.blockchain_service reqs w)) !! i = Some acte.
Proof.
  intros Hget Hfin.
  apply (finalized_stays_finalized Reference.acte_service
           Reference.override_service Reference.blockchain_service
           reference_disciplined reqs w i acte Hget).
  apply finalized_spec, Hfin.
Qed.



(** Once the response is out, running the request's queue writes that one
    row, for the request's act and action. *)
Lemma queued_task_writes_one_entry (t : AuditTask) (d : DB) :
  ∃ e,
    run_background_tasks Reference.acte_service [t] d
      = (Ok tt, mkDB (actes d) (overrides d) (audit_entries d ++ [e])
                  (utcnow d))
    ∧ AuditEntry.acte_id e = Some (task_acte_id t)
    ∧ AuditEntry.entity_id e = Some (task_acte_id t)
    ∧ AuditEntry.action e = task_action t.
Proof. eexists. cbn. split; [reflexivity|]. cbn. auto. Qed.

Lemma finalized_act_is_terminal_witness :
  ∃ h,
    handle Reference.acte_service Reference.override_service
      Reference.blockchain_service
      (POST_reject 1 "doublon") Reference.medecin
      (Reference.world_with Reference.validated_acte)
    = (Failure h, Reference.world_with Reference.validated_acte)
    ∧ (forbidden Reference.validated_acte Reference.medecin = false →
       h = already_finalized (POST_reject 1 "doublon")).
Proof.
  apply (finalized_act_is_terminal Reference.acte_service
           Reference.override_service Reference.blockchain_service
           (POST_reject 1 "doublon") Reference.medecin
           (Reference.world_with Reference.validated_acte)
           Reference.validated_acte).
  - vm_compute. reflexivity.
  - left. reflexivity.
Defined.

(** C3, counterexample. With the reference services and a ledger that is
    unreachable, a forced validate of a pending act passes the guards, its
    local state change succeeds, and the request is answered HTTP 500. *)
Lemma anchor_failure_is_fatal :
  ¬ anchor_failure_never_fatal Reference.acte_service
      Reference.override_service Reference.unreachable_blockchain_service.
Proof.
  intros H.
  specialize (H (POST_validate 1 (Reference.validation true))
                Reference.medecin
                (Reference.world_with (Reference.pending_acte (Some 90%Q)))
                (Reference.pending_acte (Some 90%Q))).
  vm_compute in H. specialize (H eq_refl eq_refl eq_refl). discriminate H.
Qed.

Lemma anchor_failure_fails_request_witness :
  ∃ w',
    validate_acte Reference.acte_service
      Reference.unreachable_blockchain_service 1 (Reference.validation true)
      Reference.medecin
      (Reference.world_with (Reference.pending_acte (Some 90%Q)))
    = (Failure (mkHTTP HTTP_500_INTERNAL_SERVER_ERROR
         (String.append "Erreur lors de la validation: "
            (exc_str Reference.anchor_error))), w')
    ∧ background_tasks w' = [].
Proof.
  refine (proj1 (anchor_failure_fails_request Reference.acte_service
            Reference.override_service
            Reference.unreachable_blockchain_service 1 Reference.medecin
            (Reference.world_with (Reference.pending_acte (Some 90%Q)))
            (Reference.pending_acte (Some 90%Q)) _ _ _)
          (Reference.validation true) _ _ Reference.anchor_error [] _ _ _);
    vm_compute; reflexivity.
Defined.

(** C4, at the failing input. A pending act with score 0 is validated by an
    unforced request: the guard does not stop it, the call returns success
    and the act is [valide] afterwards. *)
Lemma zero_score_validated_without_force :
  ∃ r w',
    validate_acte Reference.acte_service Reference.blockchain_service 1
      (Reference.validation false) Reference.medecin
      (Reference.world_with (Reference.pending_acte (Some 0%Q)))
    = (Success r, w')
    ∧ Acte.statut <$> actes (db w') !! 1 = Some "valide".
Proof. do 2 eexists. split; vm_compute; reflexivity. Qed.

(** The same request on a score of 40 is refused. *)
Lemma score_40_refused_without_force :
  succeeded
    (validate_acte Reference.acte_service Reference.blockchain_service 1
       (Reference.validation false) Reference.medecin
       (Reference.world_with (Reference.pending_acte (Some 40%Q)))).1 = false
  ∧ succeeded
    (validate_acte Reference.acte_service Reference.blockchain_service 1
       (Reference.validation true) Reference.medecin
       (Reference.world_with (Reference.pending_acte (Some 40%Q)))).1 = true.
Proof. split; vm_compute; reflexivity. Qed.

Lemma falsy_score_passes_guard_witness :
  low_confidence (Reference.validation false) (Reference.pending_acte None)
    = false
  ∧ succeeded
      (validate_acte Reference.acte_service Reference.blockchain_service 1
         (Reference.validation false) Reference.medecin
         (Reference.world_with (Reference.pending_acte None))).1 = true.
Proof.
  destruct (falsy_score_passes_guard Reference.acte_service
              Reference.blockchain_service 1 (Reference.validation false)
              Reference.medecin
              (Reference.world_with (Reference.pending_acte None))
              (Reference.pending_acte None))
    as (Hl & Hv & _).
  - vm_compute. reflexivity.
  - reflexivity.
  - reflexivity.
  - left. reflexivity.
  - split; [exact Hl|]. rewrite Hv by reflexivity. vm_compute. reflexivity.
Defined.

Lemma empty_justification_creates_no_override_witness :
  ∃ h,
    create_override Reference.acte_service Reference.override_service
      Reference.blockchain_service 1 (Reference.override_request "")
      Reference.medecin
      (Reference.world_with (Reference.pending_acte (Some 90%Q)))
    = (Failure h, Reference.world_with (Reference.pending_acte (Some 90%Q)))
    ∧ status_code h = 500.
Proof.
  destruct (empty_justification_creates_no_override Reference.acte_service
              Reference.blockchain_service 1 (Reference.override_request "")
              Reference.medecin
              (Reference.world_with (Reference.pending_acte (Some 90%Q)))
              eq_refl)
    as (h & E & Hh).
  exists h. split; [exact E|].
  destruct (Hh (Reference.pending_acte (Some 90%Q))) as [_ ->];
    vm_compute; reflexivity.
Defined.

(** ** The suggestion engine *)

(** *** Dicts in insertion order *)

Lemma dict_lookup_set_eq k v kv : dict_lookup k (dict_set k v kv) = Some v.
Proof.
  induction kv as [|[k' v'] kv IH]; cbn.
  - rewrite String.eqb_refl. reflexivity.
  - destruct (String.eqb k' k) eqn:E; cbn; rewrite E; auto.
Qed.

Lemma dict_lookup_set_ne k k' v kv :
  k ≠ k' → dict_lookup k (dict_set k' v kv) = dict_lookup k kv.
Proof.
  intros Hne. induction kv as [|[k0 v0] kv IH]; cbn.
  - destruct (String.eqb k' k) eqn:E; [|reflexivity].
    apply String.eqb_eq in E. congruence.
  - destruct (String.eqb k0 k') eqn:E; cbn.
    + apply String.eqb_eq in E. subst k0.
      destruct (String.eqb k' k) eqn:E'; [|reflexivity].
      apply String.eqb_eq in E'. congruence.
    + destruct (String.eqb k0 k); auto.
Qed.

(** *** Python's [min] and [max] against a literal *)






(** On a fractional score the sum is the binary64 sum. *)
Lemma fractional_score_is_rounded :
  adjust_score true (JNum (Float 0.56))
  = Some (Float 5.5600000000000005).
Proof. vm_compute. reflexivity. Qed.

Section EngineFacts.
Variable rt : Runtime.t.




(** Any exception in the loop leaves the response as the provider gave it. *)
Lemma enrich_suggestions_fallback parsed_response extracted_info items :
  candidates parsed_response = Some items →
  mapM (fun s => enrich_suggestion rt s extracted_info) items = None →
  _enrich_suggestions rt parsed_response extracted_info = parsed_response.
Proof.
  unfold candidates, _enrich_suggestions. intros Hc Hm.
  destruct parsed_response as [| | | | |kv]; try discriminate.
  cbn in Hc |- *.
  destruct (py_iter _) as [items'|]; [|discriminate].
  injection Hc as ->. cbn. rewrite Hm. reflexivity.
Qed.


(** *** Steps of a coroutine *)

Lemma abind_ok {A B} (m : AIEff A) (k : A → AIEff B) st b st' :
  abind m k st = (Ok b, st') →
  ∃ a st1, m st = (Ok a, st1) ∧ k a st1 = (Ok b, st').
Proof.
  unfold abind. destruct (m st) as [[a|e] st1]; [eauto | discriminate].
Qed.

Lemma abind_step {A B} (m : AIEff A) (k : A → AIEff B) st a st1 :
  m st = (Ok a, st1) → abind m k st = k a st1.
Proof. unfold abind. intros ->. reflexivity. Qed.

Lemma abind_raise {A B} (m : AIEff A) (k : A → AIEff B) st e st1 :
  m st = (Raise e, st1) → abind m k st = (Raise e, st1).
Proof. unfold abind. intros ->. reflexivity. Qed.

Lemma lift_inv {A} (r : result A) st x st' :
  lift r st = (x, st') → x = r ∧ st' = st.
Proof. unfold lift. intros [= <- <-]. auto. Qed.

Lemma call_llm_inv prompt st x st' :
  _call_llm rt prompt st = (x, st') →
  x = Runtime.completion rt (llm_calls st) prompt
  ∧ st' = mkAI (cache st) (llm_calls st ++ [prompt]) (now st).
Proof. unfold _call_llm. intros [= <- <-]. auto. Qed.

(** The extraction step never raises and never touches the cache or the
    clock. *)
Lemma extract_clinical_info_frame acte_data st x st' :
  _extract_clinical_info rt acte_data st = (x, st') →
  is_ok x = true ∧ cache st' = cache st ∧ now st' = now st.
Proof.
  unfold _extract_clinical_info, abind, lift, _call_llm.
  destruct (format_prompt rt "extraction" _) as [prompt|e].
  - destruct (Runtime.completion rt (llm_calls st) prompt) as [resp|e].
    + destruct (_parse_llm_response rt resp); intros [= <- <-]; auto.
    + intros [= <- <-]. auto.
  - intros [= <- <-]. auto.
Qed.

(** *** C6: the cache *)

(** A lookup that finds a live entry ends [generate_suggestions] at once. *)
Lemma cache_hit acte_data st cache_key entry response :
  _create_cache_key rt acte_data = Ok cache_key →
  cache st !! cache_key = Some entry →
  now st < CacheManager.expires entry →
  CacheManager.value entry = AISuggestionResponse.dict response →
  Runtime.model_validate rt (AISuggestionResponse.dict response)
    = Ok response →
  generate_suggestions rt acte_data false st = (Ok response, st).
Proof.
  intros Hkey Hentry Hfresh Hvalue Hmodel.
  unfold generate_suggestions.
  erewrite abind_step by (unfold lift; rewrite Hkey; reflexivity).
  cbn [negb].
  erewrite abind_step by reflexivity.
  unfold CacheManager.get. rewrite Hentry.
  apply Z.ltb_lt in Hfresh. rewrite Hfresh, Hvalue.
  cbn [truthy AISuggestionResponse.dict]. unfold lift. rewrite Hmodel.
  reflexivity.
Qed.

(** C6. When [force_regenerate] is false and the cache holds, under the
    act's fingerprint, an entry that has not expired and that is the
    [dict()] of a response (what line 129 stores), [generate_suggestions]
    returns that response and leaves the service state as it was: no
    prompt is sent to the provider and nothing is written. *)
Theorem cache_hit_skips_provider acte_data st cache_key entry response :
  _create_cache_key rt acte_data = Ok cache_key →
  cache st !! cache_key = Some entry →
  now st < CacheManager.expires entry →
  CacheManager.value entry = AISuggestionResponse.dict response →
  Runtime.model_validate rt (AISuggestionResponse.dict response)
    = Ok response →
  ∃ st',
    generate_suggestions rt acte_data false st = (Ok response, st')
    ∧ llm_calls st' = llm_calls st
    ∧ cache st' = cache st.
Proof.
  intros Hkey Hentry Hfresh Hvalue Hmodel. exists st.
  split; [|split; reflexivity].
  eapply cache_hit; eassumption.
Qed.

Lemma cache_key_not_metrics acte_data cache_key x :
  _create_cache_key rt acte_data = Ok cache_key →
  cache_key ≠ String.append "metrics:" x.
Proof.
  unfold _create_cache_key. destruct (key_parts rt acte_data); [|discriminate].
  intros [= <-]. cbn. discriminate.
Qed.

(** A write to the cache either is refused, and raises with nothing
    stored, or stores the entry. *)
Lemma cache_set_inv key v ttl st r st' :
  cache_set rt key v ttl st = (r, st') →
  match Runtime.cache_fault rt (now st) key with
  | Some e => r = Raise e ∧ st' = st
  | None =>
      r = Ok tt
      ∧ st' = mkAI (<[key := CacheManager.mk_entry v (now st + ttl)]>
                      (cache st))
                (llm_calls st) (now st)
  end.
Proof.
  unfold cache_set, CacheManager.set.
  destruct (Runtime.cache_fault rt (now st) key); intros [= <- <-]; auto.
Qed.

(** [_record_metrics] always returns; the metrics are in the cache unless
    the store refused them. *)
Lemma record_metrics_inv acte_data response st r st' :
  _record_metrics rt acte_data response st = (r, st') →
  r = Ok tt ∧ now st' = now st ∧ llm_calls st' = llm_calls st
  ∧ cache st'
    = match Runtime.cache_fault rt (now st) (metrics_key rt acte_data) with
      | Some _ => cache st
      | None =>
          <[metrics_key rt acte_data
            := CacheManager.mk_entry
                 (metrics_of rt acte_data response (now st))
                 (now st + 86400)]> (cache st)
      end.
Proof.
  unfold _record_metrics, logged.
  destruct (cache_set _ _ _ _ st) as [[u|e] st1] eqn:E;
    apply cache_set_inv in E;
    destruct (Runtime.cache_fault rt (now st) (metrics_key rt acte_data));
    destruct E as [E ->]; try discriminate; intros [= <- <-]; auto.
Qed.

(** The path that asks the provider stores its result for one hour. *)
Lemma generate_fresh_stores acte_data cache_key st response st' :
  generate_fresh rt acte_data cache_key st = (Ok response, st') →
  cache_key ≠ String.append "metrics:"
                (py_str rt (acte_get acte_data "numero_acte" JNull)) →
  cache st' !! cache_key
    = Some (CacheManager.mk_entry (AISuggestionResponse.dict response)
              (now st + 3600))
  ∧ now st' = now st.
Proof.
  unfold generate_fresh. intros H Hne.
  apply abind_ok in H as (info & st1 & (_ & C1 & N1)%extract_clinical_info_frame & H).
  apply abind_ok in H as (kwargs & st2 & (_ & ->)%lift_inv & H).
  apply abind_ok in H as (prompt & st3 & (_ & ->)%lift_inv & H).
  apply abind_ok in H as (resp & st4 & (_ & ->)%call_llm_inv & H).
  apply abind_ok in H as (parsed & st5 & (_ & ->)%lift_inv & H).
  apply abind_ok in H as (d & st6 & (_ & ->)%lift_inv & H).
  apply abind_ok in H as (r & st7 & (_ & ->)%lift_inv & H).
  apply abind_ok in H as (u & st8 & H8 & H).
  apply abind_ok in H as (u' & st9 & H9 & H).
  injection H as <- <-.
  apply cache_set_inv in H8.
  match type of H8 with
  | match ?fault with _ => _ end => destruct fault
  end; destruct H8 as [H8 ->]; [discriminate|].
  apply record_metrics_inv in H9 as (_ & N9 & _ & C9).
  cbn [cache now llm_calls] in *. rewrite N9, C9, N1. split; [|reflexivity].
  destruct (Runtime.cache_fault rt (now st) (metrics_key rt acte_data));
    cbv beta iota;
    [|rewrite lookup_insert_ne by (unfold metrics_key; congruence)];
    apply lookup_insert_eq.
Qed.

(** The spec's scenario: a request answered by the provider, then the same
    request again within the hour. *)
Lemma second_request_within_ttl acte_data st response st1 t :
  generate_suggestions rt acte_data true st = (Ok response, st1) →
  Runtime.model_validate rt (AISuggestionResponse.dict response)
    = Ok response →
  t < now st + 3600 →
  generate_suggestions rt acte_data false
    (mkAI (cache st1) (llm_calls st1) t)
  = (Ok response, mkAI (cache st1) (llm_calls st1) t).
Proof.
  intros H Hmodel Ht. unfold generate_suggestions in H.
  apply abind_ok in H as (key & st2 & [Hkey ->]%lift_inv & H).
  symmetry in Hkey.
  apply abind_ok in H as (c & st3 & Hc & H). injection Hc as <- <-.
  apply generate_fresh_stores in H as [Hstored _];
    [|eapply cache_key_not_metrics; eassumption].
  eapply cache_hit; eauto.
Qed.

(** Without a usable cache entry the request takes the path that asks the
    provider. *)
Lemma generate_suggestions_fresh acte_data force_regenerate st cache_key :
  _create_cache_key rt acte_data = Ok cache_key →
  force_regenerate = true
  ∨ CacheManager.get (cache st) (now st) cache_key = None →
  generate_suggestions rt acte_data force_regenerate st
    = generate_fresh rt acte_data cache_key st.
Proof.
  intros Hkey Hmiss. unfold generate_suggestions.
  erewrite abind_step by (unfold lift; rewrite Hkey; reflexivity).
  destruct force_regenerate; cbn [negb].
  - erewrite abind_step by reflexivity. reflexivity.
  - destruct Hmiss as [[=]|Hmiss].
    erewrite abind_step by (unfold cache_get; rewrite Hmiss; reflexivity).
    reflexivity.
Qed.

(** *** C7: the provider's answer *)

Lemma str_find_absent c s :
  str_find c s = -1 ↔ ¬ In c (list_ascii_of_string s).
Proof.
  induction s as [|a s IH]; cbn.
  - intuition.
  - destruct (Ascii.eqb a c) eqn:E.
    + apply Ascii.eqb_eq in E. split; [discriminate | intuition].
    + apply Ascii.eqb_neq in E.
      destruct (Z.eqb (str_find c s) (-1)) eqn:E'.
      * apply Z.eqb_eq in E'. split; [|reflexivity].
        intros _ [->|Hin]; [congruence | apply IH in Hin; auto].
      * apply Z.eqb_neq in E'. split.
        -- intros H.
           assert (-1 <= str_find c s).
           { clear. induction s as [|a' s' IH']; cbn; [lia|].
             destruct (Ascii.eqb a' c); [lia|].
             destruct (Z.eqb _ _); lia. }
           lia.
        -- intros Hn. exfalso. apply E', IH. intros Hin. apply Hn. auto.
Qed.

Lemma str_rfind_ge c s : -1 <= str_rfind c s.
Proof.
  induction s as [|a s IH]; cbn; [lia|].
  destruct (Z.eqb (str_rfind c s) (-1)); [|lia].
  destruct (Ascii.eqb a c); lia.
Qed.

Lemma str_rfind_absent c s :
  str_rfind c s = -1 ↔ ¬ In c (list_ascii_of_string s).
Proof.
  induction s as [|a s IH]; cbn.
  - intuition.
  - pose proof (str_rfind_ge c s).
    destruct (Z.eqb (str_rfind c s) (-1)) eqn:E'.
    + apply Z.eqb_eq in E'. apply IH in E'.
      destruct (Ascii.eqb a c) eqn:E.
      * apply Ascii.eqb_eq in E. split; [discriminate | intuition].
      * apply Ascii.eqb_neq in E. split; [|reflexivity].
        intros _ [->|Hin]; [congruence | auto].
    + apply Z.eqb_neq in E'. split; [lia|].
      intros Hn. exfalso. apply E', IH. intros Hin. apply Hn. auto.
Qed.

Lemma str_find_ge c s : -1 <= str_find c s.
Proof.
  induction s as [|a s IH]; cbn; [lia|].
  destruct (Ascii.eqb a c); [lia|].
  destruct (Z.eqb (str_find c s) (-1)); lia.
Qed.

(** [str_find] gives the position of the first occurrence. *)
Lemma str_find_first c s :
  0 <= str_find c s →
  String.get (Z.to_nat (str_find c s)) s = Some c
  ∧ ∀ k, (Z.of_nat k < str_find c s) → String.get k s ≠ Some c.
Proof.
  induction s as [|a s IH]; cbn; [lia|].
  destruct (Ascii.eqb a c) eqn:E.
  - apply Ascii.eqb_eq in E. subst a. intros _. split; [reflexivity | lia].
  - apply Ascii.eqb_neq in E. pose proof (str_find_ge c s).
    destruct (Z.eqb (str_find c s) (-1)) eqn:E'; [lia|].
    apply Z.eqb_neq in E'. intros _.
    destruct IH as [Hget Hbefore]; [lia|].
    replace (Z.to_nat (str_find c s + 1)) with (S (Z.to_nat (str_find c s)))
      by lia.
    split; [exact Hget|].
    intros [|k] Hk; cbn; [congruence|]. apply Hbefore. lia.
Qed.

(** [str_rfind] gives the position of the last occurrence. *)
Lemma str_rfind_last c s :
  0 <= str_rfind c s →
  String.get (Z.to_nat (str_rfind c s)) s = Some c
  ∧ ∀ k, (str_rfind c s < Z.of_nat k) → String.get k s ≠ Some c.
Proof.
  induction s as [|a s IH]; cbn; [lia|].
  pose proof (str_rfind_ge c s).
  destruct (Z.eqb (str_rfind c s) (-1)) eqn:E'.
  - apply Z.eqb_eq in E'. pose proof (proj1 (str_rfind_absent c s) E') as Hno.
    destruct (Ascii.eqb a c) eqn:E; [|lia].
    apply Ascii.eqb_eq in E. subst a. intros _. split; [reflexivity|].
    intros [|k] Hk; cbn; [lia|].
    intros Hget. apply Hno. clear -Hget.
    revert k Hget. induction s as [|b s IHs]; intros [|k]; cbn;
      try discriminate.
    + intros [= ->]. auto.
    + intros Hget. right. eauto.
  - apply Z.eqb_neq in E'. intros _.
    destruct IH as [Hget Hafter]; [lia|].
    replace (Z.to_nat (str_rfind c s + 1))
      with (S (Z.to_nat (str_rfind c s))) by lia.
    split; [exact Hget|].
    intros [|k] Hk; cbn; [lia|]. apply Hafter. lia.
Qed.

Lemma parse_llm_response_spec response :
  (¬ In "{"%char (list_ascii_of_string response)
   ∨ ¬ In "}"%char (list_ascii_of_string response)) ∧
  _parse_llm_response rt response = Raise no_json_found
  ∨
  (In "{"%char (list_ascii_of_string response)
   ∧ In "}"%char (list_ascii_of_string response)) ∧
  _parse_llm_response rt response =
    Runtime.json_loads rt
      (slice response (str_find "{" response)
         (str_rfind "}" response + 1)).
Proof.
  unfold _parse_llm_response.
  destruct (Z.eqb (str_find "{" response) (-1)) eqn:E1.
  { left. apply Z.eqb_eq, str_find_absent in E1. auto. }
  destruct (Z.eqb (str_rfind "}" response + 1) 0) eqn:E2.
  { left. apply Z.eqb_eq in E2.
    assert (E : str_rfind "}" response = -1) by lia.
    apply str_rfind_absent in E. auto. }
  right. apply Z.eqb_neq in E1, E2. cbn [orb]. split; [|reflexivity].
  split.
  - destruct (in_dec ascii_dec "{"%char (list_ascii_of_string response))
      as [?|Hn]; [assumption|].
    apply str_find_absent in Hn. contradiction.
  - destruct (in_dec ascii_dec "}"%char (list_ascii_of_string response))
      as [?|Hn]; [assumption|].
    apply str_rfind_absent in Hn. lia.
Qed.

(** C7. [_parse_llm_response] looks for one pair of object boundaries, the
    first opening brace and the last closing brace of the response, hands
    exactly the stretch between them to the JSON decoder and returns what
    the decoder makes of it; a response without such a pair is refused with
    [ValueError]. So a response in which no stretch decodes always raises,
    and in [generate_suggestions] that exception ends the request: no
    result, and the cache as it was. *)
Theorem unparseable_response_fails :
  (∀ response,
      In "{"%char (list_ascii_of_string response) →
      In "}"%char (list_ascii_of_string response) →
      let json_start := str_find "{" response in
      let last := str_rfind "}" response in
      String.get (Z.to_nat json_start) response = Some "{"%char
      ∧ String.get (Z.to_nat last) response = Some "}"%char
      ∧ (∀ k, Z.of_nat k < json_start →
              String.get k response ≠ Some "{"%char)
      ∧ (∀ k, last < Z.of_nat k → String.get k response ≠ Some "}"%char))
  ∧ (∀ response v,
      _parse_llm_response rt response = Ok v ↔
      In "{"%char (list_ascii_of_string response)
      ∧ In "}"%char (list_ascii_of_string response)
      ∧ Runtime.json_loads rt
          (slice response (str_find "{" response)
             (str_rfind "}" response + 1)) = Ok v)
  ∧ (∀ response,
      no_parseable_object rt response →
      ∃ e, _parse_llm_response rt response = Raise e)
  ∧ (∀ acte_data force_regenerate cache_key st extracted_info st1 kwargs
       prompt response e,
      _create_cache_key rt acte_data = Ok cache_key →
      force_regenerate = true
      ∨ CacheManager.get (cache st) (now st) cache_key = None →
      _extract_clinical_info rt acte_data st = (Ok extracted_info, st1) →
      main_prompt_kwargs rt acte_data = Ok kwargs →
      format_prompt rt "main_suggestion" kwargs = Ok prompt →
      Runtime.completion rt (llm_calls st1) prompt = Ok response →
      _parse_llm_response rt response = Raise e →
      ∃ st',
        generate_suggestions rt acte_data force_regenerate st = (Raise e, st')
        ∧ cache st' = cache st).
Proof.
  split; [|split; [|split]].
  - intros response Ho Hc json_start last.
    assert (H1 : 0 <= json_start).
    { pose proof (str_find_ge "{" response).
      destruct (Z.eq_dec json_start (-1)) as [E|E]; [|subst json_start; lia].
      apply str_find_absent in E. contradiction. }
    assert (H2 : 0 <= last).
    { pose proof (str_rfind_ge "}" response).
      destruct (Z.eq_dec last (-1)) as [E|E]; [|subst last; lia].
      apply str_rfind_absent in E. contradiction. }
    destruct (str_find_first _ _ H1) as [G1 B1].
    destruct (str_rfind_last _ _ H2) as [G2 B2]. auto.
  - intros response v.
    destruct (parse_llm_response_spec response)
      as [[Hno ->] | [[H1 H2] ->]].
    + split; [discriminate|]. intros (? & ? & _). tauto.
    + tauto.
  - intros response Hno.
    destruct (parse_llm_response_spec response)
      as [[_ ->] | [_ ->]]; [eauto|].
    specialize (Hno (str_find "{" response) (str_rfind "}" response + 1)).
    destruct (Runtime.json_loads rt _) as [v|e]; [discriminate | eauto].
  - intros acte_data force_regenerate cache_key st info st1 kwargs prompt
      response e Hkey Hmiss Hx Hk Hp Hc Hparse.
    pose proof (extract_clinical_info_frame _ _ _ _ Hx) as (_ & C1 & _).
    rewrite (generate_suggestions_fresh _ _ _ _ Hkey Hmiss).
    eexists. split.
    + unfold generate_fresh.
      erewrite abind_step by exact Hx.
      erewrite abind_step by (unfold lift; rewrite Hk; reflexivity).
      erewrite abind_step by (unfold lift; rewrite Hp; reflexivity).
      erewrite abind_step by (unfold _call_llm; rewrite Hc; reflexivity).
      apply abind_raise. unfold lift. rewrite Hparse. reflexivity.
    + exact C1.
Qed.

(** *** C8: the fingerprint *)



Lemma acte_get_ext (a b : gmap string json) k d :
  a !! k = b !! k → acte_get a k d = acte_get b k d.
Proof. unfold acte_get. intros ->. reflexivity. Qed.

Lemma acte_get_Some (a : gmap string json) k d v :
  a !! k = Some v → acte_get a k d = v.
Proof. unfold acte_get. intros ->. reflexivity. Qed.




End EngineFacts.

(** *** Examples on the reference runtime *)

(** The example scenario of the specification: one candidate at 90 that the
    rule engine accepts comes back at 95, after two prompts to the provider;
    the same request again is answered from the cache. *)
Lemma stent_scenario :
  let first := generate_suggestions ReferenceAI.runtime ReferenceAI.stent
                 false ReferenceAI.fresh_service in
  let second := generate_suggestions ReferenceAI.runtime ReferenceAI.stent
                  false first.2 in
  first.1 = Ok ReferenceAI.stent_response
  ∧ List.length (llm_calls first.2) = 2%nat
  ∧ second = (Ok ReferenceAI.stent_response, first.2).
Proof. vm_compute. auto. Qed.





Lemma cache_hit_skips_provider_witness :
  let st1 := (generate_suggestions ReferenceAI.runtime ReferenceAI.stent true
                ReferenceAI.fresh_service).2 in
  ∃ st',
    generate_suggestions ReferenceAI.runtime ReferenceAI.stent false st1
      = (Ok ReferenceAI.stent_response, st')
    ∧ llm_calls st' = llm_calls st1
    ∧ cache st' = cache st1.
Proof.
  cbv zeta.
  eapply (cache_hit_skips_provider ReferenceAI.runtime ReferenceAI.stent).
  - vm_compute. reflexivity.
  - vm_compute. reflexivity.
  - vm_compute. reflexivity.
  - vm_compute. reflexivity.
  - vm_compute. reflexivity.
Defined.

Lemma unparseable_response_fails_witness :
  ∃ e st',
    generate_suggestions
      (ReferenceAI.runtime_with ReferenceAI.prose_completion
         ReferenceAI.accept_code)
      ReferenceAI.stent false ReferenceAI.fresh_service
    = (Raise e, st')
    ∧ cache st' = cache ReferenceAI.fresh_service
    ∧ exc_str e = "Aucun JSON trouvé dans la réponse".
Proof.
  edestruct (proj2 (proj2 (proj2 (unparseable_response_fails
               (ReferenceAI.runtime_with ReferenceAI.prose_completion
                  ReferenceAI.accept_code))))
               ReferenceAI.stent false
               (String.append "ccam_suggestion:"
                  (pretty.pretty
                     (ReferenceAI.hash
                        "Angioplastie coronairePose de stent coronaire45")))
               ReferenceAI.fresh_service)
    as (st' & H & Hc).
  - vm_compute. reflexivity.
  - right. vm_compute. reflexivity.
  - vm_compute. reflexivity.
  - vm_compute. reflexivity.
  - vm_compute. reflexivity.
  - vm_compute. reflexivity.
  - vm_compute. reflexivity.
  - eexists _, st'. split; [exact H|]. split; [exact Hc|]. reflexivity.
Defined.



(** A change of one field alone can go unseen too: a modifier that contains
    the separator. *)
Lemma fingerprint_collision_on_modifiers (rt : Runtime.t) :
  _create_cache_key rt (ReferenceAI.with_modifiers ["a,b"])
  = _create_cache_key rt (ReferenceAI.with_modifiers ["a"; "b"]).
Proof. reflexivity. Qed.

(** * Further properties of the code *)

(** ** [actes.py] and [audit.py]: pages *)

Lemma page_arithmetic (total skip limit : Z) :
  0 <= skip → 1 <= limit → 0 <= total →
  well_paged total skip limit (skip / limit + 1)
    ((total + limit - 1) / limit).
Proof.
  intros Hs Hl Ht. unfold well_paged.
  pose proof (Z.div_mod (total + limit - 1) limit ltac:(lia)) as E1.
  pose proof (Z.mod_pos_bound (total + limit - 1) limit ltac:(lia)) as B1.
  pose proof (Z.div_mod skip limit ltac:(lia)) as E2.
  pose proof (Z.mod_pos_bound skip limit ltac:(lia)) as B2.
  set (q1 := (total + limit - 1) / limit) in *.
  set (q2 := skip / limit) in *.
  repeat split; try nia.
Qed.

(** X1. The page count of [get_actes] and of [get_acte_audit_trail] is the
    number of pages of [limit] items that [total] items fill, and the page
    number is the page [skip] falls on, counted from 1; a [skip] within the
    items never falls past the last page. *)
Theorem listings_are_well_paged store trail acte_id skip limit filters
    audit_filters current_user d :
  0 <= skip → 1 <= limit →
  (∀ l, get_actes store skip limit filters current_user d = Returned l →
        0 <= ActeList.total l →
        ActeList.size l = limit
        ∧ well_paged (ActeList.total l) skip limit (ActeList.page l)
            (ActeList.pages l))
  ∧ (∀ l, get_acte_audit_trail trail acte_id skip limit audit_filters
            current_user d = Returned l →
          0 <= AuditEntryList.total l →
          AuditEntryList.size l = limit
          ∧ well_paged (AuditEntryList.total l) skip limit
              (AuditEntryList.page l) (AuditEntryList.pages l)).
Proof.
  intros Hs Hl. split; intros l.
  - unfold get_actes.
    destruct (ActeStore.get_actes _ _ _ _ _ _) as [[actes total]|e];
      [|discriminate].
    intros [= <-]; cbn. intros Ht. split; [reflexivity|].
    apply page_arithmetic; assumption.
  - unfold get_acte_audit_trail.
    destruct (trail _ _ _ _ _) as [[entries total]|e]; [|discriminate].
    intros [= <-]; cbn. intros Ht. split; [reflexivity|].
    apply page_arithmetic; assumption.
Qed.

Lemma listings_are_well_paged_witness :
  (∀ l, get_actes ReferenceStore.acte_store 2 2 ReferenceStore.no_filter
          Reference.medecin ReferenceStore.three_actes = Returned l →
        0 <= ActeList.total l →
        ActeList.size l = 2
        ∧ well_paged (ActeList.total l) 2 2 (ActeList.page l)
            (ActeList.pages l))
  ∧ ∃ acte,
      get_actes ReferenceStore.acte_store 2 2 ReferenceStore.no_filter
        Reference.medecin ReferenceStore.three_actes
      = Returned (ActeList.mk [acte] 3 2 2 2).
Proof.
  split; [|eexists; vm_compute; reflexivity].
  apply (listings_are_well_paged ReferenceStore.acte_store
           ReferenceStore.audit_trail 1 2 2 ReferenceStore.no_filter
           ReferenceStore.no_audit_filter Reference.medecin
           ReferenceStore.three_actes); lia.
Defined.

(** ** [actes.py]: who may change an act, and when *)

Lemma may_not_edit_spec acte current_user :
  may_not_edit acte current_user = false ↔ owner_or_admin acte current_user.
Proof.
  unfold may_not_edit, owner_or_admin.
  rewrite andb_false_iff, !negb_false_iff, Z.eqb_eq.
  destruct (Utilisateur.role current_user); cbn; intuition discriminate.
Qed.

Lemma of_result_not_refused {A} (x : result A * DB) h d :
  of_result x ≠ (Refused h, d).
Proof. destruct x as [[a|e] d0]; cbn; discriminate. Qed.

(** X2. [update_acte] and [delete_acte] hand the request to the service only
    for an act that exists, is not finalized, and belongs to the caller or
    is edited by an administrator; in every other case they answer 404, 403
    or 400 and the database is as it was. *)
Theorem edits_need_owner_and_pending acte_service store acte_id acte_data
    current_user d :
  (∀ r d',
      update_acte acte_service store acte_id acte_data current_user d
        = (r, d') →
      (∃ h, r = Refused h ∧ d' = d
            ∧ (status_code h = 404 ∨ status_code h = 403
               ∨ status_code h = 400))
      ∨ (∃ acte,
            ActeService.get_acte_by_id acte_service d acte_id = Some acte
            ∧ owner_or_admin acte current_user
            ∧ finalized acte = false
            ∧ (r, d') = of_result
                          (ActeStore.update_acte store acte_id acte_data d)))
  ∧ (∀ r d',
      delete_acte acte_service store acte_id current_user d = (r, d') →
      (∃ h, r = Refused h ∧ d' = d
            ∧ (status_code h = 404 ∨ status_code h = 403
               ∨ status_code h = 400))
      ∨ (∃ acte,
            ActeService.get_acte_by_id acte_service d acte_id = Some acte
            ∧ owner_or_admin acte current_user
            ∧ finalized acte = false
            ∧ (r, d') = of_result (ActeStore.delete_acte store acte_id d))).
Proof.
  split; intros r d'; unfold update_acte, delete_acte;
    (destruct (ActeService.get_acte_by_id acte_service d acte_id)
       as [acte|] eqn:Hget;
     [|intros [= <- <-]; left; eexists; cbn; eauto]);
    (destruct (may_not_edit acte current_user) eqn:Hm;
     [intros [= <- <-]; left; eexists; cbn; eauto 6|]);
    (destruct (finalized acte) eqn:Hf;
     [intros [= <- <-]; left; eexists; cbn; eauto 6|]);
    intros <-; right; exists acte;
    (split; [reflexivity|]); (split; [apply may_not_edit_spec, Hm|]);
    auto.
Qed.

(** ** The permission checks of the routes *)

Lemma not_creator acte current_user :
  Acte.createur_id acte ≠ Utilisateur.id current_user →
  negb (Z.eqb (Acte.createur_id acte) (Utilisateur.id current_user)) = true.
Proof. intros H. apply negb_true_iff, Z.eqb_neq, H. Qed.

Lemma forbidden_spec acte current_user :
  forbidden acte current_user = true ↔
  Acte.createur_id acte ≠ Utilisateur.id current_user
  ∧ (Utilisateur.role current_user = ADMINISTRATIF
     ∨ Utilisateur.role current_user = AUDIT).
Proof.
  unfold forbidden. rewrite andb_true_iff, negb_true_iff, Z.eqb_neq.
  destruct (Utilisateur.role current_user); cbn;
    intuition (discriminate || auto).
Qed.

Lemma may_not_read_spec acte current_user :
  may_not_read acte current_user = true ↔
  Acte.createur_id acte ≠ Utilisateur.id current_user
  ∧ (Utilisateur.role current_user = MEDECIN
     ∨ Utilisateur.role current_user = ADMINISTRATIF).
Proof.
  unfold may_not_read. rewrite andb_true_iff, negb_true_iff, Z.eqb_neq.
  destruct (Utilisateur.role current_user); cbn;
    intuition (discriminate || auto).
Qed.

Lemma may_not_edit_true acte current_user :
  may_not_edit acte current_user = true ↔
  Acte.createur_id acte ≠ Utilisateur.id current_user
  ∧ Utilisateur.role current_user ≠ ADMIN.
Proof.
  unfold may_not_edit. rewrite andb_true_iff, negb_true_iff, Z.eqb_neq.
  destruct (Utilisateur.role current_user); cbn;
    intuition (discriminate || congruence).
Qed.

Lemma may_not_regenerate_spec acte current_user :
  may_not_regenerate acte current_user = may_not_edit acte current_user.
Proof.
  unfold may_not_regenerate, may_not_edit.
  destruct (Utilisateur.role current_user); reflexivity.
Qed.

Section RouteFacts.
Context {Chain AI : Type}.
Variable acte_service : ActeService.t.
Variable override_service : OverrideService.t.
Variable blockchain_service : BlockchainService.t Chain.
Variable store : ActeStore.t.
Variable suggestion_store : SuggestionStore.t.
Variable ai_service : SuggestionAI.t AI.


(** X4. A physician who did not create the act passes the permission check
    of validate, override and reject (none of them answers 403), while
    reading the act, its overrides or its suggestions, sending feedback,
    and updating, deleting or regenerating are all answered 403. *)
Theorem medecin_may_decide_but_not_read acte_id acte current_user
    (w : World Chain) :
  ActeService.get_acte_by_id acte_service (db w) acte_id = Some acte →
  Acte.createur_id acte ≠ Utilisateur.id current_user →
  Utilisateur.role current_user = MEDECIN →
  (∀ validation_data h w',
      validate_acte acte_service blockchain_service acte_id validation_data
        current_user w = (Failure h, w') →
      status_code h ≠ 403)
  ∧ (∀ override_data h w',
      create_override acte_service override_service blockchain_service
        acte_id override_data current_user w = (Failure h, w') →
      status_code h ≠ 403)
  ∧ (∀ reason h w',
      reject_acte acte_service blockchain_service acte_id reason
        current_user w = (Failure h, w') →
      status_code h ≠ 403)
  ∧ get_acte acte_service acte_id current_user (db w)
      = Refused access_denied
  ∧ get_acte_overrides acte_service override_service acte_id current_user
      (db w) = Refused access_denied
  ∧ (∀ acte_data,
      update_acte acte_service store acte_id acte_data current_user (db w)
        = (Refused access_denied, db w))
  ∧ delete_acte acte_service store acte_id current_user (db w)
      = (Refused access_denied, db w)
  ∧ (∀ wa : World AI,
      db wa = db w →
      get_suggestions acte_service suggestion_store ai_service acte_id
        current_user wa = (Failure access_denied, wa)
      ∧ regenerate_suggestions acte_service suggestion_store ai_service
          acte_id current_user wa = (Failure access_denied, wa)
      ∧ ∀ feedback_data,
          submit_feedback acte_service suggestion_store ai_service acte_id
            feedback_data current_user wa = (Failure access_denied, wa)).
Proof.
  intros Hget Hne Hrole.
  assert (forbidden acte current_user = false) as Hf.
  { destruct (forbidden acte current_user) eqn:E; [|reflexivity].
    apply forbidden_spec in E as [_ [E | E]]; congruence. }
  assert (may_not_read acte current_user = true) as Hr
    by (apply may_not_read_spec; auto).
  assert (may_not_edit acte current_user = true) as He
    by (apply may_not_edit_true; split; [assumption | congruence]).
  split; [|split; [|split]].
  - intros vd h w'. unfold validate_acte. rewrite Hget, Hf.
    destruct (finalized acte); [intros [= <- _]; cbn; discriminate|].
    destruct (low_confidence vd acte); [intros [= <- _]; cbn; discriminate|].
    unfold try_500. destruct (validate_acte_body _ _ _ _ _ _ w) as [[?|?] ?];
      [discriminate | intros [= <- _]; cbn; discriminate].
  - intros od h w'. unfold create_override. rewrite Hget, Hf.
    destruct (finalized acte); [intros [= <- _]; cbn; discriminate|].
    unfold try_500.
    destruct (create_override_body _ _ _ _ _ _ w) as [[?|?] ?];
      [discriminate | intros [= <- _]; cbn; discriminate].
  - intros reason h w'. unfold reject_acte. rewrite Hget, Hf.
    destruct (finalized acte); [intros [= <- _]; cbn; discriminate|].
    unfold try_500. destruct (reject_acte_body _ _ _ _ _ w) as [[?|?] ?];
      [discriminate | intros [= <- _]; cbn; discriminate].
  - repeat split; intros;
      unfold get_acte, get_acte_overrides, update_acte, delete_acte,
        get_suggestions, regenerate_suggestions, submit_feedback;
      try match goal with E : db _ = db w |- _ => rewrite E end;
      rewrite Hget, ?may_not_regenerate_spec, ?Hr, ?He; reflexivity.
Qed.

(** X5. [validate_acte] answers with the low-confidence refusal exactly
    when the act exists, the caller passes the permission check, the act is
    not finalized, [force_validation] is off and the score is a non-zero
    number below 50; the world is then as it was. *)
Theorem low_score_refusal_exactly acte_id validation_data current_user
    (w w' : World Chain) :
  validate_acte acte_service blockchain_service acte_id validation_data
    current_user w = (Failure score_too_low, w')
  ↔ w' = w
    ∧ ∃ acte s,
        ActeService.get_acte_by_id acte_service (db w) acte_id = Some acte
        ∧ forbidden acte current_user = false
        ∧ finalized acte = false
        ∧ ActeValidation.force_validation validation_data = false
        ∧ Acte.score_confiance acte = Some s ∧ ¬ (s == 0)%Q ∧ (s < 50)%Q.
Proof.
  unfold validate_acte. split.
  - destruct (ActeService.get_acte_by_id acte_service (db w) acte_id)
      as [acte|]; [|discriminate].
    destruct (forbidden acte current_user) eqn:Hf; [discriminate|].
    destruct (finalized acte) eqn:Hfin; [discriminate|].
    destruct (low_confidence validation_data acte) eqn:Hlow.
    + intros [= <-]. split; [reflexivity|].
      apply low_confidence_spec in Hlow as (Hforce & s & Hs & Hnz & Hlt).
      exists acte, s. auto 10.
    + unfold try_500.
      destruct (validate_acte_body _ _ _ _ _ _ w) as [[?|?] ?]; discriminate.
  - intros (-> & acte & s & Hget & Hf & Hfin & Hforce & Hs & Hnz & Hlt).
    rewrite Hget, Hf, Hfin.
    replace (low_confidence validation_data acte) with true; [reflexivity|].
    symmetry. apply low_confidence_spec. eauto 10.
Qed.

(** The audit task of [regenerate_suggestions]. *)
Lemma store_best_suggestion_tasks acte_id suggestions (w : World AI) r w' :
  store_best_suggestion suggestion_store acte_id suggestions w = (r, w') →
  chain w' = chain w ∧ background_tasks w' = background_tasks w
  ∧ match ActeSuggestion.suggestions suggestions with
    | [] => r = Ok tt ∧ db w' = db w
    | best_suggestion :: _ =>
        match dict_get best_suggestion "code" JNull with
        | None => r = Raise attribute_error ∧ db w' = db w
        | Some code =>
            SuggestionStore.update_acte_suggestion suggestion_store acte_id
              code (ActeSuggestion.score_confiance suggestions) (db w)
            = (r, db w')
        end
    end.
Proof.
  unfold store_best_suggestion.
  destruct (ActeSuggestion.suggestions suggestions) as [|best rest].
  - intros [= <- <-]. auto.
  - destruct (dict_get best "code" JNull) as [code|].
    + intros (E & C & T)%on_db_frame. auto.
    + intros [= <- <-]. auto.
Qed.

(** X6. When [regenerate_suggestions] succeeds, the AI service was asked
    with [force_regenerate=True], the first candidate's code and the global
    score were handed to [update_acte_suggestion], and exactly one audit
    task named regenerate_suggestions, carrying no values, was queued; when
    it fails, no task was queued. *)
Theorem regeneration_queues_one_audit_task acte_id current_user
    (w : World AI) r w' :
  regenerate_suggestions acte_service suggestion_store ai_service acte_id
    current_user w = (r, w') →
  match r with
  | Failure _ => background_tasks w' = background_tasks w
  | Success suggestions =>
      ∃ acte,
        ActeService.get_acte_by_id acte_service (db w) acte_id = Some acte
        ∧ SuggestionAI.generate_suggestions ai_service acte true (chain w)
          = (Ok suggestions, chain w')
        ∧ background_tasks w'
          = background_tasks w
            ++ [mkTask acte_id (Utilisateur.id current_user)
                  "regenerate_suggestions" "acte" None]
        ∧ match ActeSuggestion.suggestions suggestions with
          | [] => db w' = db w
          | best_suggestion :: _ =>
              ∃ code,
                dict_get best_suggestion "code" JNull = Some code
                ∧ SuggestionStore.update_acte_suggestion suggestion_store
                    acte_id code (ActeSuggestion.score_confiance suggestions)
                    (db w) = (Ok tt, db w')
          end
  end.
Proof.
  unfold regenerate_suggestions.
  destruct (ActeService.get_acte_by_id acte_service (db w) acte_id)
    as [acte|] eqn:Hget; [|intros [= <- <-]; reflexivity].
  destruct (may_not_regenerate acte current_user);
    [intros [= <- <-]; reflexivity|].
  unfold try_500, regenerate_suggestions_body, bind.
  destruct (on_chain _ w) as [[s|e] w1] eqn:H1;
    apply on_chain_frame in H1 as (G & D1 & T1);
    [|intros [= <- <-]; exact T1].
  destruct (store_best_suggestion _ _ _ w1) as [[[]|e] w2] eqn:H2;
    apply store_best_suggestion_tasks in H2 as (C2 & T2 & B);
    [|intros [= <- <-]; congruence].
  unfold add_task, ret. intros [= <- <-]. cbn [db chain background_tasks].
  exists acte. rewrite C2, T2, T1. repeat split; auto.
  destruct (ActeSuggestion.suggestions s) as [|best rest].
  - destruct B as [_ B]. congruence.
  - destruct (dict_get best "code" JNull) as [code|].
    + exists code. split; [reflexivity|]. rewrite <- D1. exact B.
    + destruct B as [[=] _].
Qed.

(** X7. [get_suggestions] asks the AI service without forcing, queues no
    task, and on success has handed the first candidate's code and the
    global score to [update_acte_suggestion]; with no candidate the
    database is as it was. *)
Theorem suggestions_store_first_candidate acte_id current_user
    (w : World AI) suggestions w' :
  get_suggestions acte_service suggestion_store ai_service acte_id
    current_user w = (Success suggestions, w') →
  ∃ acte,
    ActeService.get_acte_by_id acte_service (db w) acte_id = Some acte
    ∧ may_not_read acte current_user = false
    ∧ SuggestionAI.generate_suggestions ai_service acte false (chain w)
      = (Ok suggestions, chain w')
    ∧ background_tasks w' = background_tasks w
    ∧ match ActeSuggestion.suggestions suggestions with
      | [] => db w' = db w
      | best_suggestion :: _ =>
          ∃ code,
            dict_get best_suggestion "code" JNull = Some code
            ∧ SuggestionStore.update_acte_suggestion suggestion_store
                acte_id code (ActeSuggestion.score_confiance suggestions)
                (db w) = (Ok tt, db w')
      end.
Proof.
  unfold get_suggestions.
  destruct (ActeService.get_acte_by_id acte_service (db w) acte_id)
    as [acte|] eqn:Hget; [|discriminate].
  destruct (may_not_read acte current_user) eqn:Hr; [discriminate|].
  intros H%try_500_success. unfold get_suggestions_body in H.
  apply bind_ok in H as (s & w1 & (G & D1 & T1)%on_chain_frame & H).
  apply bind_ok in H as ([] & w2 & (C2 & T2 & B)%store_best_suggestion_tasks
                         & H).
  injection H as <- <-.
  exists acte. rewrite C2, T2, T1. repeat split; auto.
  destruct (ActeSuggestion.suggestions s) as [|best rest].
  - destruct B as [_ B]. congruence.
  - destruct (dict_get best "code" JNull) as [code|].
    + exists code. split; [reflexivity|]. rewrite <- D1. exact B.
    + destruct B as [[=] _].
Qed.

(** X8. [get_suggestions] does not look at the act's status: for every act
    its caller may read, a validated or rejected one included, the first
    candidate's code and the global score go to [update_acte_suggestion],
    and the answer is the suggestions when that call returns and HTTP 500
    when it raises. *)
Theorem suggestions_ignore_the_status acte_id acte current_user
    (w : World AI) suggestions ai' best_suggestion rest code r d' :
  ActeService.get_acte_by_id acte_service (db w) acte_id = Some acte →
  may_not_read acte current_user = false →
  SuggestionAI.generate_suggestions ai_service acte false (chain w)
    = (Ok suggestions, ai') →
  ActeSuggestion.suggestions suggestions = best_suggestion :: rest →
  dict_get best_suggestion "code" JNull = Some code →
  SuggestionStore.update_acte_suggestion suggestion_store acte_id code
    (ActeSuggestion.score_confiance suggestions) (db w) = (r, d') →
  get_suggestions acte_service suggestion_store ai_service acte_id
    current_user w
  = (match r with
     | Ok _ => Success suggestions
     | Raise e =>
         Failure (mkHTTP HTTP_500_INTERNAL_SERVER_ERROR
                    (String.append
                       "Erreur lors de la génération des suggestions: "
                       (exc_str e)))
     end,
     mkWorld d' ai' (background_tasks w)).
Proof.
  intros Hget Hr Hgen Hs Hcode Hupd.
  unfold get_suggestions. rewrite Hget, Hr.
  unfold try_500, get_suggestions_body, bind, on_chain. rewrite Hgen.
  unfold store_best_suggestion. rewrite Hs, Hcode.
  unfold on_db. cbn [db chain background_tasks]. rewrite Hupd.
  destruct r as [[]|e]; reflexivity.
Qed.

(** X9. [submit_feedback] queues nothing: its audit entry is written by
    the handler itself, after the feedback has been recorded. On success
    both calls have run; when recording the feedback raises, the answer is
    HTTP 500 and the audit call has not been made. *)
Theorem feedback_is_audited_in_the_request acte_id feedback_data
    current_user (w : World AI) r w' :
  submit_feedback acte_service suggestion_store ai_service acte_id
    feedback_data current_user w = (r, w') →
  background_tasks w' = background_tasks w
  ∧ (succeeded r = true →
     SuggestionAI.record_feedback ai_service acte_id
       (Utilisateur.id current_user) feedback_data (chain w)
     = (Ok tt, chain w')
     ∧ feedback_audit suggestion_store acte_id current_user feedback_data
         (db w) = (Ok tt, db w'))
  ∧ (∀ e ai',
       SuggestionAI.record_feedback ai_service acte_id
         (Utilisateur.id current_user) feedback_data (chain w)
       = (Raise e, ai') →
       succeeded r = false ∧ db w' = db w).
Proof.
  unfold submit_feedback.
  destruct (ActeService.get_acte_by_id acte_service (db w) acte_id)
    as [acte|] eqn:Hget;
    [|intros [= <- <-]; repeat split; auto; discriminate].
  destruct (may_not_read acte current_user);
    [intros [= <- <-]; repeat split; auto; discriminate|].
  unfold try_500, submit_feedback_body, bind.
  destruct (on_chain _ w) as [[[]|e] w1] eqn:H1;
    apply on_chain_frame in H1 as (G & D1 & T1).
  - destruct (on_db _ w1) as [[[]|e] w2] eqn:H2;
      apply on_db_frame in H2 as (A & C2 & T2).
    + unfold ret. intros [= <- <-]. rewrite T2, T1, C2.
      split; [reflexivity|]. split.
      * intros _. split; [exact G|]. rewrite <- D1. exact A.
      * intros e ai' E. rewrite E in G. discriminate.
    + intros [= <- <-]. rewrite T2, T1.
      split; [reflexivity|]. split; [discriminate|].
      intros e' ai' E. rewrite E in G. discriminate.
  - intros [= <- <-]. rewrite T1. split; [reflexivity|].
    split; [discriminate|]. intros e' ai' E. split; [reflexivity | exact D1].
Qed.

End RouteFacts.


Lemma medecin_may_decide_but_not_read_witness :
  let w := Reference.world_with (Reference.pending_acte (Some 90%Q)) in
  succeeded
    (validate_acte Reference.acte_service Reference.blockchain_service 1
       (Reference.validation false) ReferenceStore.colleague w).1 = true
  ∧ get_acte Reference.acte_service 1 ReferenceStore.colleague (db w)
    = Refused access_denied
  ∧ get_acte_overrides Reference.acte_service Reference.override_service 1
      ReferenceStore.colleague (db w) = Refused access_denied.
Proof.
  cbv zeta. split; [vm_compute; reflexivity|].
  pose proof (medecin_may_decide_but_not_read (AI := list string)
                Reference.acte_service Reference.override_service
                Reference.blockchain_service ReferenceStore.acte_store
                ReferenceStore.suggestion_store ReferenceStore.suggestion_ai
                1 (Reference.pending_acte (Some 90%Q))
                ReferenceStore.colleague
                (Reference.world_with (Reference.pending_acte (Some 90%Q))))
    as H.
  destruct H as (_ & _ & _ & H4 & H5 & _);
    [reflexivity | vm_compute; discriminate | reflexivity |].
  split; assumption.
Defined.

Lemma regeneration_queues_one_audit_task_witness :
  ∃ suggestions w',
    regenerate_suggestions Reference.acte_service
      ReferenceStore.suggestion_store ReferenceStore.suggestion_ai 1
      Reference.medecin (Reference.world_with (Reference.pending_acte None))
    = (Success suggestions, w')
    ∧ background_tasks w'
      = [] ++ [mkTask 1 7 "regenerate_suggestions" "acte" None]
    ∧ chain w' = ["regenerate"].
Proof.
  assert (∃ suggestions w',
            regenerate_suggestions Reference.acte_service
              ReferenceStore.suggestion_store ReferenceStore.suggestion_ai 1
              Reference.medecin
              (Reference.world_with (Reference.pending_acte None))
            = (Success suggestions, w') ∧ chain w' = ["regenerate"])
    as (suggestions & w' & E & C)
    by (eexists; eexists; split; vm_compute; reflexivity).
  exists suggestions, w'.
  destruct (regeneration_queues_one_audit_task _ _ _ _ _ _ _ _ E)
    as (acte & _ & _ & T & _).
  auto.
Defined.

Lemma suggestions_store_first_candidate_witness :
  ∃ suggestions w' code,
    get_suggestions Reference.acte_service ReferenceStore.suggestion_store
      ReferenceStore.suggestion_ai 1 Reference.medecin
      (Reference.world_with (Reference.pending_acte None))
    = (Success suggestions, w')
    ∧ background_tasks w' = []
    ∧ head (ActeSuggestion.suggestions suggestions) ≫= (λ best, dict_get best "code" JNull)
      = Some code
    ∧ Acte.code_ccam_suggere <$> actes (db w') !! 1 = Some (Some "HHFA002").
Proof.
  assert (∃ suggestions w',
            get_suggestions Reference.acte_service
              ReferenceStore.suggestion_store ReferenceStore.suggestion_ai 1
              Reference.medecin
              (Reference.world_with (Reference.pending_acte None))
            = (Success suggestions, w')
            ∧ Acte.code_ccam_suggere <$> actes (db w') !! 1
              = Some (Some "HHFA002"))
    as (suggestions & w' & E & C)
    by (eexists; eexists; split; vm_compute; reflexivity).
  destruct (suggestions_store_first_candidate _ _ _ _ _ _ _ _ E)
    as (acte & _ & _ & _ & T & B).
  destruct (ActeSuggestion.suggestions suggestions) as [|best rest] eqn:Hs.
  - exfalso. rewrite B in C. vm_compute in C. discriminate.
  - destruct B as (code & Hcode & _).
    exists suggestions, w', code. rewrite Hs. cbn. auto.
Defined.

Lemma suggestions_ignore_the_status_witness :
  ∃ d',
    get_suggestions Reference.acte_service ReferenceStore.suggestion_store
      ReferenceStore.suggestion_ai 1 Reference.medecin
      (Reference.world_with Reference.validated_acte)
    = (Success (ReferenceStore.proposal Reference.validated_acte),
       mkWorld d' ["generate"] [])
    ∧ Acte.statut <$> actes d' !! 1 = Some "valide"
    ∧ Acte.code_ccam_suggere Reference.validated_acte = Some "HHFA001"
    ∧ Acte.code_ccam_suggere <$> actes d' !! 1 = Some (Some "HHFA002").
Proof.
  eexists. split.
  - apply (suggestions_ignore_the_status Reference.acte_service
             ReferenceStore.suggestion_store ReferenceStore.suggestion_ai 1
             Reference.validated_acte Reference.medecin
             (Reference.world_with Reference.validated_acte)
             (ReferenceStore.proposal Reference.validated_acte)
             ["generate"]
             (JObj [("code", JStr "HHFA002"); ("score_confiance", JNum (Int 88))])
             [] (JStr "HHFA002") (Ok tt)
             (ReferenceStore.update_acte_suggestion 1 (JStr "HHFA002") 88
                (db (Reference.world_with Reference.validated_acte))).2);
      reflexivity.
  - vm_compute. auto.
Defined.

Lemma feedback_is_audited_in_the_request_witness :
  let w := Reference.world_with (Reference.pending_acte None) in
  (∃ r w',
      submit_feedback Reference.acte_service ReferenceStore.suggestion_store
        ReferenceStore.suggestion_ai 1 (JObj [("utile", JBool true)])
        Reference.medecin w = (r, w')
      ∧ succeeded r = true
      ∧ background_tasks w' = background_tasks w
      ∧ List.length (audit_entries (db w')) = 1%nat)
  ∧ (∃ r w',
      submit_feedback Reference.acte_service ReferenceStore.suggestion_store
        ReferenceStore.deaf_ai 1 (JObj [("utile", JBool true)])
        Reference.medecin w = (r, w')
      ∧ succeeded r = false
      ∧ db w' = db w).
Proof.
  cbv zeta. split.
  - assert (∃ r w',
              submit_feedback Reference.acte_service
                ReferenceStore.suggestion_store ReferenceStore.suggestion_ai
                1 (JObj [("utile", JBool true)]) Reference.medecin
                (Reference.world_with (Reference.pending_acte None))
              = (r, w')
              ∧ succeeded r = true
              ∧ List.length (audit_entries (db w')) = 1%nat)
      as (r & w' & E & S & L)
      by (eexists; eexists; repeat split; vm_compute; reflexivity).
    exists r, w'.
    destruct (feedback_is_audited_in_the_request _ _ _ _ _ _ _ _ _ E)
      as (T & _ & _).
    auto.
  - assert (∃ r w',
              submit_feedback Reference.acte_service
                ReferenceStore.suggestion_store ReferenceStore.deaf_ai
                1 (JObj [("utile", JBool true)]) Reference.medecin
                (Reference.world_with (Reference.pending_acte None))
              = (r, w'))
      as (r & w' & E) by (eexists; eexists; reflexivity).
    exists r, w'.
    destruct (feedback_is_audited_in_the_request _ _ _ _ _ _ _ _ _ E)
      as (_ & _ & F).
    destruct (F ReferenceStore.feedback_error []) as [S D];
      [reflexivity | auto].
Defined.

(** ** [ai_service.py]: the other coroutines *)

Section EngineMore.
Variable rt : Runtime.t.
Variable json_dumps : json → string.

Lemma str_in_In x l : str_in x l = true ↔ In x l.
Proof.
  unfold str_in. rewrite existsb_exists. split.
  - intros (y & Hy & ->%String.eqb_eq). exact Hy.
  - intros H. exists x. split; [exact H | apply String.eqb_refl].
Qed.

(** X10. A successful [validate_suggestion] has sent exactly one prompt,
    the validation prompt, and left the cache alone; in its result the keys
    rule_validation and timestamp hold the rule engine's verdict and the
    clock reading, whatever the model answered under them, and every other
    key is as the model answered it. *)
Theorem validation_keeps_the_rule_verdict code_ccam acte_context st v st' :
  validate_suggestion rt json_dumps code_ccam acte_context st = (Ok v, st') →
  ∃ prompt llm_response validation_result rule_validation,
    format_prompt rt "validation"
      [("code_propose", JStr code_ccam);
       ("contexte_acte", JStr (json_dumps acte_context))] = Ok prompt
    ∧ llm_calls st' = llm_calls st ++ [prompt]
    ∧ cache st' = cache st
    ∧ Runtime.completion rt (llm_calls st) prompt = Ok llm_response
    ∧ _parse_llm_response rt llm_response = Ok validation_result
    ∧ Runtime.validate_code rt (JStr code_ccam) acte_context
      = Ok rule_validation
    ∧ subscript v "rule_validation" = Some rule_validation
    ∧ subscript v "timestamp"
      = Some (JStr (Runtime.isoformat rt (now st)))
    ∧ ∀ k, k ≠ "rule_validation" → k ≠ "timestamp" →
           subscript v k = subscript validation_result k.
Proof.
  unfold validate_suggestion. intros H.
  apply abind_ok in H as (prompt & st1 & [Hp ->]%lift_inv & H).
  apply abind_ok in H as (resp & st2 & [Hc ->]%call_llm_inv & H).
  apply abind_ok in H as (parsed & st3 & [Hparse ->]%lift_inv & H).
  apply abind_ok in H as (rv & st4 & [Hrule ->]%lift_inv & H).
  cbn [now cache llm_calls] in H.
  destruct parsed as [| | | | |kv]; try discriminate.
  injection H as <- <-.
  exists prompt, resp, (JObj kv), rv. cbn [llm_calls cache subscript].
  repeat split; auto.
  - rewrite dict_lookup_set_ne by discriminate. apply dict_lookup_set_eq.
  - apply dict_lookup_set_eq.
  - intros k Hk1 Hk2. rewrite !dict_lookup_set_ne by congruence. reflexivity.
Qed.

(** X11. [learn_from_override] on data that lacks one of the keys
    code_ccam_original, code_ccam_override, justification or contexte
    raises [KeyError] before anything else happens: no prompt is sent and
    nothing is stored. *)
Theorem learning_needs_its_four_keys override_data k st :
  In k ["code_ccam_original"; "code_ccam_override"; "justification";
        "contexte"] →
  dict_lookup k override_data = None →
  ∃ missing,
    In missing ["code_ccam_original"; "code_ccam_override"; "justification";
                "contexte"]
    ∧ dict_lookup missing override_data = None
    ∧ learn_from_override rt json_dumps override_data st
      = (Raise (key_error missing), st).
Proof.
  intros Hk Hnone. unfold learn_from_override, abind, lift, learning_kwargs.
  destruct (dict_lookup "code_ccam_original" override_data) eqn:E1;
    [|exists "code_ccam_original"; cbn; auto].
  destruct (dict_lookup "code_ccam_override" override_data) eqn:E2;
    [|exists "code_ccam_override"; cbn; auto].
  destruct (dict_lookup "justification" override_data) eqn:E3;
    [|exists "justification"; cbn; auto].
  destruct (dict_lookup "contexte" override_data) eqn:E4;
    [|exists "contexte"; cbn; auto 6].
  exfalso. cbn in Hk. destruct Hk as [<-|[<-|[<-|[<-|[]]]]]; congruence.
Qed.



(** The outcomes of the extraction step. *)
Lemma extract_clinical_info_outcome acte_data st :
  ∃ extracted_info st',
    _extract_clinical_info rt acte_data st = (Ok extracted_info, st')
    ∧ cache st' = cache st
    ∧ now st' = now st
    ∧ (llm_calls st' = llm_calls st
       ∨ ∃ prompt, llm_calls st' = llm_calls st ++ [prompt])
    ∧ (extracted_info = JObj []
       ∨ ∃ prompt llm_response,
           llm_calls st' = llm_calls st ++ [prompt]
           ∧ Runtime.completion rt (llm_calls st) prompt = Ok llm_response
           ∧ _parse_llm_response rt llm_response = Ok extracted_info).
Proof.
  unfold _extract_clinical_info, abind, lift, _call_llm.
  destruct (format_prompt rt "extraction" _) as [prompt|e].
  - destruct (Runtime.completion rt (llm_calls st) prompt) as [resp|e] eqn:Hc.
    + destruct (_parse_llm_response rt resp) as [info|e] eqn:Hp;
        eexists; eexists; (split; [reflexivity|]); cbn [cache now llm_calls];
        repeat split; eauto 7.
    + eexists; eexists; (split; [reflexivity|]); cbn [cache now llm_calls];
        repeat split; eauto.
  - eexists; eexists; (split; [reflexivity|]); repeat split; auto.
Qed.

(** X13. [_extract_clinical_info] never raises: it returns the decoded
    answer of the provider, or the empty dict when formatting the prompt,
    the provider or the decoding failed. It sends at most one prompt and
    leaves the cache and the clock alone. *)
Theorem extraction_never_raises acte_data st :
  ∃ extracted_info st',
    _extract_clinical_info rt acte_data st = (Ok extracted_info, st')
    ∧ cache st' = cache st
    ∧ now st' = now st
    ∧ (llm_calls st' = llm_calls st
       ∨ ∃ prompt, llm_calls st' = llm_calls st ++ [prompt])
    ∧ (extracted_info = JObj []
       ∨ ∃ prompt llm_response,
           llm_calls st' = llm_calls st ++ [prompt]
           ∧ Runtime.completion rt (llm_calls st) prompt = Ok llm_response
           ∧ _parse_llm_response rt llm_response = Ok extracted_info).
Proof. exact (extract_clinical_info_outcome acte_data st). Qed.

End EngineMore.

Lemma validation_keeps_the_rule_verdict_witness :
  ∃ v st',
    validate_suggestion ReferenceAI.runtime ReferenceStore.json_dumps
      "HHFA001" (JObj []) ReferenceAI.fresh_service = (Ok v, st')
    ∧ subscript v "rule_validation"
      = Some (JObj [("is_valid", JBool true); ("reasons", JArr [])])
    ∧ List.length (llm_calls st') = 1%nat.
Proof.
  assert (∃ v st',
            validate_suggestion ReferenceAI.runtime ReferenceStore.json_dumps
              "HHFA001" (JObj []) ReferenceAI.fresh_service = (Ok v, st'))
    as (v & st' & E) by (eexists; eexists; vm_compute; reflexivity).
  exists v, st'.
  destruct (validation_keeps_the_rule_verdict _ _ _ _ _ _ _ E)
    as (prompt & resp & parsed & rv & _ & Hcalls & _ & _ & _ & Hrule & Hv & _).
  split; [exact E|]. split.
  - rewrite Hv. f_equal. vm_compute in Hrule. congruence.
  - rewrite Hcalls. reflexivity.
Defined.

Lemma learning_needs_its_four_keys_witness :
  ∃ missing,
    learn_from_override ReferenceAI.runtime ReferenceStore.json_dumps
      [("code_ccam_original", JStr "HHFA001")] ReferenceAI.fresh_service
    = (Raise (key_error missing), ReferenceAI.fresh_service).
Proof.
  destruct (learning_needs_its_four_keys ReferenceAI.runtime
              ReferenceStore.json_dumps
              [("code_ccam_original", JStr "HHFA001")] "contexte"
              ReferenceAI.fresh_service)
    as (missing & _ & _ & E); [cbn; auto | reflexivity |].
  exists missing. exact E.
Defined.


(** ** [generate_suggestions]: the cache and the provider *)

Section GenerationFacts.
Variable rt : Runtime.t.

(** What the path that asks the provider does to the service state. *)
Lemma generate_fresh_effect acte_data cache_key st r st' :
  generate_fresh rt acte_data cache_key st = (r, st') →
  now st' = now st
  ∧ (∃ first, (first = [] ∨ ∃ p, first = [p])
        ∧ (llm_calls st' = llm_calls st ++ first
           ∨ ∃ kwargs prompt,
               main_prompt_kwargs rt acte_data = Ok kwargs
               ∧ format_prompt rt "main_suggestion" kwargs = Ok prompt
               ∧ llm_calls st' = llm_calls st ++ first ++ [prompt]))
  ∧ match r with
    | Raise _ => cache st' = cache st
    | Ok response =>
        Runtime.cache_fault rt (now st) cache_key = None
        ∧ cache st'
          = (let stored :=
               <[cache_key
                 := CacheManager.mk_entry (AISuggestionResponse.dict response)
                      (now st + 3600)]> (cache st) in
             match Runtime.cache_fault rt (now st)
                     (metrics_key rt acte_data) with
             | Some _ => stored
             | None =>
                 <[metrics_key rt acte_data
                   := CacheManager.mk_entry
                        (metrics_of rt acte_data response (now st))
                        (now st + 86400)]> stored
             end)
        ∧ ∃ first kwargs prompt,
            (first = [] ∨ ∃ p, first = [p])
            ∧ main_prompt_kwargs rt acte_data = Ok kwargs
            ∧ format_prompt rt "main_suggestion" kwargs = Ok prompt
            ∧ llm_calls st' = llm_calls st ++ first ++ [prompt]
    end.
Proof.
  unfold generate_fresh. intros H.
  destruct (extract_clinical_info_outcome rt acte_data st)
    as (info & st1 & E1 & C1 & N1 & L1 & _).
  assert (∃ first, (first = [] ∨ ∃ p, first = [p])
                   ∧ llm_calls st1 = llm_calls st ++ first)
    as (first & Hfirst & L1').
  { destruct L1 as [L1 | [p L1]].
    - exists []. rewrite app_nil_r. auto.
    - exists [p]. eauto. }
  rewrite (abind_step _ _ _ _ _ E1) in H.
  unfold abind at 1 in H. unfold lift at 1 in H.
  destruct (main_prompt_kwargs rt acte_data) as [kwargs|e] eqn:Hk;
    [|injection H as <- <-; eauto 10].
  unfold abind at 1 in H. unfold lift at 1 in H.
  destruct (format_prompt rt "main_suggestion" kwargs) as [prompt|e] eqn:Hp;
    [|injection H as <- <-; eauto 10].
  assert (llm_calls st ++ first ++ [prompt]
          = llm_calls st1 ++ [prompt]) as Hcalls
    by (rewrite L1', <- app_assoc; reflexivity).
  unfold abind at 1 in H. unfold _call_llm at 1 in H.
  destruct (Runtime.completion rt (llm_calls st1) prompt) as [resp|e];
    [|injection H as <- <-; cbn [now cache llm_calls];
      rewrite <- Hcalls; eauto 12].
  unfold abind at 1 in H. unfold lift at 1 in H.
  destruct (_parse_llm_response rt resp) as [parsed|e];
    [|injection H as <- <-; cbn [now cache llm_calls];
      rewrite <- Hcalls; eauto 12].
  unfold abind at 1 in H. unfold lift at 1 in H.
  destruct (response_kwargs _) as [d|e];
    [|injection H as <- <-; cbn [now cache llm_calls];
      rewrite <- Hcalls; eauto 12].
  unfold abind at 1 in H. unfold lift at 1 in H.
  destruct (Runtime.model_validate rt d) as [response|e];
    [|injection H as <- <-; cbn [now cache llm_calls];
      rewrite <- Hcalls; eauto 12].
  unfold abind at 1 in H.
  destruct (cache_set rt cache_key _ 3600 _) as [[u|e] st2] eqn:Hset;
    apply cache_set_inv in Hset; cbn [now cache llm_calls] in Hset;
    destruct (Runtime.cache_fault rt (now st1) cache_key) eqn:Hfault;
    destruct Hset as [Hset ->]; try discriminate.
  - unfold abind, aret in H.
    destruct (_record_metrics rt acte_data response _) as [[v|e] st3] eqn:Hm;
      apply record_metrics_inv in Hm as (Hr & N3 & L3 & C3);
      [|discriminate].
    injection H as <- <-. cbn [now cache llm_calls] in *.
    rewrite N3, L3, C3, <- Hcalls, N1, C1. rewrite N1 in Hfault.
    split; [reflexivity|]. split; [eauto 12|]. split; [exact Hfault|].
    split; [reflexivity|]. eauto 12.
  - injection H as <- <-. cbn [now cache llm_calls].
    rewrite <- Hcalls. eauto 12.
Qed.

(** X14. A [generate_suggestions] that raises has stored nothing: the
    cache and the clock are as they were, whatever step failed. *)
Theorem failed_generation_caches_nothing acte_data force_regenerate st e
    st' :
  generate_suggestions rt acte_data force_regenerate st = (Raise e, st') →
  cache st' = cache st ∧ now st' = now st.
Proof.
  unfold generate_suggestions, abind at 1, lift at 1.
  destruct (_create_cache_key rt acte_data) as [key|e0];
    [|intros [= _ <-]; auto].
  unfold abind.
  destruct (if negb force_regenerate then cache_get key else aret None)
    as [[cached|e0] st1] eqn:Hc.
  - assert (st1 = st) as ->.
    { destruct force_regenerate; cbn in Hc; injection Hc as _ <-;
        reflexivity. }
    destruct cached as [cached|].
    + destruct (truthy cached).
      * intros [_ ->]%lift_inv. auto.
      * intros (N & _ & C)%generate_fresh_effect. auto.
    + intros (N & _ & C)%generate_fresh_effect. auto.
  - destruct force_regenerate; cbn in Hc; discriminate.
Qed.

(** X15. A [generate_suggestions] that is not served from the cache and
    succeeds has stored the response under the act's fingerprint for 3600
    seconds. Its metrics go under metrics: and the act's number for 86400
    seconds; when the cache store refuses that second write, the refusal
    is logged only: the call still succeeds and the response entry is the
    one entry written. The clock is not moved and every other entry is as
    it was. *)
Theorem fresh_generation_cache_writes acte_data force_regenerate st
    cache_key response st' :
  _create_cache_key rt acte_data = Ok cache_key →
  force_regenerate = true
  ∨ CacheManager.get (cache st) (now st) cache_key = None →
  generate_suggestions rt acte_data force_regenerate st
    = (Ok response, st') →
  now st' = now st
  ∧ cache st' !! cache_key
    = Some (CacheManager.mk_entry (AISuggestionResponse.dict response)
              (now st + 3600))
  ∧ metrics_key rt acte_data
    = String.append "metrics:"
        (py_str rt (acte_get acte_data "numero_acte" JNull))
  ∧ cache st' !! metrics_key rt acte_data
    = match Runtime.cache_fault rt (now st) (metrics_key rt acte_data) with
      | Some _ => cache st !! metrics_key rt acte_data
      | None =>
          Some (CacheManager.mk_entry
                  (JObj [
                     ("acte_id", acte_get acte_data "id" JNull);
                     ("numero_acte", acte_get acte_data "numero_acte" JNull);
                     ("score_confiance",
                        JNum (Float
                          (AISuggestionResponse.score_confiance_global
                             response)));
                     ("nombre_suggestions",
                        JNum (Int (Z.of_nat (List.length
                          (AISuggestionResponse.suggestions response)))));
                     ("timestamp", JStr (Runtime.isoformat rt (now st)))])
                  (now st + 86400))
      end
  ∧ ∀ k, k ≠ cache_key → k ≠ metrics_key rt acte_data →
         cache st' !! k = cache st !! k.
Proof.
  intros Hkey Hmiss H.
  rewrite (generate_suggestions_fresh rt _ _ _ _ Hkey Hmiss) in H.
  apply generate_fresh_effect in H as (N & _ & _ & C & _).
  assert (metrics_key rt acte_data ≠ cache_key) as Hne
    by (intros E; symmetry in E; revert E;
        eapply cache_key_not_metrics; eassumption).
  split; [exact N|]. rewrite C. cbv zeta.
  destruct (Runtime.cache_fault rt (now st) (metrics_key rt acte_data)).
  - split; [apply lookup_insert_eq|]. split; [reflexivity|].
    split; [apply lookup_insert_ne; congruence|].
    intros k Hk1 Hk2. apply lookup_insert_ne. congruence.
  - split; [rewrite lookup_insert_ne by exact Hne; apply lookup_insert_eq|].
    split; [reflexivity|]. split; [apply lookup_insert_eq|].
    intros k Hk1 Hk2. rewrite !lookup_insert_ne by congruence. reflexivity.
Qed.

(** X16. A [generate_suggestions] that is not served from the cache and
    succeeds has sent the main prompt, built from the act, as its last
    request to the provider, after at most one extraction prompt: one or
    two requests in all. *)
Theorem fresh_generation_asks_the_provider acte_data force_regenerate st
    cache_key response st' :
  _create_cache_key rt acte_data = Ok cache_key →
  force_regenerate = true
  ∨ CacheManager.get (cache st) (now st) cache_key = None →
  generate_suggestions rt acte_data force_regenerate st
    = (Ok response, st') →
  ∃ first kwargs prompt,
    main_prompt_kwargs rt acte_data = Ok kwargs
    ∧ format_prompt rt "main_suggestion" kwargs = Ok prompt
    ∧ llm_calls st' = llm_calls st ++ first ++ [prompt]
    ∧ (List.length first <= 1)%nat.
Proof.
  intros Hkey Hmiss H.
  rewrite (generate_suggestions_fresh rt _ _ _ _ Hkey Hmiss) in H.
  apply generate_fresh_effect
    in H as (_ & _ & _ & _ & first & kwargs & prompt & Hf & Hk & Hp & L).
  exists first, kwargs, prompt. repeat split; auto.
  destruct Hf as [-> | [p ->]]; cbn; lia.
Qed.

(** X17. What one act's generation stored is served to every act with the
    same fingerprint for an hour: after a successful generation for [a]
    that asked the provider, a request without [force_regenerate] for an
    act [b] whose cache key is the same, made before 3600 seconds have
    passed, returns the same response and changes nothing. *)
Theorem stored_answer_is_shared_for_an_hour (a b : gmap string json)
    force_regenerate st cache_key response st1 t :
  _create_cache_key rt a = Ok cache_key →
  _create_cache_key rt b = Ok cache_key →
  force_regenerate = true
  ∨ CacheManager.get (cache st) (now st) cache_key = None →
  generate_suggestions rt a force_regenerate st = (Ok response, st1) →
  Runtime.model_validate rt (AISuggestionResponse.dict response)
    = Ok response →
  t < now st + 3600 →
  generate_suggestions rt b false (mkAI (cache st1) (llm_calls st1) t)
  = (Ok response, mkAI (cache st1) (llm_calls st1) t).
Proof.
  intros Ha Hb Hmiss H Hmodel Ht.
  rewrite (generate_suggestions_fresh rt _ _ _ _ Ha Hmiss) in H.
  apply generate_fresh_stores in H as [Hstored _];
    [|eapply cache_key_not_metrics; eassumption].
  eapply cache_hit; eauto.
Qed.

(** X18. The fingerprint reads four entries of the act and no other:
    setting or removing any other entry (the material, the establishment,
    the service, the patient) leaves the cache key as it was. *)
Theorem fingerprint_ignores_other_fields (a : gmap string json) k v :
  ¬ In k fingerprint_fields →
  _create_cache_key rt (<[k := v]> a) = _create_cache_key rt a
  ∧ _create_cache_key rt (delete k a) = _create_cache_key rt a.
Proof.
  intros Hk. unfold fingerprint_fields in Hk. cbn in Hk.
  assert (∀ f d, In f fingerprint_fields →
                 acte_get (<[k := v]> a) f d = acte_get a f d
                 ∧ acte_get (delete k a) f d = acte_get a f d) as G.
  { intros f d Hf. assert (k ≠ f) by (intros ->; apply Hk, Hf).
    split; apply acte_get_ext;
      [apply lookup_insert_ne | apply lookup_delete_ne]; assumption. }
  unfold _create_cache_key, key_parts.
  destruct (G "type_acte" (JStr "")) as [-> ->]; [cbn; auto|].
  destruct (G "description_clinique" (JStr "")) as [-> ->]; [cbn; auto|].
  destruct (G "duree_acte" (JStr "")) as [-> ->]; [cbn; auto|].
  destruct (G "modificateurs" (JArr [])) as [-> ->]; [cbn; auto 6|].
  split; reflexivity.
Qed.

(** X19. An act whose modificateurs or description_clinique entry is
    None (the schema allows a missing modifier list) makes
    [generate_suggestions] raise [TypeError] while building the cache key:
    no cache lookup is made, no prompt is sent and nothing is stored. *)
Theorem none_field_fails_before_any_call (a : gmap string json)
    force_regenerate st :
  a !! "modificateurs" = Some JNull
  ∨ a !! "description_clinique" = Some JNull →
  _create_cache_key rt a = Raise type_error
  ∧ generate_suggestions rt a force_regenerate st = (Raise type_error, st).
Proof.
  intros H.
  assert (_create_cache_key rt a = Raise type_error) as E.
  { unfold _create_cache_key, key_parts.
    destruct H as [H | H].
    - rewrite (acte_get_Some _ "modificateurs" _ _ H).
      destruct (prefix_100 _); reflexivity.
    - rewrite (acte_get_Some _ "description_clinique" _ _ H). reflexivity. }
  split; [exact E|].
  unfold generate_suggestions, abind, lift. rewrite E. reflexivity.
Qed.

End GenerationFacts.

Lemma failed_generation_caches_nothing_witness :
  ∃ e st',
    generate_suggestions
      (ReferenceAI.runtime_with ReferenceAI.prose_completion
         ReferenceAI.accept_code)
      ReferenceAI.stent true ReferenceAI.fresh_service = (Raise e, st')
    ∧ cache st' = cache ReferenceAI.fresh_service
    ∧ now st' = now ReferenceAI.fresh_service.
Proof.
  assert (∃ e st',
            generate_suggestions
              (ReferenceAI.runtime_with ReferenceAI.prose_completion
                 ReferenceAI.accept_code)
              ReferenceAI.stent true ReferenceAI.fresh_service
            = (Raise e, st'))
    as (e & st' & E) by (eexists; eexists; vm_compute; reflexivity).
  exists e, st'. split; [exact E|].
  exact (failed_generation_caches_nothing _ _ _ _ _ _ E).
Defined.

Lemma stent_key_spec :
  _create_cache_key ReferenceAI.runtime ReferenceAI.stent = Ok stent_key.
Proof. vm_compute. reflexivity. Qed.

Lemma fresh_generation_cache_writes_witness :
  (∃ st' metrics,
      generate_suggestions ReferenceAI.runtime ReferenceAI.stent true
        ReferenceAI.fresh_service = (Ok ReferenceAI.stent_response, st')
      ∧ cache st' !! stent_key
        = Some (CacheManager.mk_entry
                  (AISuggestionResponse.dict ReferenceAI.stent_response)
                  (now ReferenceAI.fresh_service + 3600))
      ∧ cache st' !! "metrics:A-2024-0001"
        = Some (CacheManager.mk_entry metrics
                  (now ReferenceAI.fresh_service + 86400)))
  ∧ (∃ st',
      generate_suggestions runtime_refusing_records ReferenceAI.stent true
        ReferenceAI.fresh_service = (Ok ReferenceAI.stent_response, st')
      ∧ cache st' !! stent_key
        = Some (CacheManager.mk_entry
                  (AISuggestionResponse.dict ReferenceAI.stent_response)
                  (now ReferenceAI.fresh_service + 3600))
      ∧ cache st' !! "metrics:A-2024-0001" = None).
Proof.
  split.
  - assert (∃ st',
              generate_suggestions ReferenceAI.runtime ReferenceAI.stent true
                ReferenceAI.fresh_service
              = (Ok ReferenceAI.stent_response, st'))
      as (st' & E) by (eexists; vm_compute; reflexivity).
    destruct (fresh_generation_cache_writes _ _ _ _ _ _ _
                stent_key_spec (or_introl eq_refl) E)
      as (_ & Hkey & _ & Hm & _).
    exists st'. eexists. split; [exact E|]. split; [exact Hkey|].
    exact Hm.
  - assert (∃ st',
              generate_suggestions runtime_refusing_records ReferenceAI.stent
                true ReferenceAI.fresh_service
              = (Ok ReferenceAI.stent_response, st'))
      as (st' & E) by (eexists; vm_compute; reflexivity).
    assert (_create_cache_key runtime_refusing_records ReferenceAI.stent
            = Ok stent_key) as K by (vm_compute; reflexivity).
    destruct (fresh_generation_cache_writes _ _ _ _ _ _ _
                K (or_introl eq_refl) E)
      as (_ & Hkey & _ & Hm & _).
    exists st'. split; [exact E|]. split; [exact Hkey|]. exact Hm.
Defined.

Lemma fresh_generation_asks_the_provider_witness :
  ∃ st' first prompt,
    generate_suggestions ReferenceAI.runtime ReferenceAI.stent true
      ReferenceAI.fresh_service = (Ok ReferenceAI.stent_response, st')
    ∧ llm_calls st' = [] ++ first ++ [prompt]
    ∧ (List.length first <= 1)%nat.
Proof.
  assert (∃ st',
            generate_suggestions ReferenceAI.runtime ReferenceAI.stent true
              ReferenceAI.fresh_service
            = (Ok ReferenceAI.stent_response, st'))
    as (st' & E) by (eexists; vm_compute; reflexivity).
  destruct (fresh_generation_asks_the_provider _ _ _ _ _ _ _
              stent_key_spec (or_introl eq_refl) E)
    as (first & kwargs & prompt & _ & _ & L & B).
  exists st', first, prompt. auto.
Defined.

Lemma stored_answer_is_shared_for_an_hour_witness :
  let st1 := (generate_suggestions ReferenceAI.runtime ReferenceAI.stent true
                ReferenceAI.fresh_service).2 in
  ReferenceAI.stent !! "materiel_utilise" = None
  ∧ generate_suggestions ReferenceAI.runtime stent_other_material false
      (mkAI (cache st1) (llm_calls st1) 2000)
    = (Ok ReferenceAI.stent_response, mkAI (cache st1) (llm_calls st1) 2000).
Proof.
  cbv zeta. split; [vm_compute; reflexivity|].
  apply (stored_answer_is_shared_for_an_hour ReferenceAI.runtime
           ReferenceAI.stent stent_other_material true
           ReferenceAI.fresh_service stent_key ReferenceAI.stent_response);
    [ vm_compute; reflexivity | vm_compute; reflexivity | left; reflexivity
    | vm_compute; reflexivity | vm_compute; reflexivity
    | vm_compute; reflexivity ].
Defined.

Lemma fingerprint_ignores_other_fields_witness :
  _create_cache_key ReferenceAI.runtime stent_other_material
  = _create_cache_key ReferenceAI.runtime ReferenceAI.stent.
Proof.
  apply (fingerprint_ignores_other_fields ReferenceAI.runtime
           ReferenceAI.stent "materiel_utilise" (JStr "stent actif")).
  cbn. intuition discriminate.
Defined.

Lemma none_field_fails_before_any_call_witness :
  generate_suggestions ReferenceAI.runtime stent_without_modifiers false
    ReferenceAI.fresh_service
  = (Raise type_error, ReferenceAI.fresh_service).
Proof.
  apply (none_field_fails_before_any_call ReferenceAI.runtime
           stent_without_modifiers false ReferenceAI.fresh_service).
  left. vm_compute. reflexivity.
Defined.

(** ** [_parse_llm_response]: text around the object *)

Lemma str_find_app c p s :
  ¬ In c (list_ascii_of_string p) →
  str_find c (String.append p (String c s)) = Z.of_nat (String.length p).
Proof.
  induction p as [|a p IH].
  - intros _. change (str_find c (String c s) = 0).
    unfold str_find. rewrite Ascii.eqb_refl. reflexivity.
  - intros H.
    change (str_find c (String a (String.append p (String c s)))
            = Z.of_nat (S (String.length p))).
    change (str_find c (String a (String.append p (String c s))))
      with (if Ascii.eqb a c then 0
            else let r := str_find c (String.append p (String c s)) in
                 if Z.eqb r (-1) then -1 else r + 1).
    cbv zeta. destruct (Ascii.eqb a c) eqn:E.
    + apply Ascii.eqb_eq in E. subst. exfalso. apply H. left. reflexivity.
    + rewrite IH by (intros ?; apply H; right; assumption).
      destruct (Z.eqb_spec (Z.of_nat (String.length p)) (-1)); lia.
Qed.

Lemma str_rfind_app c p s :
  ¬ In c (list_ascii_of_string s) →
  str_rfind c (String.append p (String c s)) = Z.of_nat (String.length p).
Proof.
  intros H. induction p as [|a p IH].
  - change (str_rfind c (String c s) = 0).
    change (str_rfind c (String c s))
      with (let r := str_rfind c s in
            if Z.eqb r (-1) then (if Ascii.eqb c c then 0 else -1)
            else r + 1).
    apply str_rfind_absent in H. cbv zeta. rewrite H, Z.eqb_refl.
    rewrite Ascii.eqb_refl. reflexivity.
  - change (str_rfind c (String a (String.append p (String c s)))
            = Z.of_nat (S (String.length p))).
    change (str_rfind c (String a (String.append p (String c s))))
      with (let r := str_rfind c (String.append p (String c s)) in
            if Z.eqb r (-1) then (if Ascii.eqb a c then 0 else -1)
            else r + 1).
    cbv zeta. rewrite IH.
    destruct (Z.eqb_spec (Z.of_nat (String.length p)) (-1)); lia.
Qed.

Lemma append_nil_l s : String.append "" s = s.
Proof. reflexivity. Qed.

Lemma append_cons a p s :
  String.append (String a p) s = String a (String.append p s).
Proof. reflexivity. Qed.

Lemma append_String_assoc p c s t :
  String.append (String.append p (String c s)) t
  = String.append p (String c (String.append s t)).
Proof.
  induction p as [|a p IH]; rewrite ?append_nil_l, ?append_cons;
    [|rewrite IH]; reflexivity.
Qed.

Lemma length_append_String p c s :
  String.length (String.append p (String c s))
  = S (String.length p + String.length s).
Proof.
  induction p as [|a p IH]; rewrite ?append_nil_l, ?append_cons; simpl;
    [|rewrite IH]; reflexivity.
Qed.

Lemma substring_skip p n s :
  String.substring (String.length p) n (String.append p s)
  = String.substring 0 n s.
Proof.
  induction p as [|a p IH]; rewrite ?append_nil_l, ?append_cons; simpl;
    [|rewrite IH]; reflexivity.
Qed.

Lemma substring_prefix b s :
  String.substring 0 (String.length b) (String.append b s) = b.
Proof.
  induction b as [|a b IH]; rewrite ?append_nil_l, ?append_cons; simpl.
  - destruct s; reflexivity.
  - rewrite IH. reflexivity.
Qed.

(** X20. Text before the first opening brace and after the last closing
    brace is dropped: a response made of a preamble without an opening
    brace, an object text, and a closing remark without a closing brace
    decodes as the object text alone does. *)
Theorem prose_around_the_object_is_dropped (rt : Runtime.t) preamble inner
    remark :
  ¬ In "{"%char (list_ascii_of_string preamble) →
  ¬ In "}"%char (list_ascii_of_string remark) →
  _parse_llm_response rt
    (String.append preamble
       (String "{" (String.append inner (String "}" remark))))
  = Runtime.json_loads rt (String "{" (String.append inner "}")).
Proof.
  intros Hpre Hrem. unfold _parse_llm_response.
  rewrite (str_find_app _ _ _ Hpre).
  rewrite <- (append_String_assoc preamble "{" inner (String "}" remark)).
  rewrite (str_rfind_app _ _ _ Hrem), length_append_String.
  destruct (Z.eqb_spec (Z.of_nat (String.length preamble)) (-1)); [lia|].
  destruct (Z.eqb_spec
              (Z.of_nat (S (String.length preamble + String.length inner))
               + 1) 0); [lia|].
  cbn [orb]. f_equal. unfold slice.
  rewrite append_String_assoc, Nat2Z.id.
  replace (Z.to_nat _)
    with (String.length (String "{" (String.append inner "}")))
    by (cbn [String.length]; rewrite length_append_String;
        cbn [String.length]; lia).
  rewrite substring_skip.
  replace (String "{" (String.append inner (String "}" remark)))
    with (String.append (String "{" (String.append inner "}")) remark)
    by (rewrite append_cons, append_String_assoc, append_nil_l;
        reflexivity).
  apply substring_prefix.
Qed.

Lemma prose_around_the_object_is_dropped_witness :
  _parse_llm_response ReferenceAI.runtime
    (String.append "Voici : " (String "{" (String.append "" (String "}" " Merci."))))
  = Ok (JObj []).
Proof.
  rewrite (prose_around_the_object_is_dropped ReferenceAI.runtime
             "Voici : " "" " Merci.");
    [reflexivity | cbn; intuition discriminate | cbn; intuition discriminate].
Defined.

(** ** [_enrich_suggestions]: what the loop keeps *)

Section EnrichmentMore.
Variable rt : Runtime.t.

Lemma enrich_suggestion_keeps suggestion extracted_info enriched :
  enrich_suggestion rt suggestion extracted_info = Some enriched →
  subscript enriched "extracted_info" = Some extracted_info
  ∧ (∃ code rule_validation,
       subscript suggestion "code" = Some code
       ∧ Runtime.validate_code rt code extracted_info = Ok rule_validation
       ∧ subscript enriched "rule_validation" = Some rule_validation)
  ∧ ∀ k, k ≠ "score_confiance" → k ≠ "rule_validation" →
         k ≠ "extracted_info" →
         subscript enriched k = subscript suggestion k.
Proof.
  unfold enrich_suggestion.
  destruct (subscript suggestion "code") as [code|]; [cbn|discriminate].
  destruct (Runtime.validate_code rt code extracted_info) as [rv|e] eqn:Hrv;
    [cbn|discriminate].
  destruct suggestion as [| | | | |kv]; try discriminate. cbn.
  destruct (dict_get rv "is_valid" (JBool true)) as [is_valid|];
    [cbn|discriminate].
  destruct (dict_lookup "score_confiance" _) as [score|]; [cbn|discriminate].
  destruct (adjust_score (truthy is_valid) score) as [q|]; [cbn|discriminate].
  intros [= <-]. cbn [subscript]. split; [|split].
  - rewrite dict_lookup_set_ne by discriminate. apply dict_lookup_set_eq.
  - exists code, rv. repeat split; auto.
    rewrite !dict_lookup_set_ne by discriminate. apply dict_lookup_set_eq.
  - intros k H1 H2 H3. rewrite !dict_lookup_set_ne by congruence.
    reflexivity.
Qed.

(** X21. When the enrichment loop completes, it returns as many candidates
    as it was given, in the same order; each carries the extracted
    information and the rule engine's verdict on its code, and every other
    key but the score is as the provider gave it. The global score, the
    global explanation, the questions and the alerts are the provider's,
    or 0, the empty string and empty lists where the provider gave none. *)
Theorem enrichment_keeps_the_candidates parsed_response extracted_info
    items out :
  candidates parsed_response = Some items →
  mapM (fun s => enrich_suggestion rt s extracted_info) items = Some out →
  List.length out = List.length items
  ∧ Forall2
      (fun suggestion enriched =>
         subscript enriched "extracted_info" = Some extracted_info
         ∧ (∃ code rule_validation,
              subscript suggestion "code" = Some code
              ∧ Runtime.validate_code rt code extracted_info
                = Ok rule_validation
              ∧ subscript enriched "rule_validation" = Some rule_validation)
         ∧ ∀ k, k ≠ "score_confiance" → k ≠ "rule_validation" →
                k ≠ "extracted_info" →
                subscript enriched k = subscript suggestion k)
      items out
  ∧ (let enriched := _enrich_suggestions rt parsed_response extracted_info in
     subscript enriched "score_confiance_global"
     = dict_get parsed_response "score_confiance_global" (JNum (Int 0))
     ∧ subscript enriched "explication_globale"
       = dict_get parsed_response "explication_globale" (JStr "")
     ∧ subscript enriched "questions_clarification"
       = dict_get parsed_response "questions_clarification" (JArr [])
     ∧ subscript enriched "alertes"
       = dict_get parsed_response "alertes" (JArr [])).
Proof.
  intros Hc Hm. split; [symmetry; eapply length_mapM, Hm|]. split.
  - apply mapM_Some_1 in Hm.
    eapply Forall2_impl; [exact Hm|].
    intros s e H. apply enrich_suggestion_keeps, H.
  - unfold candidates, _enrich_suggestions in *.
    destruct parsed_response as [| | | | |kv]; try discriminate.
    cbn in Hc |- *.
    destruct (py_iter _) as [items'|]; [|discriminate].
    injection Hc as ->. cbn. rewrite Hm. cbn. auto.
Qed.

(** X22. One candidate is enough to switch the enrichment off: if any
    candidate has no code, or the rule engine raises on its code, the
    response is returned exactly as it was parsed, with no candidate
    adjusted or annotated. *)
Theorem one_bad_candidate_disables_enrichment parsed_response
    extracted_info items suggestion :
  candidates parsed_response = Some items →
  In suggestion items →
  subscript suggestion "code" = None
  ∨ (∃ code e,
       subscript suggestion "code" = Some code
       ∧ Runtime.validate_code rt code extracted_info = Raise e) →
  _enrich_suggestions rt parsed_response extracted_info = parsed_response.
Proof.
  intros Hc Hin Hbad.
  eapply enrich_suggestions_fallback; [exact Hc|].
  apply mapM_None_2, Exists_exists. exists suggestion.
  split; [apply list_elem_of_In, Hin|].
  unfold enrich_suggestion.
  destruct Hbad as [-> | (code & e & -> & Hr)]; [reflexivity|].
  cbn. rewrite Hr. reflexivity.
Qed.

End EnrichmentMore.

Lemma enrichment_keeps_the_candidates_witness :
  ∃ enriched,
    subscript
      (_enrich_suggestions ReferenceAI.runtime
         (ReferenceAI.object_value "HHFA001" 90) (JObj []))
      "suggestions" = Some (JArr [enriched])
    ∧ subscript enriched "libelle" = Some (JStr "Angioplastie")
    ∧ subscript enriched "extracted_info" = Some (JObj [])
    ∧ subscript
        (_enrich_suggestions ReferenceAI.runtime
           (ReferenceAI.object_value "HHFA001" 90) (JObj []))
        "alertes" = Some (JArr []).
Proof.
  assert (∃ enriched,
            mapM (fun s => enrich_suggestion ReferenceAI.runtime s (JObj []))
              [JObj [("code", JStr "HHFA001");
                     ("libelle", JStr "Angioplastie");
                     ("score_confiance", JNum (Int 90));
                     ("explication", JStr "stent")]] = Some [enriched]
            ∧ subscript
                (_enrich_suggestions ReferenceAI.runtime
                   (ReferenceAI.object_value "HHFA001" 90) (JObj []))
                "suggestions" = Some (JArr [enriched]))
    as (enriched & Hm & Hs) by (eexists; split; vm_compute; reflexivity).
  destruct (enrichment_keeps_the_candidates ReferenceAI.runtime
              (ReferenceAI.object_value "HHFA001" 90) (JObj []) _ _
              eq_refl Hm)
    as (_ & F & _ & _ & _ & Ha).
  apply Forall2_cons_1 in F as [(Hinfo & _ & Hkeep) _].
  exists enriched. split; [exact Hs|]. split; [|split].
  - rewrite Hkeep by discriminate. reflexivity.
  - exact Hinfo.
  - exact Ha.
Defined.

Lemma one_bad_candidate_disables_enrichment_witness :
  _enrich_suggestions ReferenceAI.runtime ReferenceAI.two_candidates
    (JObj []) = ReferenceAI.two_candidates.
Proof.
  apply (one_bad_candidate_disables_enrichment ReferenceAI.runtime
           ReferenceAI.two_candidates (JObj [])
           [JObj [("code", JStr "HHFA001");
                  ("libelle", JStr "Angioplastie");
                  ("score_confiance", JNum (Int 90));
                  ("explication", JStr "stent")];
            JObj [("libelle", JStr "Autre acte");
                  ("score_confiance", JNum (Int 60))]]
           (JObj [("libelle", JStr "Autre acte");
                  ("score_confiance", JNum (Int 60))]));
    [reflexivity | cbn; auto | left; reflexivity].
Defined.

(** ** [ccam_prompts.py] *)

Section PromptFacts.
Variable rt : Runtime.t.
Variable json_dumps : json → string.

Lemma get_prompt_cases prompt_name :
  (get_prompt rt prompt_name = None ∧ ¬ In prompt_name list_prompts)
  ∨ (∃ prompt,
       get_prompt rt prompt_name = Some prompt
       ∧ In prompt_name list_prompts
       ∧ CCAMPrompt.name prompt = prompt_name
       ∧ CCAMPrompt.template prompt = Runtime.template_text rt prompt_name).
Proof.
  unfold get_prompt, list_prompts.
  destruct (String.eqb_spec prompt_name "main_suggestion") as [-> | H1];
    [right; eexists; cbn; eauto 10|].
  destruct (String.eqb_spec prompt_name "validation") as [-> | H2];
    [right; eexists; cbn; eauto 10|].
  destruct (String.eqb_spec prompt_name "extraction") as [-> | H3];
    [right; eexists; cbn; eauto 10|].
  destruct (String.eqb_spec prompt_name "learning") as [-> | H4];
    [right; eexists; cbn; eauto 10|].
  destruct (String.eqb_spec prompt_name "anomaly_detection") as [-> | H5];
    [right; eexists; cbn; eauto 10|].
  left. split; [reflexivity|]. cbn. intuition congruence.
Qed.

(** X23. The names [list_prompts] returns are exactly the names
    [get_prompt] knows, and the prompt found under a name carries that
    name. *)
Theorem listed_prompts_are_the_known_ones prompt_name :
  (In prompt_name list_prompts ↔ ∃ prompt, get_prompt rt prompt_name = Some prompt)
  ∧ ∀ prompt, get_prompt rt prompt_name = Some prompt →
              CCAMPrompt.name prompt = prompt_name.
Proof.
  destruct (get_prompt_cases prompt_name)
    as [[Hnone Hnot] | (prompt & Hsome & Hin & Hname & _)].
  - split.
    + split; [contradiction|]. intros [p Hp]. congruence.
    + intros p Hp. congruence.
  - split.
    + split; eauto.
    + intros p Hp. congruence.
Qed.

(** X24. [format_prompt] formats the template only after two checks: an
    unknown name raises [ValueError], and so does a known name when one of
    the prompt's variables is not among the keyword arguments. When every
    variable is given, the result is the template's own [format] on the
    arguments; arguments the prompt does not name are let through. *)
Theorem format_prompt_checks_its_arguments prompt_name kwargs :
  match get_prompt rt prompt_name with
  | None =>
      format_prompt rt prompt_name kwargs
      = Raise (mkExc "ValueError"
                 (String.concat "" ["Prompt '"; prompt_name; "' non trouvé"]))
  | Some prompt =>
      (Forall (fun var => In var (map fst kwargs))
         (CCAMPrompt.variables prompt) →
       format_prompt rt prompt_name kwargs
       = Runtime.format rt (CCAMPrompt.template prompt) kwargs)
      ∧ (∀ var, In var (CCAMPrompt.variables prompt) →
                ¬ In var (map fst kwargs) →
                ∃ e, format_prompt rt prompt_name kwargs = Raise e
                     ∧ exc_class e = "ValueError")
  end.
Proof.
  unfold format_prompt.
  destruct (get_prompt rt prompt_name) as [prompt|]; [|reflexivity].
  destruct (List.filter _ (CCAMPrompt.variables prompt))
    as [|missing rest] eqn:Hf.
  - split; [reflexivity|]. intros var Hin Hnot. exfalso.
    assert (In var []) as [].
    rewrite <- Hf. apply filter_In. split; [exact Hin|].
    apply negb_true_iff. destruct (str_in var (map fst kwargs)) eqn:E;
      [|reflexivity].
    apply str_in_In in E. contradiction.
  - split.
    + intros Hall. exfalso.
      assert (In missing (missing :: rest)) as Hin by (left; reflexivity).
      rewrite <- Hf in Hin. apply filter_In in Hin as [Hin Hneg].
      rewrite Forall_forall in Hall.
      apply negb_true_iff in Hneg.
      assert (str_in missing (map fst kwargs) = true) as E
        by (apply str_in_In, Hall, list_elem_of_In, Hin).
      congruence.
    + intros var _ _. eexists. split; reflexivity.
Qed.

(** X25. None of the five places where the service formats a prompt can
    fail the variable check: the keyword arguments built for the main,
    extraction, validation, learning and anomaly prompts name every
    variable of their prompt, so each request is the template's own
    [format] on them. *)
Theorem service_prompts_name_their_variables :
  (∀ acte_data kwargs,
      main_prompt_kwargs rt acte_data = Ok kwargs →
      format_prompt rt "main_suggestion" kwargs
      = Runtime.format rt (Runtime.template_text rt "main_suggestion")
          kwargs)
  ∧ (∀ texte_clinique,
      format_prompt rt "extraction" [("texte_clinique", texte_clinique)]
      = Runtime.format rt (Runtime.template_text rt "extraction")
          [("texte_clinique", texte_clinique)])
  ∧ (∀ code_propose contexte_acte,
      format_prompt rt "validation"
        [("code_propose", code_propose); ("contexte_acte", contexte_acte)]
      = Runtime.format rt (Runtime.template_text rt "validation")
          [("code_propose", code_propose); ("contexte_acte", contexte_acte)])
  ∧ (∀ override_data kwargs,
      learning_kwargs json_dumps override_data = Ok kwargs →
      format_prompt rt "learning" kwargs
      = Runtime.format rt (Runtime.template_text rt "learning") kwargs)
  ∧ (∀ acte_details,
      format_prompt rt "anomaly_detection" [("acte_details", acte_details)]
      = Runtime.format rt (Runtime.template_text rt "anomaly_detection")
          [("acte_details", acte_details)]).
Proof.
  split; [|split; [|split; [|split]]].
  - intros acte_data kwargs. unfold main_prompt_kwargs.
    destruct (join ", " _); [|discriminate]. intros [= <-]. reflexivity.
  - reflexivity.
  - reflexivity.
  - intros override_data kwargs. unfold learning_kwargs.
    repeat (destruct (dict_lookup _ override_data); [|discriminate]).
    intros [= <-]. reflexivity.
  - reflexivity.
Qed.

(** X26. [detect_anomalies] never reads or writes the cache: every call
    that gets as far as the provider sends one prompt, a successful one
    exactly one, and its result is the decoded answer. *)
Theorem anomaly_detection_is_never_cached acte_data st r st' :
  detect_anomalies rt json_dumps acte_data st = (r, st') →
  cache st' = cache st
  ∧ now st' = now st
  ∧ (llm_calls st' = llm_calls st
     ∨ ∃ prompt, llm_calls st' = llm_calls st ++ [prompt])
  ∧ ∀ anomalies,
      r = Ok anomalies →
      ∃ prompt llm_response,
        llm_calls st' = llm_calls st ++ [prompt]
        ∧ Runtime.completion rt (llm_calls st) prompt = Ok llm_response
        ∧ _parse_llm_response rt llm_response = Ok anomalies.
Proof.
  unfold detect_anomalies, abind, lift, _call_llm.
  destruct (format_prompt rt "anomaly_detection" _) as [prompt|e].
  - destruct (Runtime.completion rt (llm_calls st) prompt) as [resp|e] eqn:Hc.
    + intros [= <- <-]. cbn [cache now llm_calls]. repeat split; eauto.
    + intros [= <- <-]. cbn [cache now llm_calls]. repeat split; eauto.
      discriminate.
  - intros [= <- <-]. repeat split; auto. discriminate.
Qed.

(** X27. Whatever its outcome, one [generate_suggestions] sends at most
    two prompts to the provider, and only adds to the list of those sent. *)
Theorem generation_sends_at_most_two_prompts acte_data force_regenerate st
    r st' :
  generate_suggestions rt acte_data force_regenerate st = (r, st') →
  ∃ sent,
    llm_calls st' = llm_calls st ++ sent ∧ (List.length sent <= 2)%nat.
Proof.
  assert (∀ key st0 r0 st1,
            generate_fresh rt acte_data key st0 = (r0, st1) →
            ∃ sent, llm_calls st1 = llm_calls st0 ++ sent
                    ∧ (List.length sent <= 2)%nat) as Hfresh.
  { intros key st0 r0 st1 (_ & (first & Hf & Hc) & _)%generate_fresh_effect.
    destruct Hc as [Hc | (kwargs & prompt & _ & _ & Hc)].
    - exists first. split; [exact Hc|].
      destruct Hf as [-> | [p ->]]; cbn; lia.
    - exists (first ++ [prompt]). split; [exact Hc|].
      destruct Hf as [-> | [p ->]]; cbn; lia. }
  unfold generate_suggestions, abind at 1, lift at 1.
  destruct (_create_cache_key rt acte_data) as [key|e0].
  - unfold abind.
    destruct (if negb force_regenerate then cache_get key else aret None)
      as [[cached|e0] st1] eqn:Hc.
    + assert (st1 = st) as ->.
      { destruct force_regenerate; cbn in Hc; injection Hc as _ <-;
          reflexivity. }
      destruct cached as [cached|]; [destruct (truthy cached)|]; eauto.
      intros [_ ->]%lift_inv. exists []. rewrite app_nil_r. cbn. auto.
    + destruct force_regenerate; cbn in Hc; discriminate.
  - intros [= _ <-]. exists []. rewrite app_nil_r. cbn. auto.
Qed.

End PromptFacts.

Lemma anomaly_detection_is_never_cached_witness :
  ∃ anomalies st',
    detect_anomalies ReferenceAI.runtime ReferenceStore.json_dumps
      (JObj [("type_acte", JStr "Angioplastie coronaire")])
      ReferenceAI.fresh_service = (Ok anomalies, st')
    ∧ cache st' = cache ReferenceAI.fresh_service
    ∧ ∃ prompt, llm_calls st' = [] ++ [prompt].
Proof.
  assert (∃ anomalies st',
            detect_anomalies ReferenceAI.runtime ReferenceStore.json_dumps
              (JObj [("type_acte", JStr "Angioplastie coronaire")])
              ReferenceAI.fresh_service = (Ok anomalies, st'))
    as (anomalies & st' & E) by (eexists; eexists; vm_compute; reflexivity).
  destruct (anomaly_detection_is_never_cached _ _ _ _ _ _ E)
    as (C & _ & _ & H).
  destruct (H anomalies eq_refl) as (prompt & resp & L & _).
  exists anomalies, st'. eauto.
Defined.

Lemma generation_sends_at_most_two_prompts_witness :
  ∃ sent,
    llm_calls
      (generate_suggestions ReferenceAI.runtime ReferenceAI.stent false
         ReferenceAI.fresh_service).2
    = [] ++ sent
    ∧ (List.length sent <= 2)%nat.
Proof.
  apply (generation_sends_at_most_two_prompts ReferenceAI.runtime
           ReferenceAI.stent false ReferenceAI.fresh_service
           (generate_suggestions ReferenceAI.runtime ReferenceAI.stent false
              ReferenceAI.fresh_service).1).
  apply surjective_pairing.
Defined.

Lemma edits_need_owner_and_pending_witness :
  let d := db (Reference.world_with (Reference.pending_acte None)) in
  let d' := db (Reference.world_with Reference.validated_acte) in
  (∃ acte, (update_acte Reference.acte_service ReferenceStore.acte_store 1
              ReferenceStore.no_change Reference.medecin d).1
           = Returned acte)
  ∧ ∃ h, delete_acte Reference.acte_service ReferenceStore.acte_store 1
           Reference.medecin d' = (Refused h, d')
         ∧ status_code h = 400.
Proof.
  cbv zeta. split; [eexists; vm_compute; reflexivity|].
  destruct (edits_need_owner_and_pending Reference.acte_service
              ReferenceStore.acte_store 1 ReferenceStore.no_change
              Reference.medecin
              (db (Reference.world_with Reference.validated_acte)))
    as [_ H].
  destruct (H _ _ (surjective_pairing _))
    as [(h & Hr & Hd & Hs) | (acte & Hget & _ & Hfin & _)].
  - exists h. split.
    + rewrite (surjective_pairing (delete_acte _ _ _ _ _)), Hr, Hd.
      reflexivity.
    + vm_compute in Hr. injection Hr as <-. reflexivity.
  - exfalso. vm_compute in Hget. injection Hget as <-. discriminate.
Defined.

Lemma low_score_refusal_exactly_witness :
  validate_acte Reference.acte_service Reference.blockchain_service 1
    (Reference.validation false) Reference.medecin
    (Reference.world_with (Reference.pending_acte (Some 40%Q)))
  = (Failure score_too_low,
     Reference.world_with (Reference.pending_acte (Some 40%Q))).
Proof.
  apply (low_score_refusal_exactly Reference.acte_service
           Reference.blockchain_service 1 (Reference.validation false)
           Reference.medecin).
  split; [reflexivity|].
  exists (Reference.pending_acte (Some 40%Q)), 40%Q.
  repeat split; try reflexivity; vm_compute; discriminate.
Defined.

Lemma format_prompt_checks_its_arguments_witness :
  (∃ e, format_prompt ReferenceAI.runtime "validation"
          [("code_propose", JStr "HHFA001")] = Raise e
        ∧ exc_class e = "ValueError")
  ∧ format_prompt ReferenceAI.runtime "resume" []
    = Raise (mkExc "ValueError" "Prompt 'resume' non trouvé").
Proof.
  split.
  - apply (format_prompt_checks_its_arguments ReferenceAI.runtime
             "validation" [("code_propose", JStr "HHFA001")])
      with (var := "contexte_acte").
    + cbn. auto.
    + cbn. intuition discriminate.
  - exact (format_prompt_checks_its_arguments ReferenceAI.runtime "resume"
             []).
Defined.
